(** * GenBI query-orchestration engine: a shallow embedding and its properties

    The development follows the Python sources module by module:

    - [Py], [PyStr], [PyDict], [Re]: the fragments of Python's exceptions,
      [str], [dict] and [re] the sources rely on;
    - [CostOptimization]: [cost_optimization.py] (complexity router, result
      cache, prompt optimizer, cost-optimised orchestrator);
    - [SqlTools]: [tools/sql_tools.py] (SQL cleaning, syntax validation,
      security validator);
    - [Models], [Discovery], [Catalog], [SchemaTools]: the [schema] package
      and [tools/schema_tools.py];
    - [Complexity], [SQLAgent], [SchemaAgent], [Orchestrator]: the [agents]
      package;
    - [Database]: the statement check of the Snowflake connector in
      [database.py];
    - [Env]: the external collaborators; [Samples], [Scenarios]: concrete
      catalogs and environments.

    Strings are sequences over ASCII and three further code points (U+0345,
    U+0399, U+03B9), on which [upper], [lower], the whitespace class and the
    word class [\w] are those of Python; other characters are outside the
    alphabet of the model, and a statement that depends on the characters
    of a text says which texts it covers.  External
    collaborators (the language model, the database driver, the metadata
    feed, the file system, the analysis agent) are oracles collected in an
    environment record; each stateful oracle sees the list of requests that
    were sent to it before. *)

From Stdlib Require Import String Ascii List ZArith Bool Arith Lia.
From Stdlib Require Import DecimalString.
Import ListNotations.
Open Scope list_scope.
Open Scope string_scope.

(* ================================================================= *)
(** * Part I: the embedding                                           *)
(* ================================================================= *)

(** ** Python values shared by all modules *)

Module Py.

Inductive exn : Type :=
| KeyError (key : string)
| ValueError (msg : string)
| IndexError (msg : string)
| AttributeError (msg : string)
| Exception (msg : string).

(** [str(e)] for the exceptions above. *)
Definition str_of_exn (e : exn) : string :=
  match e with
  | KeyError k => "'" ++ k ++ "'"
  | ValueError m | IndexError m | AttributeError m | Exception m => m
  end.

(** The result of running a block of code: it returns or it raises. *)
Inductive outcome (A : Type) : Type :=
| Return (a : A)
| Raise (e : exn).
Arguments Return {A} a.
Arguments Raise {A} e.

Inductive status : Type := success | error.

(** A result set: rows of (column name, rendered scalar). *)
Definition row : Type := list (string * string).
Definition rows : Type := list row.

End Py.

(** ** Strings *)

Module PyStr.

Definition code (c : ascii) : nat := nat_of_ascii c.

(** The alphabet.  A character is an ASCII character (the codes 0 to 127)
    or one of three further code points, carried by the codes 128 to 130,
    on which [str.upper], [str.lower] and the class [\w] of [re] differ
    from their restrictions to ASCII:
    - U+0345, the combining Greek ypogegrammeni: it is no word character,
      [lower] leaves it as it is and [upper] turns it into U+0399;
    - U+0399 and U+03B9, the Greek capital and small letter iota: word
      characters, each the other case of the other.
    The codes above 130 stand for no character. *)
Definition ypogegrammeni : ascii := ascii_of_nat 128.
Definition capital_iota : ascii := ascii_of_nat 129.
Definition small_iota : ascii := ascii_of_nat 130.

(** [c.isascii()] and [s.isascii()] *)
Definition is_ascii_char (c : ascii) : bool := (code c <? 128)%nat.

Fixpoint is_ascii (s : string) : bool :=
  match s with
  | EmptyString => true
  | String c s' => is_ascii_char c && is_ascii s'
  end.

Definition is_upper_letter (c : ascii) : bool :=
  ((65 <=? code c) && (code c <=? 90))%nat.
Definition is_lower_letter (c : ascii) : bool :=
  ((97 <=? code c) && (code c <=? 122))%nat.
Definition is_digit (c : ascii) : bool :=
  ((48 <=? code c) && (code c <=? 57))%nat.

(** [str.isspace]: TAB..CR, FS..US and the blank; none of the three
    further code points is white space. *)
Definition isspace (c : ascii) : bool :=
  (((9 <=? code c) && (code c <=? 13))
   || ((28 <=? code c) && (code c <=? 32)))%nat.

(** The class [\w] of the [re] module: letters, digits and the
    underscore. *)
Definition is_word (c : ascii) : bool :=
  is_upper_letter c || is_lower_letter c || is_digit c || (code c =? 95)%nat
  || Ascii.eqb c capital_iota || Ascii.eqb c small_iota.

Definition upper_char (c : ascii) : ascii :=
  if is_lower_letter c then ascii_of_nat (code c - 32)
  else if Ascii.eqb c ypogegrammeni || Ascii.eqb c small_iota
       then capital_iota
       else c.
Definition lower_char (c : ascii) : ascii :=
  if is_upper_letter c then ascii_of_nat (code c + 32)
  else if Ascii.eqb c capital_iota then small_iota
       else c.

Fixpoint map_chars (f : ascii -> ascii) (s : string) : string :=
  match s with
  | EmptyString => EmptyString
  | String c s' => String (f c) (map_chars f s')
  end.

Definition upper : string -> string := map_chars upper_char.
Definition lower : string -> string := map_chars lower_char.

(** [s.startswith(p)] *)
Fixpoint startswith (s p : string) {struct p} : bool :=
  match p, s with
  | EmptyString, _ => true
  | String _ _, EmptyString => false
  | String a p', String b s' => Ascii.eqb a b && startswith s' p'
  end.

(** [s[len(p):]] when [s.startswith(p)]. *)
Fixpoint strip_prefix (p s : string) {struct p} : option string :=
  match p, s with
  | EmptyString, _ => Some s
  | String _ _, EmptyString => None
  | String a p', String b s' =>
      if Ascii.eqb a b then strip_prefix p' s' else None
  end.

(** [s.endswith(suf)] *)
Fixpoint endswith (s suf : string) : bool :=
  String.eqb s suf
  || match s with
     | EmptyString => false
     | String _ s' => endswith s' suf
     end.

(** [sub in s] *)
Fixpoint contains (sub s : string) : bool :=
  startswith s sub
  || match s with
     | EmptyString => false
     | String _ s' => contains sub s'
     end.

(** [s.count(sub)]: occurrences found left to right without overlap.
    [skip] characters are still covered by the last occurrence. *)
Fixpoint count_from (sub s : string) (skip : nat) : nat :=
  match s with
  | EmptyString => 0
  | String _ s' =>
      match skip with
      | S k => count_from sub s' k
      | O => if startswith s sub
             then S (count_from sub s' (String.length sub - 1))
             else count_from sub s' 0
      end
  end.

Definition count (s sub : string) : nat :=
  match sub with
  | EmptyString => S (String.length s)
  | _ => count_from sub s 0
  end.

(** [s.split()]: the maximal runs of non-whitespace characters. *)
Fixpoint split_from (cur : option string) (s : string) : list string :=
  match s with
  | EmptyString => match cur with Some w => [w] | None => [] end
  | String c s' =>
      if isspace c
      then match cur with
           | Some w => w :: split_from None s'
           | None => split_from None s'
           end
      else split_from
             (Some (match cur with
                    | Some w => w ++ String c EmptyString
                    | None => String c EmptyString
                    end)) s'
  end.

Definition split (s : string) : list string := split_from None s.

(** [s.split(sep)] for a one-character separator. *)
Fixpoint split_on_from (sep : ascii) (cur s : string) : list string :=
  match s with
  | EmptyString => [cur]
  | String c s' =>
      if Ascii.eqb c sep
      then cur :: split_on_from sep EmptyString s'
      else split_on_from sep (cur ++ String c EmptyString) s'
  end.

Definition split_on (sep : ascii) (s : string) : list string :=
  split_on_from sep EmptyString s.

(** [sep.join(parts)] *)
Definition join (sep : string) (parts : list string) : string :=
  String.concat sep parts.

Fixpoint rev (s : string) : string :=
  match s with
  | EmptyString => EmptyString
  | String c s' => rev s' ++ String c EmptyString
  end.

Fixpoint lstrip (s : string) : string :=
  match s with
  | EmptyString => EmptyString
  | String c s' => if isspace c then lstrip s' else s
  end.

Definition rstrip (s : string) : string := rev (lstrip (rev s)).
Definition strip (s : string) : string := lstrip (rstrip s).

(** [s[n:]] and [s[:-n]] *)
Fixpoint drop (n : nat) (s : string) : string :=
  match n, s with
  | O, _ => s
  | S _, EmptyString => EmptyString
  | S k, String _ s' => drop k s'
  end.

Definition drop_last (n : nat) (s : string) : string :=
  String.substring 0 (String.length s - n) s.

(** Truthiness of a string: [bool(s)]. *)
Definition truthy (s : string) : bool :=
  match s with EmptyString => false | _ => true end.

Definition newline : ascii := ascii_of_nat 10.
Definition nl : string := String newline EmptyString.

(** The last character of [s], or [d] when [s] is empty. *)
Fixpoint last_from (d : option ascii) (s : string) : option ascii :=
  match s with
  | EmptyString => d
  | String c s' => last_from (Some c) s'
  end.

Definition last_char (s : string) : option ascii := last_from None s.

Definition first_char (s : string) : option ascii :=
  match s with
  | EmptyString => None
  | String c _ => Some c
  end.

(** A word of [str.split()]: not empty and free of whitespace. *)
Fixpoint spaceless (s : string) : bool :=
  match s with
  | EmptyString => true
  | String c s' => negb (isspace c) && spaceless s'
  end.

Definition is_split_word (w : string) : Prop :=
  w <> "" /\ spaceless w = true.

(** Reading a whitespace-free run extends the word being collected. *)
Definition extend (cur : option string) (u : string) : option string :=
  match u with
  | EmptyString => cur
  | _ => Some (match cur with Some w => w | None => "" end ++ u)
  end.

End PyStr.

(** ** Dictionaries

    A [dict] keeps its keys in insertion order; assigning to a key that is
    present keeps its position.  Iteration order matters for [min] over the
    keys, so the model is an association list. *)

Module PyDict.

Definition dict (V : Type) : Type := list (string * V).

Fixpoint get {V : Type} (k : string) (d : dict V) : option V :=
  match d with
  | [] => None
  | (k', v) :: d' => if String.eqb k k' then Some v else get k d'
  end.

Definition mem {V : Type} (k : string) (d : dict V) : bool :=
  match get k d with Some _ => true | None => false end.

(** [d[k] = v] *)
Fixpoint set {V : Type} (k : string) (v : V) (d : dict V) : dict V :=
  match d with
  | [] => [(k, v)]
  | (k', v') :: d' =>
      if String.eqb k k' then (k', v) :: d' else (k', v') :: set k v d'
  end.

(** [del d[k]] once [k in d] is known. *)
Fixpoint del {V : Type} (k : string) (d : dict V) : dict V :=
  match d with
  | [] => []
  | (k', v') :: d' =>
      if String.eqb k k' then d' else (k', v') :: del k d'
  end.

Definition keys {V : Type} (d : dict V) : list string := map fst d.

(** [min] keeps the candidate it holds unless the next one is strictly
    smaller. *)
Definition pick (best cand : string * Z) : string * Z :=
  if (snd cand <? snd best)%Z then cand else best.

(** [min(d.keys(), key=lambda k: d[k])]: the first key, in iteration
    order, whose value is least; [None] stands for the [ValueError] that
    [min] raises on an empty sequence. *)
Definition min_key (d : dict Z) : option string :=
  match d with
  | [] => None
  | kt :: rest => Some (fst (fold_left pick rest kt))
  end.

End PyDict.

(** ** cost_optimization.py *)

Module CostOptimization.
Import Py PyStr PyDict.

(** *** QueryComplexityRouter *)

Inductive complexity : Type := simple | moderate | complex.

Definition simple_indicators : list string :=
  ["count"; "total"; "sum"; "how many"; "show me"; "list all"].

Definition complex_indicators : list string :=
  ["compare"; "analyze"; "trend"; "correlation"; "predict";
   "percentage"; "ratio"; "join"; "group by"; "having"].

(** [sum(1 for indicator in indicators if indicator in text)] *)
Definition score (indicators : list string) (text : string) : nat :=
  List.length (filter (fun indicator => contains indicator text) indicators).

(** [assess_complexity(question, schema_size)]; the second argument is
    not used. *)
Definition assess_complexity (question : string) : complexity :=
  let question_lower := lower question in
  let simple_score := score simple_indicators question_lower in
  let complex_score := score complex_indicators question_lower in
  let word_count := List.length (split question) in
  let has_multiple_conditions :=
    (1 <? count question_lower "and" + count question_lower "or")%nat in
  if (1 <? complex_score)%nat || has_multiple_conditions
     || (20 <? word_count)%nat
  then complex
  else if (0 <? simple_score)%nat && (complex_score =? 0)%nat
          && (word_count <? 10)%nat
  then simple
  else moderate.

(** *** ResultCacheManager *)

Record ResultCacheManager : Type := {
  cache : dict rows;
  cache_timestamps : dict Z;
  max_cache_size : Z;
  ttl_seconds : Z
}.

(** [ResultCacheManager(max_cache_size, ttl_seconds)] *)
Definition init (max_cache_size ttl_seconds : Z) : ResultCacheManager :=
  {| cache := []; cache_timestamps := [];
     max_cache_size := max_cache_size; ttl_seconds := ttl_seconds |}.

Definition default : ResultCacheManager := init 1000 3600.

Definition with_maps (self : ResultCacheManager)
           (c : dict rows) (t : dict Z) : ResultCacheManager :=
  {| cache := c; cache_timestamps := t;
     max_cache_size := max_cache_size self;
     ttl_seconds := ttl_seconds self |}.

Section WithHash.

(** [hashlib.md5(text.encode()).hexdigest()] *)
Variable md5 : string -> string.

Definition get_cache_key (sql : string) : string :=
  let normalized_sql := join " " (split (lower sql)) in
  md5 normalized_sql.

(** [now] is the reading of [time.time()] taken by the call; clock
    readings and the TTL are integers, and only their order matters.  The
    second component is the object after the call, also when the call
    raises. *)
Definition get_cached_result (self : ResultCacheManager) (sql : string)
           (now : Z) : outcome (option rows) * ResultCacheManager :=
  let cache_key := get_cache_key sql in
  match get cache_key (cache self) with
  | None => (Return None, self)
  | Some result =>
      match get cache_key (cache_timestamps self) with
      | None => (Raise (KeyError cache_key), self)
      | Some stamp =>
          if (ttl_seconds self <? now - stamp)%Z
          then (Return None,
                with_maps self (del cache_key (cache self))
                          (del cache_key (cache_timestamps self)))
          else (Return (Some result), self)
      end
  end.

Definition cache_result (self : ResultCacheManager) (sql : string)
           (result : rows) (now : Z) : outcome unit * ResultCacheManager :=
  let cache_key := get_cache_key sql in
  if (max_cache_size self <=? Z.of_nat (List.length (cache self)))%Z
  then
    match min_key (cache_timestamps self) with
    | None => (Raise (ValueError "min() arg is an empty sequence"), self)
    | Some oldest_key =>
        if mem oldest_key (cache self)
        then
          let c := del oldest_key (cache self) in
          let t := del oldest_key (cache_timestamps self) in
          (Return tt, with_maps self (set cache_key result c)
                                (set cache_key now t))
        else (Raise (KeyError oldest_key), self)
    end
  else
    (Return tt, with_maps self (set cache_key result (cache self))
                          (set cache_key now (cache_timestamps self))).

(** A client of the cache issues lookups and insertions. *)
Inductive op : Type :=
| Get (sql : string) (now : Z)
| Put (sql : string) (result : rows) (now : Z).

Definition step (self : ResultCacheManager) (o : op) : ResultCacheManager :=
  match o with
  | Get sql now => snd (get_cached_result self sql now)
  | Put sql result now => snd (cache_result self sql result now)
  end.

Definition run (ops : list op) (self : ResultCacheManager)
  : ResultCacheManager :=
  fold_left step ops self.

End WithHash.

(** The object invariant of the cache: both maps list the same keys, in
    the same order, each once. *)
Definition cache_wf (self : ResultCacheManager) : Prop :=
  keys (cache self) = keys (cache_timestamps self)
  /\ NoDup (keys (cache self)).

(** The entry stored under [k] is older than its TTL at time [now]. *)
Definition expired (self : ResultCacheManager) (k : string) (now : Z)
  : Prop :=
  exists stamp, get k (cache_timestamps self) = Some stamp
                /\ (ttl_seconds self < now - stamp)%Z.

(** No stored entry carries a timestamp below [stamp]. *)
Definition oldest_stamp (self : ResultCacheManager) (stamp : Z) : Prop :=
  forall k t, get k (cache_timestamps self) = Some t -> (stamp <= t)%Z.

(** The reading of the specification under which an expired entry
    outlives the lookup that finds it expired. *)
Definition expired_entry_survives_lookup : Prop :=
  forall (md5 : string -> string) (self : ResultCacheManager)
         (sql : string) (now : Z),
    cache_wf self ->
    expired self (get_cache_key md5 sql) now ->
    fst (get_cached_result md5 self sql now) = Return None
    /\ mem (get_cache_key md5 sql)
           (cache (snd (get_cached_result md5 self sql now))) = true.

(** An insertion evicts one entry whose timestamp is the oldest and stores
    the new entry; every other entry keeps its value and its timestamp. *)
Definition evicts_oldest_and_stores
           (md5 : string -> string) (self : ResultCacheManager)
           (sql : string) (result : rows) (now : Z) : Prop :=
  let key := get_cache_key md5 sql in
  let self' := snd (cache_result md5 self sql result now) in
  exists oldest stamp,
    fst (cache_result md5 self sql result now) = Return tt
    /\ get oldest (cache_timestamps self) = Some stamp
    /\ oldest_stamp self stamp
    /\ (forall k, In k (keys (cache self')) <->
                  k = key \/ (k <> oldest /\ In k (keys (cache self))))
    /\ (forall k, k <> oldest -> k <> key ->
          get k (cache self') = get k (cache self)
          /\ get k (cache_timestamps self')
             = get k (cache_timestamps self))
    /\ get key (cache self') = Some result
    /\ get key (cache_timestamps self') = Some now.

(** The reading of the specification for every configured capacity: each
    insertion made when the number of stored entries has reached the
    capacity evicts the oldest entry and stores the new one. *)
Definition insert_at_capacity_evicts : Prop :=
  forall (md5 : string -> string) (self : ResultCacheManager)
         (sql : string) (result : rows) (now : Z),
    cache_wf self ->
    (max_cache_size self <= Z.of_nat (List.length (cache self)))%Z ->
    evicts_oldest_and_stores md5 self sql result now.

(** Every operation of [ops] is a lookup, and none of them is made after
    [deadline]. *)
Definition lookups_until (deadline : Z) (ops : list op) : Prop :=
  Forall (fun o => match o with
                   | Get _ now => (now <= deadline)%Z
                   | Put _ _ _ => False
                   end) ops.

(** *** PromptOptimizer

    The schema a caller passes is a dictionary with a list of tables;
    a table has a name and columns, a column a name, a data type and the
    primary-key flag. *)

Record schema_column : Type := {
  col_name : string;
  col_data_type : string;
  col_is_primary_key : bool
}.

Record schema_table : Type := {
  tbl_name : string;
  tbl_columns : list schema_column
}.

Definition schema : Type := list schema_table.

(** [OptimizationMetrics]; the processing time and the estimated cost
    are floating-point readings and are left out. *)
Record OptimizationMetrics : Type := {
  original_tokens : nat;
  optimized_tokens : nat;
  cache_hits : nat;
  cache_misses : nat
}.

Definition business_terms : list string :=
  ["customer"; "order"; "product"; "sale"; "transaction"; "invoice"].

(** The body of the loop over the tables; the keywords are the words of
    the question, and [any] does not depend on their order. *)
Definition is_relevant (question_keywords : list string)
           (table : schema_table) : bool :=
  let table_name := lower (tbl_name table) in
  existsb (fun keyword => contains keyword table_name) question_keywords
  || existsb (fun column =>
                existsb (fun keyword =>
                           contains keyword (lower (col_name column)))
                        question_keywords)
             (tbl_columns table)
  || existsb (fun business_term => contains business_term table_name)
             business_terms.

Definition _extract_relevant_tables (question : string) (schema : schema)
  : list schema_table :=
  let question_keywords := split (lower question) in
  let relevant_tables := filter (is_relevant question_keywords) schema in
  let relevant_tables :=
    match relevant_tables with
    | [] => firstn 3 schema
    | _ => relevant_tables
    end in
  firstn 5 relevant_tables.

Definition essential_keywords : list string :=
  ["id"; "name"; "date"; "time"; "amount"; "price"; "total"; "count";
   "status"].

Definition essential_columns (table : schema_table) : list string :=
  firstn 6
    (map (fun col =>
            col_name col ++ "(" ++ lower (col_data_type col) ++ ")")
         (filter (fun col =>
                    existsb (fun keyword =>
                               contains keyword (lower (col_name col)))
                            essential_keywords
                    || col_is_primary_key col)
                 (tbl_columns table))).

Definition _compress_schema_info (tables : list schema_table) : string :=
  join "; "
       (flat_map (fun table =>
                    match essential_columns table with
                    | [] => []
                    | columns =>
                        [tbl_name table ++ "(" ++ join "," columns ++ ")"]
                    end) tables).

Definition _build_compressed_prompt (question compressed_schema : string)
  : string :=
  "Generate SQL for: " ++ question ++ nl ++ "Schema: " ++ compressed_schema
    ++ nl ++ "Return SQL only:".

(** [str(n)] for a length. *)
Definition str_of_nat (n : nat) : string :=
  NilEmpty.string_of_uint (Nat.to_uint n).

(** *** CostOptimizedOrchestrator *)

Record CostOptimizedOrchestrator : Type := {
  (** [prompt_optimizer.compression_cache] *)
  compression_cache : dict string;
  result_cache : ResultCacheManager;
  total_queries : nat;
  stats_cache_hits : nat;
  tokens_saved : Z
}.

Definition new_orchestrator : CostOptimizedOrchestrator :=
  {| compression_cache := []; result_cache := default;
     total_queries := 0; stats_cache_hits := 0; tokens_saved := 0 |}.

Inductive task_result : Type :=
| CacheHit (results : rows)
| OptimizedTask (optimized_prompt : string) (complexity : complexity)
                (metrics : OptimizationMetrics).

Section WithHashAndRepr.

Variable md5 : string -> string.

(** [len(str(schema))]: the length of the interpreter's rendering of the
    schema dictionary. *)
Variable schema_repr_length : schema -> nat.

(** [optimize_schema_prompt] on the compression cache [cache]. *)
Definition optimize_schema_prompt (cache : dict string) (question : string)
           (schema : schema)
  : (string * OptimizationMetrics) * dict string :=
  let cache_key :=
    md5 (question ++ "_" ++ str_of_nat (List.length schema)) in
  match get cache_key cache with
  | Some result =>
      ((result, {| original_tokens := 0; optimized_tokens := 0;
                   cache_hits := 1; cache_misses := 0 |}), cache)
  | None =>
      let relevant_tables := _extract_relevant_tables question schema in
      let compressed_schema := _compress_schema_info relevant_tables in
      let optimized_prompt :=
        _build_compressed_prompt question compressed_schema in
      ((optimized_prompt,
        {| original_tokens := schema_repr_length schema / 4;
           optimized_tokens := String.length optimized_prompt / 4;
           cache_hits := 0; cache_misses := 1 |}),
       set cache_key optimized_prompt cache)
  end.

(** The body of [optimize_workflow_task]; [now] is the clock reading the
    result cache takes.  The estimated cost saved is a floating-point
    sum and is left out. *)
Definition optimize_workflow_task (self : CostOptimizedOrchestrator)
           (question : string) (schema : schema) (now : Z)
  : outcome task_result * CostOptimizedOrchestrator :=
  let counted (c : dict string) (r : ResultCacheManager) (hits : nat)
              (saved : Z) :=
    {| compression_cache := c; result_cache := r;
       total_queries := S (total_queries self);
       stats_cache_hits := hits; tokens_saved := saved |} in
  let (cached, cache1) :=
    get_cached_result md5 (result_cache self) question now in
  match cached with
  | Raise e =>
      (Raise e, counted (compression_cache self) cache1
                        (stats_cache_hits self) (tokens_saved self))
  | Return cached_result =>
      match cached_result with
      | Some (row :: more) =>
          (Return (CacheHit (row :: more)),
           counted (compression_cache self) cache1
                   (S (stats_cache_hits self)) (tokens_saved self))
      | _ =>
          let (optimized, c) :=
            optimize_schema_prompt (compression_cache self) question
                                   schema in
          let metrics := snd optimized in
          (Return (OptimizedTask (fst optimized)
                                 (assess_complexity question) metrics),
           counted c cache1 (stats_cache_hits self)
                   (tokens_saved self
                    + (Z.of_nat (original_tokens metrics)
                       - Z.of_nat (optimized_tokens metrics)))%Z)
      end
  end.

(** A sequence of tasks, each with its clock reading. *)
Fixpoint optimize_all (self : CostOptimizedOrchestrator)
         (tasks : list (string * schema * Z))
  : list (outcome task_result) * CostOptimizedOrchestrator :=
  match tasks with
  | [] => ([], self)
  | (question, schema, now) :: rest =>
      let (r, self1) := optimize_workflow_task self question schema now in
      let (rs, self2) := optimize_all self1 rest in
      (r :: rs, self2)
  end.

End WithHashAndRepr.

End CostOptimization.

(** ** The fragment of [re] used by the tools *)

Module Re.
Import PyStr.

Definition opt_is_word (c : option ascii) : bool :=
  match c with Some c => is_word c | None => false end.

(** Is there a word boundary [\b] between the characters [prev] and
    [next]?  Outside the string there is no word character. *)
Definition boundary (prev next : option ascii) : bool :=
  xorb (opt_is_word prev) (opt_is_word next).

(** Does [\bkw\b], for a literal [kw], match at the start of [s], where
    [prev] is the character before [s]? *)
Definition match_word_here (kw : string) (prev : option ascii) (s : string)
  : bool :=
  boundary prev (first_char s)
  && match strip_prefix kw s with
     | Some rest => boundary (last_from prev kw) (first_char rest)
     | None => false
     end.

Fixpoint search_word_from (kw : string) (prev : option ascii) (s : string)
  : bool :=
  match_word_here kw prev s
  || match s with
     | EmptyString => false
     | String c s' => search_word_from kw (Some c) s'
     end.

(** [re.search(r'\bkw\b', s)] *)
Definition search_word (kw s : string) : bool := search_word_from kw None s.

(** Does [.*b] match at the start of [s]?  The dot stops at a newline. *)
Fixpoint follows_on_line (b s : string) : bool :=
  startswith s b
  || match s with
     | EmptyString => false
     | String c s' =>
         if Ascii.eqb c newline then false else follows_on_line b s'
     end.

(** [re.search(a + '.*' + b, s)] for literals [a] and [b]. *)
Fixpoint search_then (a b s : string) : bool :=
  match strip_prefix a s with
  | Some rest => follows_on_line b rest
  | None => false
  end
  || match s with
     | EmptyString => false
     | String _ s' => search_then a b s'
     end.

(** The same under [re.IGNORECASE]. *)
Definition search_then_ignorecase (a b s : string) : bool :=
  search_then (upper a) (upper b) (upper s).

(** No line break in [s]: the dot of a pattern matches all of it. *)
Fixpoint no_newline (s : string) : bool :=
  match s with
  | EmptyString => true
  | String c s' => negb (Ascii.eqb c newline) && no_newline s'
  end.

End Re.

(** ** tools/sql_tools.py

    The tools also attach informational fields (syntax validation, query
    analysis, optimisation hints, timestamps) that no caller reads; they
    are left out. *)

Module SqlTools.
Import Py PyStr.

(** *** NLToSQLTool *)

Definition fence : string := "```".

Definition _clean_sql_query (sql_query : string) : string :=
  if negb (truthy sql_query) then ""
  else
    let query := strip sql_query in
    let query :=
      if startswith query (fence ++ "sql") then drop 6 query else query in
    let query := if startswith query fence then drop 3 query else query in
    let query := if endswith query fence then drop_last 3 query else query in
    let lines := split_on newline query in
    let cleaned_lines := filter truthy (map strip lines) in
    join nl cleaned_lines.

Inductive nl_to_sql_result : Type :=
| NlError (message : string)
| NlSuccess (sql_query : string).

(** [NLToSQLTool.execute]; [answer] is what
    [llm_client.generate_sql_query] returned for the request. *)
Definition nl_to_sql (answer : option string) : nl_to_sql_result :=
  match answer with
  | None => NlError "Failed to generate SQL query"
  | Some sql_query =>
      if truthy sql_query
      then NlSuccess (_clean_sql_query sql_query)
      else NlError "Failed to generate SQL query"
  end.

(** *** QueryOptimizerTool: it reports hints and returns the query
    unchanged. *)

Definition optimized_query (sql_query : string) : string := sql_query.

(** *** SecurityValidatorTool *)

Record validation_result : Type := {
  is_secure : bool;
  security_level : string;
  issues : list string;
  warnings : list string;
  blocked_operations : list string;
  recommendations : list string
}.

Definition dangerous_keywords : list string :=
  ["DROP"; "DELETE"; "UPDATE"; "INSERT"; "TRUNCATE"; "ALTER";
   "CREATE"; "GRANT"; "REVOKE"; "EXEC"; "EXECUTE"; "CALL"].

Definition _check_dangerous_operations (sql_query : string) : list string :=
  let sql_upper := upper sql_query in
  filter (fun keyword => Re.search_word keyword sql_upper) dangerous_keywords.

(** The patterns [';.*--], [UNION.*SELECT] and [OR.*1=1], each as its
    two literal ends and its source text. *)
Definition injection_patterns : list (string * string * string) :=
  [("';", "--", "';.*--");
   ("UNION", "SELECT", "UNION.*SELECT");
   ("OR", "1=1", "OR.*1=1")].

Definition _check_injection_risks (sql_query : string) : list string :=
  map (fun p => "Potential injection pattern detected: " ++ snd p)
      (filter (fun p => Re.search_then_ignorecase
                          (fst (fst p)) (snd (fst p)) sql_query)
              injection_patterns).

Definition system_patterns : list string :=
  ["INFORMATION_SCHEMA"; "SNOWFLAKE.ACCOUNT_USAGE"; "SYS."; "SYSTEM$"].

Definition _check_information_disclosure (sql_query : string) : list string :=
  let sql_upper := upper sql_query in
  map (fun pattern => "Query accesses system information: " ++ pattern)
      (filter (fun pattern => contains pattern sql_upper) system_patterns).

Definition _generate_security_recommendations (strict_mode : bool)
  : list string :=
  ((if strict_mode
    then ["Query has been validated in strict security mode";
          "Only SELECT operations are permitted";
          "System table access is monitored"]
    else [])
   ++ ["Query will be executed with read-only permissions";
       "Results are limited to prevent data exfiltration"])%list.

Definition nonempty {A : Type} (l : list A) : bool :=
  match l with [] => false | _ => true end.

(** [SecurityValidatorTool.execute(sql_query=..., strict_mode=...)];
    the returned dictionary's [validation_result]. *)
Definition security_validator (sql_query : string) (strict_mode : bool)
  : validation_result :=
  let dangerous_ops := _check_dangerous_operations sql_query in
  let injection_risks := _check_injection_risks sql_query in
  let disclosure_risks := _check_information_disclosure sql_query in
  {| is_secure := negb (nonempty dangerous_ops);
     security_level :=
       if nonempty injection_risks then "medium"
       else if nonempty dangerous_ops then "critical"
       else "high";
     issues :=
       if nonempty dangerous_ops
       then ["Query contains dangerous operations"] else [];
     warnings := (injection_risks ++ disclosure_risks)%list;
     blocked_operations := dangerous_ops;
     recommendations := _generate_security_recommendations strict_mode |}.

(** A keyword stands in [sql] as a token of its own: some spelling of it,
    in any letter case, with no word character next to it on either
    side. *)
Definition standalone_token (keyword sql : string) : Prop :=
  exists pre tok post,
    sql = pre ++ tok ++ post
    /\ upper tok = keyword
    /\ Re.opt_is_word (last_char pre) = false
    /\ Re.opt_is_word (first_char post) = false.



(** *** NLToSQLTool._validate_sql_syntax *)

Module SyntaxValidation.
Record t : Type := {
  is_valid : bool;
  issues : list string;
  warnings : list string;
  suggestions : list string
}.
End SyntaxValidation.

Definition syntax_dangerous_keywords : list string :=
  ["DROP"; "DELETE"; "UPDATE"; "INSERT"; "TRUNCATE"; "ALTER"].

Definition _validate_sql_syntax (sql_query : string) : SyntaxValidation.t :=
  if negb (truthy sql_query)
  then {| SyntaxValidation.is_valid := false;
          SyntaxValidation.issues := ["Empty SQL query"];
          SyntaxValidation.warnings := [];
          SyntaxValidation.suggestions := [] |}
  else
    let sql_upper := upper sql_query in
    let no_select :=
      negb (startswith (strip sql_upper) "SELECT")
      && negb (startswith (strip sql_upper) "WITH") in
    let found :=
      filter (fun keyword => contains keyword sql_upper)
             syntax_dangerous_keywords in
    {| SyntaxValidation.is_valid := negb no_select && negb (nonempty found);
       SyntaxValidation.issues :=
         ((if no_select then ["Query must start with SELECT or WITH"] else [])
          ++ map (fun keyword =>
                    ("Dangerous operation detected: " ++ keyword)%string)
                 found)%list;
       SyntaxValidation.warnings :=
         ((if negb (count sql_query "(" =? count sql_query ")")%nat
           then ["Unmatched parentheses detected"] else [])
          ++ (if negb (contains "FROM" sql_upper)
                 && contains "SELECT" sql_upper
              then ["Query may be missing FROM clause"] else []))%list;
       SyntaxValidation.suggestions := [] |}.

End SqlTools.

(** ** agents/sql_agent.py: the complexity classifier *)

Module Complexity.
Import PyStr.

Inductive complexity_level : Type := simple | medium | advanced.

Definition simple_indicators : list string :=
  ["total"; "sum"; "count"; "average"; "max"; "min"].

Definition complex_indicators : list string :=
  ["compare"; "trend"; "growth"; "year over year"; "correlation";
   "top"; "bottom"; "rank"; "percentile"; "moving average";
   "pivot"; "cross-tab"; "breakdown by"].

Definition advanced_indicators : list string :=
  ["cohort"; "funnel"; "attribution"; "statistical";
   "regression"; "forecasting"; "anomaly"; "clustering"].

(** [any(indicator in text for indicator in indicators)] *)
Definition any_in (indicators : list string) (text : string) : bool :=
  existsb (fun indicator => contains indicator text) indicators.

(** [SQLAgent._determine_complexity_level] *)
Definition _determine_complexity_level (question : string)
  : complexity_level :=
  let question_lower := lower question in
  if any_in advanced_indicators question_lower then advanced
  else if any_in complex_indicators question_lower then medium
  else if any_in simple_indicators question_lower then simple
  else medium.

(** Some indicator of the list occurs in the lower-cased question. *)
Definition occurs (indicators : list string) (question : string) : Prop :=
  exists indicator pre post,
    In indicator indicators /\ lower question = pre ++ indicator ++ post.

(** The rule as the specification words it: conjunction and word counts
    take part in the decision. *)
Definition stated_rule (question : string) : complexity_level :=
  let question_lower := lower question in
  let word_count := List.length (split question) in
  let conjunctions :=
    (count question_lower "and" + count question_lower "or")%nat in
  if any_in advanced_indicators question_lower then advanced
  else if any_in complex_indicators question_lower
          || (1 <? conjunctions)%nat || (20 <? word_count)%nat then medium
  else if any_in simple_indicators question_lower && (word_count <? 10)%nat
  then simple
  else medium.

Definition classifier_follows_stated_rule : Prop :=
  forall question, _determine_complexity_level question = stated_rule question.

End Complexity.

(** ** schema/models.py *)

Module Models.
Import PyStr PyDict.

Inductive RelationshipType : Type :=
| ONE_TO_ONE | ONE_TO_MANY | MANY_TO_ONE | MANY_TO_MANY.

(** [relationship_type.value] *)
Definition value (t : RelationshipType) : string :=
  match t with
  | ONE_TO_ONE => "ONE_TO_ONE"
  | ONE_TO_MANY => "ONE_TO_MANY"
  | MANY_TO_ONE => "MANY_TO_ONE"
  | MANY_TO_MANY => "MANY_TO_MANY"
  end.

Module Column.
Record t : Type := {
  name : string;
  data_type : string;
  business_name : option string;
  description : option string;
  is_nullable : bool;
  is_primary_key : bool;
  is_foreign_key : bool;
  default_value : option string;
  max_length : option Z;
  precision : option Z;
  scale : option Z;
  comment : option string;
  semantic_type : option string
}.
End Column.

Module Relationship.
Record t : Type := {
  source_table : string;
  target_table : string;
  source_column : string;
  target_column : string;
  relationship_type : RelationshipType;
  name : option string;
  description : option string;
  is_enforced : bool
}.
End Relationship.

Module Table.
Record t : Type := {
  name : string;
  schema : string;
  database : string;
  business_name : option string;
  description : option string;
  table_type : string;
  columns : list Column.t;
  relationships : list Relationship.t;
  row_count : option Z;
  size_bytes : option Z;
  last_modified : option string;
  comment : option string;
  tags : list string
}.

Definition get_primary_keys (self : t) : list Column.t :=
  filter Column.is_primary_key (columns self).

(** [table.relationships.append(rel)] *)
Definition append_relationship (self : t) (rel : Relationship.t) : t :=
  {| name := name self; schema := schema self; database := database self;
     business_name := business_name self; description := description self;
     table_type := table_type self; columns := columns self;
     relationships := (relationships self ++ [rel])%list;
     row_count := row_count self; size_bytes := size_bytes self;
     last_modified := last_modified self; comment := comment self;
     tags := tags self |}.
End Table.

End Models.

(** ** schema/discovery.py: relationship inference *)

Module Discovery.
Import PyStr PyDict Models.

(** [{table.name: table for table in tables}] *)
Definition table_by_name (tables : list Table.t) : dict Table.t :=
  fold_left (fun d table => set (Table.name table) table d) tables [].

Definition target_variations (column_name : string) : list (option string) :=
  let potential_target := drop_last 3 column_name in
  [Some (upper potential_target);
   Some (upper potential_target ++ "S");
   if endswith potential_target "S"
   then Some (drop_last 1 (upper potential_target)) else None;
   Some (upper potential_target ++ "_DIM");
   Some (upper potential_target ++ "_MASTER")].

(** The loop over the variations: the first one that is a non-empty
    string and names a table ends the loop. *)
Fixpoint first_known_variation (by_name : dict Table.t)
         (variations : list (option string)) : option (string * Table.t) :=
  match variations with
  | [] => None
  | Some variation :: rest =>
      if truthy variation
      then match get variation by_name with
           | Some target_table => Some (variation, target_table)
           | None => first_known_variation by_name rest
           end
      else first_known_variation by_name rest
  | None :: rest => first_known_variation by_name rest
  end.

Definition is_target_column (variation : string) (target_col : Column.t)
  : bool :=
  Column.is_primary_key target_col
  || existsb (String.eqb (upper (Column.name target_col)))
             ["ID"; variation ++ "_ID"].

Definition is_key_like (column : Column.t) : bool :=
  endswith (upper (Column.name column)) "_ID"
  && negb (Column.is_primary_key column).

Definition inferred (table : Table.t) (column : Column.t)
           (target_table : Table.t) (target_column : Column.t)
  : Relationship.t :=
  {| Relationship.source_table := Table.name table;
     Relationship.target_table := Table.name target_table;
     Relationship.source_column := Column.name column;
     Relationship.target_column := Column.name target_column;
     Relationship.relationship_type := MANY_TO_ONE;
     Relationship.name := None;
     Relationship.description :=
       Some ("Inferred from naming pattern: " ++ Column.name column);
     Relationship.is_enforced := false |}.

(** The body of the loop over the columns of [table]. *)
Definition infer_column (by_name : dict Table.t) (table : Table.t)
           (column : Column.t) : list Relationship.t :=
  if is_key_like column
  then match first_known_variation by_name
               (target_variations (Column.name column)) with
       | Some (variation, target_table) =>
           match find (is_target_column variation)
                      (Table.columns target_table) with
           | Some target_column =>
               [inferred table column target_table target_column]
           | None => []
           end
       | None => []
       end
  else [].

(** [SchemaDiscovery._infer_relationships].  The routine also sets
    [is_foreign_key] on every column it found a target for; the flag is
    not read during the inference. *)
Definition _infer_relationships (tables : list Table.t)
  : list Relationship.t :=
  let by_name := table_by_name tables in
  flat_map (fun table =>
              flat_map (infer_column by_name table) (Table.columns table))
           tables.

(** [n] names the table [t]: [t] is the last table called [n]. *)
Definition names_table (tables : list Table.t) (n : string) (t : Table.t)
  : Prop :=
  exists before after,
    tables = (before ++ t :: after)%list
    /\ Table.name t = n
    /\ forall t', In t' after -> Table.name t' <> n.

Definition names_no_table (tables : list Table.t) (n : string) : Prop :=
  forall t, In t tables -> Table.name t <> n.

(** A column a relationship may point to. *)
Definition eligible_target (variation : string) (c : Column.t) : Prop :=
  Column.is_primary_key c = true
  \/ upper (Column.name c) = "ID"
  \/ upper (Column.name c) = variation ++ "_ID".

(** The reading of the specification under which a primary key of the
    target table is preferred over a column named like an identifier. *)
Definition target_prefers_primary_key : Prop :=
  forall tables r target,
    In r (_infer_relationships tables) ->
    names_table tables (Relationship.target_table r) target ->
    Table.get_primary_keys target <> [] ->
    exists pk, In pk (Table.get_primary_keys target)
               /\ Column.name pk = Relationship.target_column r.


End Discovery.

(** ** Sample catalogs *)

Module Samples.
Import Models.

(** [Column(name=..., data_type=..., is_primary_key=...)] *)
Definition column (name data_type : string) (is_primary_key : bool)
  : Column.t :=
  {| Column.name := name; Column.data_type := data_type;
     Column.business_name := None; Column.description := None;
     Column.is_nullable := true; Column.is_primary_key := is_primary_key;
     Column.is_foreign_key := false; Column.default_value := None;
     Column.max_length := None; Column.precision := None;
     Column.scale := None; Column.comment := None;
     Column.semantic_type := None |}.

(** [Table(name=..., schema='PUBLIC', database='UNKNOWN', columns=...)] *)
Definition table (name : string) (columns : list Column.t) : Table.t :=
  {| Table.name := name; Table.schema := "PUBLIC";
     Table.database := "UNKNOWN"; Table.business_name := None;
     Table.description := None; Table.table_type := "TABLE";
     Table.columns := columns; Table.relationships := [];
     Table.row_count := None; Table.size_bytes := None;
     Table.last_modified := None; Table.comment := None;
     Table.tags := [] |}.

Definition customer_id : Column.t := column "customer_id" "NUMBER" false.
Definition id : Column.t := column "id" "NUMBER" false.

Definition ORDERS : Table.t := table "ORDERS" [customer_id].
Definition CUSTOMERS : Table.t := table "CUSTOMERS" [id].

(** A customer table whose primary key is not the column called ID. *)
Definition CUSTOMERS_KEYED : Table.t :=
  table "CUSTOMERS"
        [column "ID" "NUMBER" false; column "CUSTOMER_KEY" "NUMBER" true].



End Samples.

(** ** External collaborators *)

Module Env.
Import Py.

(** A row of the foreign-key query. *)
Record fk_row : Type := {
  SOURCE_TABLE : string;
  SOURCE_COLUMN : string;
  TARGET_TABLE : string;
  TARGET_COLUMN : string;
  CONSTRAINT_NAME : string
}.

(** What the orchestrator reads in the analysis agent's answer:
    [.get('comprehensive_results')] and the end of the chain of [.get]
    calls that closes with [.get('insights')].  The agent answers with
    dictionaries that hold dictionaries (a failure of one of its tools
    becomes an error dictionary in [AnalysisAgent.execute]), so every
    [.get] of the chain is applied to a dictionary. *)
Record analysis_result : Type := {
  comprehensive_results : option string;
  insights : option string
}.

(** A request to the language model: question and context. *)
Definition llm_request : Type := (string * string)%type.

Record t : Type := {
  (** [llm_client.generate_sql_query]: [None] when the client failed;
      the first argument lists the earlier requests. *)
  llm : list llm_request -> llm_request -> option string;
  (** [db_connector.execute_query]; the first argument lists the
      statements submitted earlier. *)
  db : list string -> string -> outcome (option rows);
  (** [analysis_agent.execute] on a comprehensive-analysis task. *)
  analysis : string -> rows -> string -> analysis_result;
  (** The discovery tool's reading of the metadata catalog: the table
      objects it builds, or the exception of a failed query. *)
  tables_feed : outcome (list Models.Table.t);
  (** The foreign-key query of the relationship mapper. *)
  foreign_keys_feed : outcome (list fk_row);
  (** [catalog.save()]: writing the snapshot file. *)
  catalog_save : outcome unit;
  (** [list(set(xs))]: the order in which the interpreter iterates over
      the set of the given strings. *)
  set_iteration : list string -> list string
}.

(** One such order: every string once, in the order of the last
    occurrences in the list. *)
Definition distinct (names : list string) : list string :=
  nodup String.string_dec names.

End Env.

(** ** schema/catalog.py

    Table objects are shared between the agent's record of the last
    discovery and the catalog, and [add_relationship] appends to them in
    place; they live in a store and are referred to by position. *)

Module Catalog.
Import Py PyStr PyDict Models.

Definition ref : Type := nat.
Definition store : Type := list Table.t.

Definition deref (h : store) (r : ref) : option Table.t := nth_error h r.

Fixpoint update (h : store) (r : ref) (f : Table.t -> Table.t) : store :=
  match h, r with
  | [], _ => []
  | t :: h', O => f t :: h'
  | t :: h', S r' => t :: update h' r' f
  end.

(** New objects for the given tables. *)
Definition alloc (h : store) (ts : list Table.t) : store * list ref :=
  ((h ++ ts)%list, seq (List.length h) (List.length ts)).

Record SemanticLayer : Type := {
  name : string;
  description : option string;
  tables : dict ref;
  business_metrics : dict string;
  business_dimensions : dict string;
  common_joins : dict string;
  business_rules : list string;
  glossary : dict string
}.

(** [SemanticLayer(name=...)] *)
Definition empty (name : string) : SemanticLayer :=
  {| name := name; description := None; tables := [];
     business_metrics := []; business_dimensions := [];
     common_joins := []; business_rules := []; glossary := [] |}.

Definition with_tables (self : SemanticLayer) (ts : dict ref)
  : SemanticLayer :=
  {| name := name self; description := description self; tables := ts;
     business_metrics := business_metrics self;
     business_dimensions := business_dimensions self;
     common_joins := common_joins self;
     business_rules := business_rules self; glossary := glossary self |}.

Definition full_name (table : Table.t) : string :=
  Table.database table ++ "." ++ Table.schema table ++ "."
                 ++ Table.name table.

(** [SemanticLayer.add_table]; a reference that points nowhere cannot be
    named and is ignored. *)
Definition add_table (h : store) (self : SemanticLayer) (r : ref)
  : SemanticLayer :=
  match deref h r with
  | Some table => with_tables self (set (full_name table) r (tables self))
  | None => self
  end.

Definition name_is (h : store) (table_name : string) (entry : string * ref)
  : bool :=
  match deref h (snd entry) with
  | Some table => String.eqb (lower (Table.name table)) (lower table_name)
  | None => false
  end.

(** [SemanticLayer.get_table]: the exact key, else the first table with
    that name up to letter case. *)
Definition get_table (h : store) (self : SemanticLayer) (table_name : string)
  : option ref :=
  match get table_name (tables self) with
  | Some r => Some r
  | None => option_map snd (find (name_is h table_name) (tables self))
  end.

(** [SchemaCatalog.add_relationship] *)
Definition add_relationship (h : store) (self : SemanticLayer)
           (relationship : Relationship.t) : store :=
  match get_table h self (Relationship.source_table relationship) with
  | Some r => update h r (fun t => Table.append_relationship t relationship)
  | None => h
  end.

Definition opt_truthy (o : option string) : bool :=
  match o with Some s => truthy s | None => false end.

Definition opt_str (o : option string) : string :=
  match o with Some s => s | None => "None" end.

(** [SemanticLayer.add_business_metric] *)
Definition add_business_metric (self : SemanticLayer)
           (metric sql_expression : string) (descr : option string)
  : SemanticLayer :=
  {| name := name self; description := description self;
     tables := tables self;
     business_metrics := set metric sql_expression (business_metrics self);
     business_dimensions := business_dimensions self;
     common_joins := common_joins self;
     business_rules := business_rules self;
     glossary := if opt_truthy descr
                 then set metric (opt_str descr) (glossary self)
                 else glossary self |}.

(** [SchemaCatalog.add_business_rule] *)
Definition add_business_rule (self : SemanticLayer) (rule : string)
  : SemanticLayer :=
  {| name := name self; description := description self;
     tables := tables self; business_metrics := business_metrics self;
     business_dimensions := business_dimensions self;
     common_joins := common_joins self;
     business_rules := (business_rules self ++ [rule])%list;
     glossary := glossary self |}.

(** *** Rendering: [SemanticLayer.get_context_for_llm] *)

Definition render_column (col : Column.t) : string :=
  "  - " ++ Column.name col ++ " (" ++ Column.data_type col ++ ")"
    ++ (if opt_truthy (Column.business_name col)
        then " [Business: " ++ opt_str (Column.business_name col) ++ "]"
        else "")
    ++ (if opt_truthy (Column.description col)
        then " - " ++ opt_str (Column.description col) else "")
    ++ (if Column.is_primary_key col then " [PRIMARY KEY]" else "")
    ++ (if Column.is_foreign_key col then " [FOREIGN KEY]" else "").

Definition render_relationship (rel : Relationship.t) : string :=
  "  - " ++ Relationship.source_table rel ++ "."
    ++ Relationship.source_column rel ++ " -> "
    ++ Relationship.target_table rel ++ "."
    ++ Relationship.target_column rel
    ++ " (" ++ value (Relationship.relationship_type rel) ++ ")".

Definition render_table (table : Table.t) : list string :=
  ([(nl ++ "Table: " ++ Table.name table)%string]
     ++ (if opt_truthy (Table.business_name table)
         then [("Business Name: "
                  ++ opt_str (Table.business_name table))%string]
         else [])
     ++ (if opt_truthy (Table.description table)
         then [("Description: "
                  ++ opt_str (Table.description table))%string]
         else [])
     ++ ["Columns:"]
     ++ map render_column (Table.columns table)
     ++ (match Table.relationships table with
         | [] => []
         | rels => "Relationships:" :: map render_relationship rels
         end))%list.

Definition render_entries (d : dict string) : list string :=
  map (fun kv => fst kv ++ ": " ++ snd kv) d.

Definition render (h : store) (self : SemanticLayer) : string :=
  let context_parts :=
    ((match glossary self with
      | [] => []
      | g => "=== BUSINESS GLOSSARY ===" :: render_entries g ++ [""]
      end)
       ++ (match business_metrics self with
           | [] => []
           | m => "=== BUSINESS METRICS ===" :: render_entries m ++ [""]
           end)
       ++ ["=== DATABASE SCHEMA ==="]
       ++ flat_map (fun entry =>
                      match deref h (snd entry) with
                      | Some table => render_table table
                      | None => []
                      end) (tables self)
       ++ (match common_joins self with
           | [] => []
           | j => (nl ++ "=== COMMON JOINS ===")%string :: render_entries j
           end)
       ++ (match business_rules self with
           | [] => []
           | rules => (nl ++ "=== BUSINESS RULES ===")%string
                        :: map (fun rule => ("- " ++ rule)%string) rules
           end))%list in
  join nl context_parts.

(** [SchemaCatalog.get_context_for_llm(table_names)] *)
Definition get_context_for_llm (h : store) (self : SemanticLayer)
           (table_names : list string) : string :=
  match table_names with
  | [] => render h self
  | _ =>
      let filtered_layer :=
        fold_left (fun layer table_name =>
                     match get_table h self table_name with
                     | Some r => add_table h layer r
                     | None => layer
                     end)
                  table_names
                  (with_tables
                     {| name := "Filtered_Context"; description := None;
                        tables := [];
                        business_metrics := business_metrics self;
                        business_dimensions := business_dimensions self;
                        common_joins := common_joins self;
                        business_rules := business_rules self;
                        glossary := glossary self |} []) in
      render h filtered_layer
  end.

(** *** Suggestions and related tables.  Sets are lists up to order and
    repetition; only [list(set(...))] fixes an order. *)

Definition all_tables (h : store) (self : SemanticLayer) : list Table.t :=
  flat_map (fun entry => match deref h (snd entry) with
                         | Some table => [table]
                         | None => []
                         end) (tables self).

Definition mentions (query_lower : string) (nm : string)
           (business_name : option string) : bool :=
  contains (lower nm) query_lower
  || (opt_truthy business_name
      && contains (lower (opt_str business_name)) query_lower).

Definition suggested (query_lower : string) (table : Table.t) : bool :=
  mentions query_lower (Table.name table) (Table.business_name table)
  || existsb (fun column =>
                mentions query_lower (Column.name column)
                         (Column.business_name column))
             (Table.columns table).

Definition has_measure (table : Table.t) : bool :=
  existsb (fun col => match Column.semantic_type col with
                      | Some s => String.eqb s "measure"
                      | None => false
                      end) (Table.columns table).

(** [SchemaCatalog.get_table_suggestions] *)
Definition get_table_suggestions (set_iteration : list string -> list string)
           (h : store) (self : SemanticLayer) (query_text : string)
  : list string :=
  let query_lower := lower query_text in
  let by_name :=
    map Table.name (filter (suggested query_lower) (all_tables h self)) in
  let by_metric :=
    flat_map (fun metric =>
                if contains (lower (fst metric)) query_lower
                then map Table.name (filter has_measure (all_tables h self))
                else [])
             (business_metrics self) in
  set_iteration (by_name ++ by_metric)%list.

Definition neighbours (table_name : string) (rels : list Relationship.t)
           (source_first : bool) : list string :=
  flat_map (fun rel =>
              let is_source :=
                String.eqb (Relationship.source_table rel) table_name in
              let is_target :=
                String.eqb (Relationship.target_table rel) table_name in
              if source_first
              then if is_source then [Relationship.target_table rel]
                   else if is_target then [Relationship.source_table rel]
                   else []
              else if is_target then [Relationship.source_table rel]
                   else if is_source then [Relationship.target_table rel]
                   else []) rels.

Definition set_minus (xs ys : list string) : list string :=
  filter (fun x => negb (existsb (String.eqb x) ys)) xs.

(** One round of the traversal from the tables in [current]. *)
Definition next_tables (h : store) (self : SemanticLayer)
           (current : list string) : list string :=
  flat_map (fun current_table =>
              match get_table h self current_table with
              | Some r =>
                  match deref h r with
                  | Some table =>
                      (neighbours (Table.name table)
                                  (Table.relationships table) true
                         ++ flat_map
                              (fun other =>
                                 neighbours (Table.name table)
                                            (Table.relationships other) false)
                              (all_tables h self))%list
                  | None => []
                  end
              | None => []
              end) current.

Fixpoint related_from (h : store) (self : SemanticLayer) (max_depth : nat)
         (related current : list string) : list string :=
  match max_depth with
  | O => related
  | S depth =>
      let next := set_minus (set_minus (next_tables h self current) related)
                            current in
      match next with
      | [] => related
      | _ => related_from h self depth (related ++ next)%list next
      end
  end.

(** [SchemaCatalog.find_related_tables] *)
Definition find_related_tables (set_iteration : list string -> list string)
           (h : store) (self : SemanticLayer) (table_name : string)
           (max_depth : nat) : list string :=
  set_iteration (related_from h self max_depth [] [table_name]).

Definition is_empty (self : SemanticLayer) : Prop := tables self = [].

(** The line that opens the schema part of the rendered context. *)
Definition schema_header : string := "=== DATABASE SCHEMA ===".

End Catalog.

(** ** tools/schema_tools.py *)

Module SchemaTools.
Import Py PyStr PyDict Models Catalog.

(** *** RelationshipMapperTool *)

Definition variations (column_name : string) : list (option string) :=
  let potential_table := drop_last 3 column_name in
  [Some (upper potential_table);
   Some (upper potential_table ++ "S");
   if endswith potential_table "s"
   then Some (drop_last 1 (upper potential_table)) else None;
   Some (upper potential_table ++ "_DIM");
   Some (upper potential_table ++ "_FACT")].

Definition is_target_pk (variation : string) (target_col : Column.t) : bool :=
  Column.is_primary_key target_col
  || existsb (String.eqb (lower (Column.name target_col)))
             ["id"; lower variation ++ "_id"].

Definition infer_column (by_name : dict Table.t) (table : Table.t)
           (column : Column.t) : list Relationship.t :=
  if endswith (lower (Column.name column)) "_id"
     && negb (Column.is_primary_key column)
  then match Discovery.first_known_variation by_name
               (variations (Column.name column)) with
       | Some (variation, target_table) =>
           match find (is_target_pk variation)
                      (Table.columns target_table) with
           | Some target_pk =>
               [Discovery.inferred table column target_table target_pk]
           | None => []
           end
       | None => []
       end
  else [].

Definition _infer_relationships_from_naming (tables : list Table.t)
  : list Relationship.t :=
  let by_name := Discovery.table_by_name tables in
  flat_map (fun table =>
              flat_map (infer_column by_name table) (Table.columns table))
           tables.

Definition explicit (fk_info : Env.fk_row) : Relationship.t :=
  {| Relationship.source_table := Env.SOURCE_TABLE fk_info;
     Relationship.target_table := Env.TARGET_TABLE fk_info;
     Relationship.source_column := Env.SOURCE_COLUMN fk_info;
     Relationship.target_column := Env.TARGET_COLUMN fk_info;
     Relationship.relationship_type := MANY_TO_ONE;
     Relationship.name := Some (Env.CONSTRAINT_NAME fk_info);
     Relationship.description := None;
     Relationship.is_enforced := true |}.

(** [RelationshipMapperTool.execute]; a failing foreign-key query is
    logged and skipped. *)
Definition relationship_mapper (env : Env.t) (tables : list Table.t)
  : list Relationship.t :=
  ((match Env.foreign_keys_feed env with
    | Return fk_result => map explicit fk_result
    | Raise _ => []
    end) ++ _infer_relationships_from_naming tables)%list.

(** *** SchemaDiscoveryTool *)

Definition discovery (env : Env.t) : outcome (list Table.t) :=
  Env.tables_feed env.

(** *** SemanticCatalogTool *)

Definition dq : string := String (ascii_of_nat 34) EmptyString.

Definition or_else (o : option string) (d : string) : string :=
  if opt_truthy o then opt_str o else d.

Definition sales_metrics (layer : SemanticLayer) (table : Table.t)
  : SemanticLayer :=
  fold_left
    (fun l column =>
       let column_lower := lower (Column.name column) in
       if contains "amount" column_lower || contains "total" column_lower
       then add_business_metric l
              ("Total_" ++ Table.name table ++ "_Amount")
              ("SUM(" ++ dq ++ Table.name table ++ dq ++ "." ++ dq
                      ++ Column.name column ++ dq ++ ")")
              (Some ("Total amount from "
                       ++ or_else (Table.business_name table)
                                  (Table.name table)))
       else l)
    (Table.columns table) layer.

Definition customer_metric (layer : SemanticLayer) (table : Table.t)
  : outcome SemanticLayer :=
  let counted :=
    if existsb (fun c => String.eqb (Column.name c) "ID")
               (Table.columns table)
    then Return "ID"
    else match Table.columns table with
         | c :: _ => Return (Column.name c)
         | [] => Raise (IndexError "list index out of range")
         end in
  match counted with
  | Return column_name =>
      Return (add_business_metric layer
                ("Total_" ++ Table.name table ++ "_Count")
                ("COUNT(DISTINCT " ++ dq ++ Table.name table ++ dq ++ "."
                                   ++ dq ++ column_name ++ dq ++ ")")
                (Some ("Total number of unique "
                         ++ or_else (Table.business_name table)
                                    (lower (Table.name table)))))
  | Raise e => Raise e
  end.

Fixpoint default_metrics (tables : list Table.t) (layer : SemanticLayer)
  : outcome unit * SemanticLayer :=
  match tables with
  | [] => (Return tt, layer)
  | table :: rest =>
      let table_name_lower := lower (Table.name table) in
      let layer1 :=
        if contains "sales" table_name_lower
           || contains "order" table_name_lower
        then sales_metrics layer table else layer in
      if contains "customer" table_name_lower
         || contains "user" table_name_lower
      then match customer_metric layer1 table with
           | Return layer2 => default_metrics rest layer2
           | Raise e => (Raise e, layer1)
           end
      else default_metrics rest layer1
  end.

Definition default_business_rules : list string :=
  ["All monetary amounts should be in USD unless specified otherwise";
   "Date filters should respect business calendar (exclude weekends for business metrics)";
   "Customer data should be filtered to exclude test accounts when analyzing production metrics";
   "Historical comparisons should use same-period-last-year unless specified otherwise"].

Definition _add_default_business_context (tables : list Table.t)
           (layer : SemanticLayer) : outcome unit * SemanticLayer :=
  match default_metrics tables layer with
  | (Return _, layer1) =>
      (Return tt, fold_left add_business_rule default_business_rules layer1)
  | (Raise e, layer1) => (Raise e, layer1)
  end.

Definition deref_all (h : store) (refs : list ref) : list Table.t :=
  flat_map (fun r => match deref h r with
                     | Some table => [table]
                     | None => []
                     end) refs.

(** [SemanticCatalogTool._build_catalog]: the store and the catalog after
    the call, also when it raises half-way. *)
Definition _build_catalog (env : Env.t) (h : store) (layer : SemanticLayer)
           (tables : list ref) (relationships : list Relationship.t)
  : outcome unit * (store * SemanticLayer) :=
  let layer1 := fold_left (add_table h) tables layer in
  let h1 := fold_left (fun h' rel => add_relationship h' layer1 rel)
                      relationships h in
  match _add_default_business_context (deref_all h1 tables) layer1 with
  | (Return _, layer2) =>
      match Env.catalog_save env with
      | Return _ => (Return tt, (h1, layer2))
      | Raise e => (Raise e, (h1, layer2))
      end
  | (Raise e, layer2) => (Raise e, (h1, layer2))
  end.

Record context : Type := {
  full_context : string;
  suggested_tables : list string;
  all_relevant_tables : list string
}.

(** [SemanticCatalogTool._get_context_for_query] *)
Definition _get_context_for_query (env : Env.t) (h : store)
           (layer : SemanticLayer) (query_text : string) : context :=
  let suggested :=
    get_table_suggestions (Env.set_iteration env) h layer query_text in
  match suggested with
  | [] =>
      {| full_context := get_context_for_llm h layer [];
         suggested_tables := suggested;
         all_relevant_tables := keys (tables layer) |}
  | _ =>
      let related_tables :=
        flat_map (fun table_name =>
                    find_related_tables (Env.set_iteration env) h layer
                                        table_name 1) suggested in
      let all_relevant :=
        Env.set_iteration env (suggested ++ related_tables)%list in
      {| full_context := get_context_for_llm h layer all_relevant;
         suggested_tables := suggested;
         all_relevant_tables := all_relevant |}
  end.

(** *** The metadata queries of the Snowflake branch (the texts of the
    f-strings, blank for blank) *)

Definition tables_query_head : string :=
  nl ++
  "                SELECT TABLE_NAME, TABLE_TYPE, COMMENT, ROW_COUNT, BYTES" ++
  nl ++ "                FROM INFORMATION_SCHEMA.TABLES" ++ nl ++
  "                WHERE TABLE_SCHEMA = '".

Definition tables_query_tail : string :=
  "'" ++ nl ++ "                ".

(** [tables_query], with the restriction added when system tables are
    left out. *)
Definition tables_query (schema : string) (include_system_tables : bool)
  : string :=
  tables_query_head ++ upper schema ++ tables_query_tail
    ++ (if include_system_tables then ""
        else " AND TABLE_TYPE IN ('BASE TABLE', 'VIEW')").

Definition columns_query_head : string :=
  nl ++ "                    SELECT " ++ nl ++
  "                        COLUMN_NAME," ++ nl ++
  "                        DATA_TYPE," ++ nl ++
  "                        IS_NULLABLE," ++ nl ++
  "                        COLUMN_DEFAULT," ++ nl ++
  "                        COMMENT," ++ nl ++
  "                        CHARACTER_MAXIMUM_LENGTH," ++ nl ++
  "                        NUMERIC_PRECISION," ++ nl ++
  "                        NUMERIC_SCALE" ++ nl ++
  "                    FROM INFORMATION_SCHEMA.COLUMNS" ++ nl ++
  "                    WHERE TABLE_SCHEMA = '".

Definition columns_query_middle : string :=
  "'" ++ nl ++ "                    AND TABLE_NAME = '".

Definition columns_query_tail : string :=
  "'" ++ nl ++ "                    ORDER BY ORDINAL_POSITION" ++ nl ++
  "                    ".

Definition columns_query (schema table_name : string) : string :=
  columns_query_head ++ upper schema ++ columns_query_middle ++ table_name
    ++ columns_query_tail.

Definition fk_query_head : string :=
  nl ++ "            SELECT " ++ nl ++
  "                tc.TABLE_NAME as source_table," ++ nl ++
  "                kcu.COLUMN_NAME as source_column," ++ nl ++
  "                ccu.TABLE_NAME as target_table," ++ nl ++
  "                ccu.COLUMN_NAME as target_column," ++ nl ++
  "                tc.CONSTRAINT_NAME" ++ nl ++
  "            FROM INFORMATION_SCHEMA.TABLE_CONSTRAINTS tc" ++ nl ++
  "            JOIN INFORMATION_SCHEMA.KEY_COLUMN_USAGE kcu " ++ nl ++
  "                ON tc.CONSTRAINT_NAME = kcu.CONSTRAINT_NAME" ++ nl ++
  "            JOIN INFORMATION_SCHEMA.CONSTRAINT_COLUMN_USAGE ccu " ++ nl ++
  "                ON ccu.CONSTRAINT_NAME = tc.CONSTRAINT_NAME" ++ nl ++
  "            WHERE tc.CONSTRAINT_TYPE = 'FOREIGN KEY'" ++ nl ++
  "            AND tc.TABLE_SCHEMA = '".

Definition fk_query_tail : string :=
  "'" ++ nl ++ "            ".

Definition fk_query (schema : string) : string :=
  fk_query_head ++ upper schema ++ fk_query_tail.

(** The tables for which the default customer metric cannot be built. *)
Definition columnless_customer_table (t : Table.t) : Prop :=
  contains "customer" (lower (Table.name t))
  || contains "user" (lower (Table.name t)) = true
  /\ Table.columns t = [].

(** What the build reads of a table besides its relationships. *)
Definition shape (t : Table.t) : string * list Column.t :=
  (Table.name t, Table.columns t).

End SchemaTools.

(** ** agents/schema_agent.py *)

Module SchemaAgent.
Import Py PyStr PyDict Models Catalog.

Record t : Type := {
  (** the table objects created so far *)
  objects : store;
  (** [context['last_discovery']]: tables and relationships *)
  last_discovery : option (list ref * list Relationship.t);
  (** [context['catalog_built']] *)
  catalog_built : bool;
  (** the catalog held by the semantic-catalog tool *)
  catalog : SemanticLayer
}.

Inductive result : Type :=
| Error (message : string)
| Discovered (tables_discovered relationships_discovered : nat)
| CatalogBuilt
| ContextFor (context : string) (suggested_tables related_tables : list string).

Definition status_of (r : result) : status :=
  match r with Error _ => error | _ => success end.

Definition _discover_schema (env : Env.t) (self : t) : outcome result * t :=
  match SchemaTools.discovery env with
  | Raise e => (Raise e, self)
  | Return discovered_tables =>
      let (h, refs) := alloc (objects self) discovered_tables in
      let relationships :=
        SchemaTools.relationship_mapper env discovered_tables in
      (Return (Discovered (List.length discovered_tables)
                          (List.length relationships)),
       {| objects := h; last_discovery := Some (refs, relationships);
          catalog_built := catalog_built self; catalog := catalog self |})
  end.

Definition build_with (env : Env.t) (self : t)
           (discovery_data : list ref * list Relationship.t)
  : outcome result * t :=
  let (o, hc) :=
    SchemaTools._build_catalog env (objects self) (catalog self)
                               (fst discovery_data) (snd discovery_data) in
  match o with
  | Return _ =>
      (Return CatalogBuilt,
       {| objects := fst hc; last_discovery := last_discovery self;
          catalog_built := true; catalog := snd hc |})
  | Raise e =>
      (Raise e,
       {| objects := fst hc; last_discovery := last_discovery self;
          catalog_built := catalog_built self; catalog := snd hc |})
  end.

Definition _build_catalog (env : Env.t) (self : t) : outcome result * t :=
  match last_discovery self with
  | Some discovery_data => build_with env self discovery_data
  | None =>
      match _discover_schema env self with
      | (Raise e, self1) => (Raise e, self1)
      | (Return discovery_result, self1) =>
          match status_of discovery_result, last_discovery self1 with
          | success, Some discovery_data =>
              build_with env self1 discovery_data
          | success, None =>
              (Raise (Exception "'NoneType' object is not subscriptable"),
               self1)
          | error, _ => (Return discovery_result, self1)
          end
      end
  end.

Definition _get_context_for_query (env : Env.t) (self : t)
           (query_text : string) : outcome result * t :=
  if negb (truthy query_text)
  then (Return (Error "No query text provided"), self)
  else
    let retrieve (self1 : t) :=
      let c := SchemaTools._get_context_for_query
                 env (objects self1) (catalog self1) query_text in
      (Return (ContextFor (SchemaTools.full_context c)
                          (SchemaTools.suggested_tables c)
                          (SchemaTools.all_relevant_tables c)), self1) in
    if catalog_built self
    then retrieve self
    else match _build_catalog env self with
         | (Raise e, self1) => (Raise e, self1)
         | (Return build_result, self1) =>
             match status_of build_result with
             | success => retrieve self1
             | error => (Return build_result, self1)
             end
         end.

(** [SchemaAgent.execute] on a [get_context] task: an exception becomes
    an error result that carries its text. *)
Definition execute_get_context (env : Env.t) (self : t) (query_text : string)
  : result * t :=
  match _get_context_for_query env self query_text with
  | (Return r, self1) => (r, self1)
  | (Raise e, self1) => (Error (str_of_exn e), self1)
  end.

(** [SchemaAgent(config)] with no catalog file on disk. *)
Definition init : t :=
  {| objects := []; last_discovery := None; catalog_built := false;
     catalog := Catalog.empty "GenBI_Catalog" |}.

(** [SchemaAgent.execute] on a [build_catalog] task. *)
Definition execute_build_catalog (env : Env.t) (self : t) : result * t :=
  match _build_catalog env self with
  | (Return r, self1) => (r, self1)
  | (Raise e, self1) => (Error (str_of_exn e), self1)
  end.

(** [refresh_catalog]: the agent's context is cleared, the catalog held by
    the tool is not.  It is called outside [execute], so an exception
    reaches the caller. *)
Definition refresh_catalog (env : Env.t) (self : t) : outcome result * t :=
  let self0 :=
    {| objects := objects self; last_discovery := None;
       catalog_built := false; catalog := catalog self |} in
  match _discover_schema env self0 with
  | (Raise e, self1) => (Raise e, self1)
  | (Return discovery_result, self1) =>
      match status_of discovery_result with
      | success => _build_catalog env self1
      | error => (Return discovery_result, self1)
      end
  end.

End SchemaAgent.

(** ** agents/sql_agent.py *)

Module SQLAgent.
Import Py PyStr.

Record generation : Type := {
  g_question : string;
  g_sql_query : string;
  g_security : SqlTools.validation_result;
  g_complexity_level : Complexity.complexity_level
}.

Record t : Type := {
  (** the requests sent through the tool's language-model client *)
  llm_calls : list Env.llm_request;
  (** [context['last_generation']] *)
  last_generation : option generation;
  (** [context['workflow_result']]: its [final_sql] *)
  workflow_result : option string;
  (** [config['security_mode'] == 'strict'] *)
  strict : bool
}.

Inductive result : Type :=
| Error (message : string)
| Generated (sql_query : string) (security : SqlTools.validation_result)
| Optimized (optimized_query : string)
| Fixed (corrected_sql : string) (security : SqlTools.validation_result)
| Completed (final_sql : string).

Definition status_of (r : result) : status :=
  match r with Error _ => error | _ => success end.

(** [use_tool('nl_to_sql', question=..., context=...)] *)
Definition ask (env : Env.t) (self : t) (question context : string)
  : SqlTools.nl_to_sql_result * t :=
  let request := (question, context) in
  (SqlTools.nl_to_sql (Env.llm env (llm_calls self) request),
   {| llm_calls := (llm_calls self ++ [request])%list;
      last_generation := last_generation self;
      workflow_result := workflow_result self; strict := strict self |}).

Definition _generate_sql (env : Env.t) (self : t) (question context : string)
  : result * t :=
  if negb (truthy question) || negb (truthy context)
  then (Error "Question and context are required for SQL generation", self)
  else
    let complexity_level := Complexity._determine_complexity_level question in
    let (sql_result, self1) := ask env self question context in
    match sql_result with
    | SqlTools.NlError _ => (Error "Failed to generate SQL query", self1)
    | SqlTools.NlSuccess sql_query =>
        let security_result :=
          SqlTools.security_validator sql_query (strict self1) in
        if negb (SqlTools.is_secure security_result)
        then (Error "Generated SQL failed security validation", self1)
        else
          (Generated sql_query security_result,
           {| llm_calls := llm_calls self1;
              last_generation :=
                Some {| g_question := question; g_sql_query := sql_query;
                        g_security := security_result;
                        g_complexity_level := complexity_level |};
              workflow_result := workflow_result self1;
              strict := strict self1 |})
    end.

Definition _optimize_sql (self : t) (sql_query : string) : result :=
  let sql_query :=
    if truthy sql_query then sql_query
    else match last_generation self with
         | Some last_gen => g_sql_query last_gen
         | None => sql_query
         end in
  if negb (truthy sql_query)
  then Error "No SQL query provided for optimization"
  else Optimized (SqlTools.optimized_query sql_query).

Definition enhanced_context (context failed_sql error_message : string)
  : string :=
  nl ++ context ++ nl ++ nl ++ "PREVIOUS FAILED QUERY:" ++ nl ++ failed_sql
     ++ nl ++ nl ++ "ERROR MESSAGE:" ++ nl ++ error_message ++ nl ++ nl
     ++ "Please generate a corrected SQL query that addresses the error above."
     ++ nl.

Definition _fix_sql (env : Env.t) (self : t)
           (question context failed_sql error_message : string)
  : result * t :=
  if negb (truthy question && truthy context && truthy failed_sql
           && truthy error_message)
  then (Error "Missing required parameters for SQL fixing", self)
  else
    let (fix_result, self1) :=
      ask env self question
          (enhanced_context context failed_sql error_message) in
    match fix_result with
    | SqlTools.NlError _ =>
        (Error "Failed to generate corrected SQL query", self1)
    | SqlTools.NlSuccess corrected_sql =>
        let security_result :=
          SqlTools.security_validator corrected_sql (strict self1) in
        (Fixed corrected_sql security_result, self1)
    end.

Definition _complete_sql_workflow (env : Env.t) (self : t)
           (question context : string) (optimize : bool) : result * t :=
  let (gen_result, self1) := _generate_sql env self question context in
  match gen_result with
  | Generated sql_query _ =>
      let current_sql :=
        if optimize
        then match _optimize_sql self1 sql_query with
             | Optimized optimized_query =>
                 if truthy optimized_query
                    && negb (String.eqb optimized_query sql_query)
                 then optimized_query else sql_query
             | _ => sql_query
             end
        else sql_query in
      (Completed current_sql,
       {| llm_calls := llm_calls self1;
          last_generation := last_generation self1;
          workflow_result := Some current_sql; strict := strict self1 |})
  | _ => (Error "Failed to generate initial SQL", self1)
  end.

(** [SQLAgent(config)] with the default configuration. *)
Definition init : t :=
  {| llm_calls := []; last_generation := None; workflow_result := None;
     strict := true |}.

End SQLAgent.

(** ** agents/orchestrator_agent.py

    [execute] hands a task of type [complete_bi_workflow] to
    [_complete_bi_workflow].  Execution attempts are the calls of
    [_execute_sql_safely]; the metadata queries of schema discovery go
    through the feeds of the environment.  Wall-clock fields of the
    results are left out. *)

Module Orchestrator.
Import Py PyStr.

Inductive execution_result : Type :=
| Executed (results : option rows) (result_count : nat)
| ExecutionError (error : string) (sql_query : string).

Inductive context_result : Type :=
| FromCache (context : string)
| FromSchemaAgent (context : string) (suggested_tables : list string)
| NoContext (schema_agent_result : SchemaAgent.result).

(** An entry of the workflow log: the result of one step. *)
Inductive step_result : Type :=
| ContextStep (r : context_result)
| SqlStep (r : SQLAgent.result)
| ExecutionStep (r : execution_result)
| AnalysisStep (r : Env.analysis_result).

Definition context_status (r : context_result) : status :=
  match r with NoContext _ => error | _ => success end.

Definition execution_status (r : execution_result) : status :=
  match r with Executed _ _ => success | ExecutionError _ _ => error end.

Definition step_status (s : step_result) : status :=
  match s with
  | ContextStep r => context_status r
  | SqlStep r => SQLAgent.status_of r
  | ExecutionStep r => execution_status r
  | AnalysisStep _ => success
  end.

Definition workflow_log : Type := list (string * step_result).

Record response : Type := {
  status : Py.status;
  message : string;
  sql_query : option string;
  results : option rows;
  result_count : nat;
  analysis : option string;
  insights : option string;
  log : workflow_log
}.

Record t : Type := {
  schema_agent : SchemaAgent.t;
  sql_agent : SQLAgent.t;
  (** the statements submitted through [db_connector] *)
  db_calls : list string;
  auto_optimize : bool;
  include_analysis : bool;
  cache_schema : bool;
  (** [context['schema_context_cached']] *)
  schema_context_cached : bool;
  (** [context['cached_schema_context']] *)
  cached_schema_context : option string;
  (** [context['last_successful_workflow']] *)
  last_successful_workflow : option response
}.

Definition with_schema_agent (self : t) (a : SchemaAgent.t) : t :=
  {| schema_agent := a; sql_agent := sql_agent self;
     db_calls := db_calls self; auto_optimize := auto_optimize self;
     include_analysis := include_analysis self;
     cache_schema := cache_schema self;
     schema_context_cached := schema_context_cached self;
     cached_schema_context := cached_schema_context self;
     last_successful_workflow := last_successful_workflow self |}.

Definition with_sql_agent (self : t) (a : SQLAgent.t) : t :=
  {| schema_agent := schema_agent self; sql_agent := a;
     db_calls := db_calls self; auto_optimize := auto_optimize self;
     include_analysis := include_analysis self;
     cache_schema := cache_schema self;
     schema_context_cached := schema_context_cached self;
     cached_schema_context := cached_schema_context self;
     last_successful_workflow := last_successful_workflow self |}.

Definition with_db_calls (self : t) (calls : list string) : t :=
  {| schema_agent := schema_agent self; sql_agent := sql_agent self;
     db_calls := calls; auto_optimize := auto_optimize self;
     include_analysis := include_analysis self;
     cache_schema := cache_schema self;
     schema_context_cached := schema_context_cached self;
     cached_schema_context := cached_schema_context self;
     last_successful_workflow := last_successful_workflow self |}.

Definition with_cached_context (self : t) (context : string) : t :=
  {| schema_agent := schema_agent self; sql_agent := sql_agent self;
     db_calls := db_calls self; auto_optimize := auto_optimize self;
     include_analysis := include_analysis self;
     cache_schema := cache_schema self;
     schema_context_cached := true;
     cached_schema_context := Some context;
     last_successful_workflow := last_successful_workflow self |}.

Definition with_last_successful_workflow (self : t) (r : response) : t :=
  {| schema_agent := schema_agent self; sql_agent := sql_agent self;
     db_calls := db_calls self; auto_optimize := auto_optimize self;
     include_analysis := include_analysis self;
     cache_schema := cache_schema self;
     schema_context_cached := schema_context_cached self;
     cached_schema_context := cached_schema_context self;
     last_successful_workflow := Some r |}.

Definition _create_workflow_result (st : Py.status) (msg : string)
           (workflow_log : workflow_log) : response :=
  {| status := st; message := msg; sql_query := None; results := None;
     result_count := 0; analysis := None; insights := None;
     log := workflow_log |}.

Definition _ensure_schema_context (env : Env.t) (self : t) (question : string)
  : context_result * t :=
  let from_agent :=
    let (context_result, agent) :=
      SchemaAgent.execute_get_context env (schema_agent self) question in
    let self1 := with_schema_agent self agent in
    match context_result with
    | SchemaAgent.ContextFor context suggested_tables _ =>
        (FromSchemaAgent context suggested_tables,
         if cache_schema self1 then with_cached_context self1 context
         else self1)
    | SchemaAgent.Discovered _ _ | SchemaAgent.CatalogBuilt =>
        (FromSchemaAgent "" [],
         if cache_schema self1 then with_cached_context self1 ""
         else self1)
    | SchemaAgent.Error _ => (NoContext context_result, self1)
    end in
  if cache_schema self && schema_context_cached self
  then match cached_schema_context self with
       | Some cached_context =>
           if truthy cached_context
           then (FromCache cached_context, self)
           else from_agent
       | None => from_agent
       end
  else from_agent.

Definition _generate_sql_with_retries (env : Env.t) (self : t)
           (question schema_context user_context : string)
  : SQLAgent.result * t :=
  let full_context :=
    if truthy user_context
    then schema_context ++ nl ++ nl ++ "ADDITIONAL CONTEXT:" ++ nl
                        ++ user_context
    else schema_context in
  let (r, agent) :=
    SQLAgent._complete_sql_workflow env (sql_agent self) question
                                    full_context (auto_optimize self) in
  (r, with_sql_agent self agent).

Definition _execute_sql_safely (env : Env.t) (self : t) (sql_query : string)
  : execution_result * t :=
  let self1 := with_db_calls self (db_calls self ++ [sql_query])%list in
  match Env.db env (db_calls self) sql_query with
  | Return results =>
      (Executed results
                (match results with
                 | Some rs => List.length rs
                 | None => 0
                 end), self1)
  | Raise e => (ExecutionError (str_of_exn e) sql_query, self1)
  end.

Definition _attempt_sql_fix (env : Env.t) (self : t)
           (question context failed_sql error_message : string)
  : SQLAgent.result * t :=
  let (r, agent) :=
    SQLAgent._fix_sql env (sql_agent self) question context failed_sql
                      error_message in
  (r, with_sql_agent self agent).

(** Steps 4 and 5: the analysis and the final response. *)
Definition finish (env : Env.t) (self : t)
           (question user_context final_sql : string)
           (query_results : option rows) (workflow_log : workflow_log)
  : response * t :=
  let rows_ := match query_results with Some rs => rs | None => [] end in
  let analysis_result :=
    if include_analysis self && SqlTools.nonempty rows_
    then Some (Env.analysis env question rows_ user_context)
    else None in
  let workflow_log :=
    match analysis_result with
    | Some a => (workflow_log ++ [("analysis", AnalysisStep a)])%list
    | None => workflow_log
    end in
  let response :=
    {| status := success;
       message := "BI workflow completed successfully";
       sql_query := Some final_sql;
       results := query_results;
       result_count := List.length rows_;
       analysis :=
         match analysis_result with
         | Some a => Env.comprehensive_results a
         | None => None
         end;
       insights :=
         match analysis_result with
         | Some a => Env.insights a
         | None => None
         end;
       log := workflow_log |} in
  (response, with_last_successful_workflow self response).

(** The repair cycle: one fix attempt and, when it reports success, one
    re-execution. *)
Definition repair_and_retry (env : Env.t) (self : t)
           (question user_context schema_context final_sql : string)
           (error_message : string) (workflow_log : workflow_log)
  : response * t :=
  let (fix_result, self1) :=
    _attempt_sql_fix env self question schema_context final_sql
                     error_message in
  let workflow_log :=
    (workflow_log ++ [("sql_fix_attempt", SqlStep fix_result)])%list in
  match fix_result with
  | SQLAgent.Fixed fixed_sql _ =>
      (* Retry execution with fixed SQL *)
      let (execution_result, self2) :=
        _execute_sql_safely env self1 fixed_sql in
      let workflow_log :=
        (workflow_log
           ++ [("sql_execution_retry", ExecutionStep execution_result)])%list in
      match execution_result with
      | Executed query_results _ =>
          finish env self2 question user_context fixed_sql query_results
                 workflow_log
      | ExecutionError _ _ =>
          (_create_workflow_result error "SQL execution failed after retry"
                                   workflow_log, self2)
      end
  | _ =>
      (_create_workflow_result error "SQL execution failed after retry"
                               workflow_log, self1)
  end.

(** Steps 2 and 3, once the schema context is known. *)
Definition generate_and_execute (env : Env.t) (self : t)
           (question user_context schema_context : string)
           (workflow_log : workflow_log) : response * t :=
  let (sql_result, self1) :=
    _generate_sql_with_retries env self question schema_context
                               user_context in
  let workflow_log :=
    (workflow_log ++ [("sql_generation", SqlStep sql_result)])%list in
  match sql_result with
  | SQLAgent.Completed final_sql =>
      let (execution_result, self2) :=
        _execute_sql_safely env self1 final_sql in
      let workflow_log :=
        (workflow_log
           ++ [("sql_execution", ExecutionStep execution_result)])%list in
      match execution_result with
      | Executed query_results _ =>
          finish env self2 question user_context final_sql query_results
                 workflow_log
      | ExecutionError e _ =>
          repair_and_retry env self2 question user_context schema_context
                           final_sql e workflow_log
      end
  | _ =>
      (_create_workflow_result error "Failed to generate SQL" workflow_log,
       self1)
  end.

Definition _complete_bi_workflow (env : Env.t) (self : t)
           (question user_context : string) : response * t :=
  if negb (truthy question)
  then ({| status := error;
           message := "Question is required for BI workflow";
           sql_query := None; results := None; result_count := 0;
           analysis := None; insights := None; log := [] |}, self)
  else
    (* Step 1: ensure schema context is available *)
    let (context_result, self1) := _ensure_schema_context env self question in
    let workflow_log := [("schema_context", ContextStep context_result)] in
    match context_result with
    | NoContext _ =>
        (_create_workflow_result error "Failed to get schema context"
                                 workflow_log, self1)
    | FromCache schema_context | FromSchemaAgent schema_context _ =>
        generate_and_execute env self1 question user_context schema_context
                             workflow_log
    end.

(** A client runs the complete BI workflow once for every task of a
    list, on the same orchestrator; each task has its own collaborators,
    question and user context.  The responses come in the order of the
    tasks. *)
Definition workflow_task : Type := (Env.t * string * string)%type.

Fixpoint run_workflows (self : t) (tasks : list workflow_task)
  : list response * t :=
  match tasks with
  | [] => ([], self)
  | (env, question, user_context) :: later =>
      let run := _complete_bi_workflow env self question user_context in
      let rest := run_workflows (snd run) later in
      (fst run :: fst rest, snd rest)
  end.

(** [OrchestratorAgent(config)] with the default configuration and no
    catalog file on disk. *)
Definition init : t :=
  {| schema_agent := SchemaAgent.init; sql_agent := SQLAgent.init;
     db_calls := []; auto_optimize := true; include_analysis := true;
     cache_schema := true; schema_context_cached := false;
     cached_schema_context := None; last_successful_workflow := None |}.

(** The number of execution attempts made between two states. *)
Definition attempts (before after : t) : nat :=
  List.length (db_calls after) - List.length (db_calls before).

Definition always_fails (env : Env.t) : Prop :=
  forall earlier sql, exists e, Env.db env earlier sql = Raise e.

Definition logged (name : string) (st : Py.status) (r : response) : Prop :=
  exists s, In (name, s) (log r) /\ step_status s = st.

(** No usable context is cached, so the schema agent will be asked. *)
Definition context_cache_cold (self : t) : Prop :=
  cache_schema self && schema_context_cached self
  && Catalog.opt_truthy (cached_schema_context self) = false.

(** The run stopped at the schema-context step: it reports an error, its
    log holds that step alone, and neither the synthesis collaborator
    nor the query executor was called. *)
Definition failed_at_schema_context (self : t) (run : response * t) : Prop :=
  status (fst run) = error
  /\ message (fst run) = "Failed to get schema context"
  /\ (exists r, log (fst run) = [("schema_context", ContextStep (NoContext r))])
  /\ SQLAgent.llm_calls (sql_agent (snd run))
     = SQLAgent.llm_calls (sql_agent self)
  /\ db_calls (snd run) = db_calls self.

(** The reading of the specification under which a failing executor
    always costs exactly two attempts. *)
Definition always_two_attempts : Prop :=
  forall env self question user_context,
    truthy question = true ->
    always_fails env ->
    attempts self (snd (_complete_bi_workflow env self question user_context))
    = 2%nat
    /\ status (fst (_complete_bi_workflow env self question user_context))
       = error.

(** The reading of the specification under which an empty or unbuilt
    catalog stops the run before synthesis. *)
Definition empty_catalog_fails_fast : Prop :=
  forall env self question user_context,
    truthy question = true ->
    Catalog.is_empty (SchemaAgent.catalog (schema_agent self))
    \/ SchemaAgent.catalog_built (schema_agent self) = false ->
    failed_at_schema_context
      self (_complete_bi_workflow env self question user_context).

(** *** The other task types

    A task key that is absent reads as [None], which the checks below
    treat as they treat the empty string. *)

Inductive query_result : Type :=
| QueryRejected (message : string)
| QuerySqlFailed (sql_result : SQLAgent.result)
| QueryExecutionFailed (execution_result : execution_result)
| QueryAnswered (sql_query : string) (results : option rows)
                (analysis : option Env.analysis_result).

Definition _query_with_context (env : Env.t) (self : t)
           (question context : string) : query_result * t :=
  if negb (truthy question) || negb (truthy context)
  then (QueryRejected "Question and context are required", self)
  else
    let (sql_result, agent) :=
      SQLAgent._complete_sql_workflow env (sql_agent self) question context
                                      (auto_optimize self) in
    let self1 := with_sql_agent self agent in
    match sql_result with
    | SQLAgent.Completed final_sql =>
        let (execution_result, self2) :=
          _execute_sql_safely env self1 final_sql in
        match execution_result with
        | Executed results _ =>
            let rows_ := match results with Some rs => rs | None => [] end in
            (QueryAnswered
               final_sql results
               (if include_analysis self2 && SqlTools.nonempty rows_
                then Some (Env.analysis env question rows_ "")
                else None), self2)
        | ExecutionError _ _ => (QueryExecutionFailed execution_result, self2)
        end
    | _ => (QuerySqlFailed sql_result, self1)
    end.

Inductive fix_and_retry_result : Type :=
| FixFailed (fix_result : SQLAgent.result)
| FixAndRetryCompleted (st : Py.status) (corrected_sql : string)
                       (results : option rows)
                       (fix_details : SQLAgent.result).

Definition _fix_and_retry (env : Env.t) (self : t)
           (question context failed_sql error_message : string)
  : fix_and_retry_result * t :=
  let (fix_result, self1) :=
    _attempt_sql_fix env self question context failed_sql error_message in
  match fix_result with
  | SQLAgent.Fixed corrected_sql _ =>
      let (execution_result, self2) :=
        _execute_sql_safely env self1 corrected_sql in
      (FixAndRetryCompleted
         (execution_status execution_result) corrected_sql
         (match execution_result with
          | Executed results _ => results
          | ExecutionError _ _ => None
          end)
         fix_result, self2)
  | _ => (FixFailed fix_result, self1)
  end.

(** [_initialize_system]: the status, the message and the schema agent's
    result.  The flags it writes to the context are read by the status
    report alone. *)
Definition _initialize_system (env : Env.t) (self : t)
  : (Py.status * string * SchemaAgent.result) * t :=
  let (schema_result, agent) :=
    SchemaAgent.execute_build_catalog env (schema_agent self) in
  let self1 := with_schema_agent self agent in
  match SchemaAgent.status_of schema_result with
  | success =>
      ((success, "BI system initialized successfully", schema_result), self1)
  | error =>
      ((error, "Failed to initialize BI system", schema_result), self1)
  end.

(** [refresh_system]: the orchestrator's context is cleared, and with it
    the cached schema context; an exception of the schema agent is not
    caught. *)
Definition refresh_system (env : Env.t) (self : t)
  : outcome (Py.status * string * SchemaAgent.result) * t :=
  let self0 :=
    {| schema_agent := schema_agent self; sql_agent := sql_agent self;
       db_calls := db_calls self; auto_optimize := auto_optimize self;
       include_analysis := include_analysis self;
       cache_schema := cache_schema self;
       schema_context_cached := false;
       cached_schema_context := None;
       last_successful_workflow := None |} in
  let (schema_refresh, agent) :=
    SchemaAgent.refresh_catalog env (schema_agent self0) in
  let self1 := with_schema_agent self0 agent in
  match schema_refresh with
  | Raise e => (Raise e, self1)
  | Return r =>
      match SchemaAgent.status_of r with
      | success => (Return (success, "System refreshed successfully", r), self1)
      | error => (Return (error, "Failed to refresh system", r), self1)
      end
  end.

(** The statements and requests that a piece of the workflow adds. *)
Definition adds (before after : t) (statements : list string)
           (requests : list Env.llm_request) : Prop :=
  db_calls after = (db_calls before ++ statements)%list
  /\ SQLAgent.llm_calls (sql_agent after)
     = (SQLAgent.llm_calls (sql_agent before) ++ requests)%list.

(** What the steps after the context step leave alone. *)
Definition same_context_cache (a b : t) : Prop :=
  cache_schema b = cache_schema a
  /\ schema_context_cached b = schema_context_cached a
  /\ cached_schema_context b = cached_schema_context a
  /\ schema_agent b = schema_agent a.

(** The steps before the analysis: no entry of the log is called
    analysis, and neither the last successful workflow nor the analysis
    switch is touched. *)
Definition before_analysis (self self' : t) (log0 : workflow_log) : Prop :=
  (forall s, ~ In ("analysis", s) log0)
  /\ last_successful_workflow self' = last_successful_workflow self
  /\ include_analysis self' = include_analysis self.

(** A run stops early: with an error, before any analysis. *)
Definition stops_early (self : t) (run : response * t) : Prop :=
  exists msg log0,
    fst run = _create_workflow_result error msg log0
    /\ before_analysis self (snd run) log0.

(** A run reaches steps 4 and 5 after it has executed a statement. *)
Definition ends_in_finish (env : Env.t) (self : t)
           (question user_context : string) (run : response * t) : Prop :=
  exists self' final_sql query_results log0,
    run = finish env self' question user_context final_sql query_results log0
    /\ before_analysis self self' log0
    /\ db_calls self' <> db_calls self.

End Orchestrator.

(** ** Scenarios: environments for single runs *)

Module Scenarios.
Import Py.

Definition no_analysis : Env.analysis_result :=
  {| Env.comprehensive_results := None; Env.insights := None |}.

(** The metadata catalog lists no table; the model answers every
    request with the same query; the database returns one row. *)
Definition empty_schema : Env.t :=
  {| Env.llm := fun _ _ => Some "SELECT 1 AS N";
     Env.db := fun _ _ => Return (Some [[("N", "1")]]);
     Env.analysis := fun _ _ _ => no_analysis;
     Env.tables_feed := Return [];
     Env.foreign_keys_feed := Return [];
     Env.catalog_save := Return tt;
     Env.set_iteration := Env.distinct |}.

(** The database rejects every statement; the model answers the first
    request and fails on the repair request. *)
Definition repair_unavailable : Env.t :=
  {| Env.llm := fun earlier _ =>
                  match earlier with
                  | [] => Some "SELECT region, SUM(amount) FROM sales GROUP BY region"
                  | _ => None
                  end;
     Env.db := fun _ _ => Raise (Exception "relation sales does not exist");
     Env.analysis := fun _ _ _ => no_analysis;
     Env.tables_feed := Return [];
     Env.foreign_keys_feed := Return [];
     Env.catalog_save := Return tt;
     Env.set_iteration := Env.distinct |}.

(** The database rejects every statement; the model answers every
    request. *)
Definition database_down : Env.t :=
  {| Env.llm := fun _ _ => Some "SELECT region, SUM(amount) FROM sales GROUP BY region";
     Env.db := fun _ _ => Raise (Exception "connection refused");
     Env.analysis := fun _ _ _ => no_analysis;
     Env.tables_feed := Return [];
     Env.foreign_keys_feed := Return [];
     Env.catalog_save := Return tt;
     Env.set_iteration := Env.distinct |}.

(** The first statement fails; the repaired statement the model proposes
    drops a table, and the database runs what it is given. *)
Definition unsafe_repair : Env.t :=
  {| Env.llm := fun earlier _ =>
                  match earlier with
                  | [] => Some "SELECT * FROM ORDERZ"
                  | _ => Some "DROP TABLE ORDERS"
                  end;
     Env.db := fun earlier _ =>
                 match earlier with
                 | [] => Raise (Exception "relation orderz does not exist")
                 | _ => Return (Some [])
                 end;
     Env.analysis := fun _ _ _ => no_analysis;
     Env.tables_feed := Return [];
     Env.foreign_keys_feed := Return [];
     Env.catalog_save := Return tt;
     Env.set_iteration := Env.distinct |}.

(** The metadata catalog cannot be read. *)
Definition feed_down : Env.t :=
  {| Env.llm := fun _ _ => Some "SELECT 1 AS N";
     Env.db := fun _ _ => Return (Some [[("N", "1")]]);
     Env.analysis := fun _ _ _ => no_analysis;
     Env.tables_feed := Raise (Exception "connection refused");
     Env.foreign_keys_feed := Raise (Exception "connection refused");
     Env.catalog_save := Return tt;
     Env.set_iteration := Env.distinct |}.

(** The metadata catalog lists an order table and a customer table. *)
Definition shop : Env.t :=
  {| Env.llm := fun _ _ => Some "SELECT COUNT(ID) AS N FROM ORDERS";
     Env.db := fun _ _ => Return (Some [[("N", "1")]]);
     Env.analysis := fun _ _ _ => no_analysis;
     Env.tables_feed := Return [Samples.ORDERS; Samples.CUSTOMERS];
     Env.foreign_keys_feed := Return [];
     Env.catalog_save := Return tt;
     Env.set_iteration := Env.distinct |}.

(** The orchestrator after the system was initialised against [shop]. *)
Definition shop_ready : Orchestrator.t :=
  snd (Orchestrator._initialize_system shop Orchestrator.init).

(** The model answers every request with an empty fenced block, of which
    the client keeps the opening fence. *)
Definition bare_fence : Env.t :=
  {| Env.llm := fun _ _ => Some "```";
     Env.db := fun _ _ => Raise (Exception "syntax error at end of input");
     Env.analysis := fun _ _ _ => no_analysis;
     Env.tables_feed := Return [];
     Env.foreign_keys_feed := Return [];
     Env.catalog_save := Return tt;
     Env.set_iteration := Env.distinct |}.

(** [shop] with an analysis agent that reports results and an insight. *)
Definition one_insight : Env.analysis_result :=
  {| Env.comprehensive_results := Some "{'statistical': {}, 'insights': {}}";
     Env.insights := Some "One order was counted." |}.

Definition shop_with_analysis : Env.t :=
  {| Env.llm := Env.llm shop;
     Env.db := Env.db shop;
     Env.analysis := fun _ _ _ => one_insight;
     Env.tables_feed := Env.tables_feed shop;
     Env.foreign_keys_feed := Env.foreign_keys_feed shop;
     Env.catalog_save := Env.catalog_save shop;
     Env.set_iteration := Env.set_iteration shop |}.

End Scenarios.

(** ** database.py: SnowflakeConnector.execute_query

    The connector checks the statement itself before it opens a
    connection.  [cursor] stands for the connection, the cursor and the
    fetch: it returns the rows or fails, with a [ProgrammingError] of the
    driver or with any other exception. *)

Module Database.
Import Py PyStr.

Inductive cursor_outcome : Type :=
| Fetched (results : rows)
| ProgrammingError (error_msg : string)
| OtherError (error_msg : string).

Definition dangerous_keywords : list string :=
  ["INSERT"; "UPDATE"; "DELETE"; "DROP"; "CREATE"; "ALTER";
   "TRUNCATE"; "MERGE"; "COPY"; "PUT"; "GET"].

Definition execute_query (cursor : string -> cursor_outcome)
           (sql_query : string) : outcome rows :=
  let sql_clean := upper (strip sql_query) in
  if negb (startswith sql_clean "SELECT") && negb (startswith sql_clean "WITH")
  then Raise (Exception "Only SELECT queries are allowed for security reasons")
  else
    match find (fun keyword => contains keyword sql_clean) dangerous_keywords
    with
    | Some keyword =>
        Raise (Exception ("Query contains prohibited keyword: " ++ keyword))
    | None =>
        match cursor sql_query with
        | Fetched results => Return results
        | ProgrammingError error_msg =>
            if contains "does not exist" (lower error_msg)
            then Raise (Exception
                          ("Database object not found: " ++ error_msg))
            else if contains "invalid identifier" (lower error_msg)
            then Raise (Exception
                          ("Invalid column or table name: " ++ error_msg))
            else if contains "syntax error" (lower error_msg)
            then Raise (Exception ("SQL syntax error: " ++ error_msg))
            else Raise (Exception ("Query execution error: " ++ error_msg))
        | OtherError error_msg =>
            Raise (Exception ("Database error: " ++ error_msg))
        end
    end.

(** The keywords the connector shares with the security validator. *)
Definition shared_keywords : list string :=
  filter (fun keyword => existsb (String.eqb keyword) dangerous_keywords)
         SqlTools.dangerous_keywords.

End Database.

(* ================================================================= *)
(** * Part II: properties                                             *)
(* ================================================================= *)

(** ** Dictionaries *)

Section DictFacts.
Import PyDict.
Context {V : Type}.
Implicit Types (d : dict V) (k : string).

Lemma mem_In_keys k d : mem k d = true <-> In k (keys d).
Proof.
  unfold mem. induction d as [|[k' v] d IH]; simpl.
  - split; [discriminate | tauto].
  - destruct (String.eqb_spec k k') as [->|Hne].
    + split; auto.
    + rewrite IH. split; [auto | intros [H|H]; [congruence | assumption]].
Qed.

Lemma get_In_keys k d v : get k d = Some v -> In k (keys d).
Proof.
  intros H. apply mem_In_keys. unfold mem. now rewrite H.
Qed.

Lemma get_None_not_In k d : get k d = None <-> ~ In k (keys d).
Proof.
  rewrite <- mem_In_keys. unfold mem.
  destruct (get k d); split; intros; congruence.
Qed.

Lemma get_set_same k v d : get k (set k v d) = Some v.
Proof.
  induction d as [|[k' v'] d IH]; simpl.
  - now rewrite String.eqb_refl.
  - destruct (String.eqb_spec k k') as [->|Hne]; simpl.
    + now rewrite String.eqb_refl.
    + destruct (String.eqb_spec k k'); [contradiction | assumption].
Qed.

Lemma get_set_other k k0 v d : k0 <> k -> get k0 (set k v d) = get k0 d.
Proof.
  intros Hne. induction d as [|[k' v'] d IH]; simpl.
  - destruct (String.eqb_spec k0 k); [contradiction | reflexivity].
  - destruct (String.eqb_spec k k') as [->|Hk]; simpl.
    + destruct (String.eqb_spec k0 k'); [contradiction | reflexivity].
    + now rewrite IH.
Qed.

Lemma get_del_other k k0 d : k0 <> k -> get k0 (del k d) = get k0 d.
Proof.
  intros Hne. induction d as [|[k' v'] d IH]; simpl; [reflexivity|].
  destruct (String.eqb_spec k k') as [->|Hk]; simpl.
  - destruct (String.eqb_spec k0 k'); [contradiction | reflexivity].
  - now rewrite IH.
Qed.

Lemma get_del_same k d : NoDup (keys d) -> get k (del k d) = None.
Proof.
  induction d as [|[k' v'] d IH]; simpl; intros Hnd; [reflexivity|].
  inversion Hnd as [|? ? Hnotin Hnd']; subst.
  destruct (String.eqb_spec k k') as [->|Hk]; simpl.
  - now apply get_None_not_In.
  - destruct (String.eqb_spec k k'); [contradiction | auto].
Qed.

Lemma In_keys_set k v d x : In x (keys (set k v d)) <-> x = k \/ In x (keys d).
Proof.
  induction d as [|[k' v'] d IH]; simpl.
  - intuition.
  - destruct (String.eqb_spec k k') as [->|Hk]; simpl.
    + intuition.
    + rewrite IH. intuition.
Qed.

Lemma In_keys_del k d x :
  NoDup (keys d) -> In x (keys (del k d)) <-> x <> k /\ In x (keys d).
Proof.
  induction d as [|[k' v'] d IH]; simpl; intros Hnd.
  - intuition.
  - inversion Hnd as [|? ? Hnotin Hnd']; subst.
    destruct (String.eqb_spec k k') as [->|Hk]; simpl.
    + split.
      * intros Hx. split; [intros -> | ]; auto.
      * intros [Hx [H|H]]; [congruence | assumption].
    + rewrite (IH Hnd'). split.
      * intros [H|[H1 H2]]; [subst; split; auto; congruence | auto].
      * intros [H1 [H|H]]; auto.
Qed.

Lemma NoDup_keys_set k v d : NoDup (keys d) -> NoDup (keys (set k v d)).
Proof.
  induction d as [|[k' v'] d IH]; simpl; intros Hnd.
  - constructor; [intros [] | constructor].
  - inversion Hnd as [|? ? Hnotin Hnd']; subst.
    destruct (String.eqb_spec k k') as [->|Hk]; simpl.
    + now constructor.
    + constructor; [|auto].
      rewrite In_keys_set. intros [H|H]; [congruence | contradiction].
Qed.

Lemma NoDup_keys_del k d : NoDup (keys d) -> NoDup (keys (del k d)).
Proof.
  induction d as [|[k' v'] d IH]; simpl; intros Hnd; [constructor|].
  inversion Hnd as [|? ? Hnotin Hnd']; subst.
  destruct (String.eqb_spec k k') as [->|Hk]; simpl; [assumption|].
  constructor; [|auto].
  rewrite (In_keys_del _ _ _ Hnd'). tauto.
Qed.

Lemma length_set_le k v d : (List.length (set k v d) <= S (List.length d))%nat.
Proof.
  induction d as [|[k' v'] d IH]; simpl; [lia|].
  destruct (String.eqb k k'); simpl; lia.
Qed.

Lemma length_set_mem k v d :
  mem k d = true -> List.length (set k v d) = List.length d.
Proof.
  unfold mem. induction d as [|[k' v'] d IH]; simpl; [discriminate|].
  destruct (String.eqb k k'); simpl; [reflexivity|].
  intros H. now rewrite IH.
Qed.

Lemma length_del_mem k d :
  mem k d = true -> S (List.length (del k d)) = List.length d.
Proof.
  unfold mem. induction d as [|[k' v'] d IH]; simpl; [discriminate|].
  destruct (String.eqb k k'); simpl; [reflexivity|].
  intros H. now rewrite IH.
Qed.

End DictFacts.

Section DictPairs.
Import PyDict.
Context {V W : Type}.

(** Two dictionaries with the same keys keep the same keys under the
    same assignment or deletion. *)
Lemma keys_set_congr (k : string) (v : V) (w : W) (d : dict V) (e : dict W) :
  keys d = keys e -> keys (set k v d) = keys (set k w e).
Proof.
  revert e. induction d as [|[k1 v1] d IH]; intros [|[k2 w2] e]; simpl;
    try discriminate; intros H; [reflexivity|].
  injection H as -> H.
  destruct (String.eqb k k2); simpl; f_equal; auto.
Qed.

Lemma keys_del_congr (k : string) (d : dict V) (e : dict W) :
  keys d = keys e -> keys (del k d) = keys (del k e).
Proof.
  revert e. induction d as [|[k1 v1] d IH]; intros [|[k2 w2] e]; simpl;
    try discriminate; intros H; [reflexivity|].
  injection H as -> H.
  destruct (String.eqb k k2); simpl; [assumption | f_equal; auto].
Qed.

Lemma mem_congr (k : string) (d : dict V) (e : dict W) :
  keys d = keys e -> mem k d = mem k e.
Proof.
  intros H.
  destruct (mem k d) eqn:Hd, (mem k e) eqn:He; try reflexivity.
  - apply mem_In_keys in Hd. rewrite H in Hd. apply mem_In_keys in Hd.
    congruence.
  - apply mem_In_keys in He. rewrite <- H in He. apply mem_In_keys in He.
    congruence.
Qed.

End DictPairs.

(** ** The result cache *)

Section MinKey.
Import PyDict.

Lemma fold_pick_least (rest : list (string * Z)) (kt : string * Z) :
  In (fold_left pick rest kt) (kt :: rest)
  /\ forall x, In x (kt :: rest) -> (snd (fold_left pick rest kt) <= snd x)%Z.
Proof.
  revert kt. induction rest as [|c rest IH]; intros kt; simpl.
  - split; [auto | intros x [<-|[]]; lia].
  - destruct (IH (pick kt c)) as [Hin Hle]. split.
    + destruct Hin as [Hin|Hin]; [|auto].
      rewrite <- Hin. unfold pick. destruct (snd c <? snd kt)%Z; auto.
    + intros x Hx.
      assert (Hpick : (snd (pick kt c) <= snd kt)%Z
                      /\ (snd (pick kt c) <= snd c)%Z).
      { unfold pick. destruct (Z.ltb_spec (snd c) (snd kt)); lia. }
      assert (H0 := Hle (pick kt c) (or_introl eq_refl)).
      destruct Hx as [<-|[<-|Hx]]; [lia | lia |].
      apply Hle. now right.
Qed.

Lemma In_get_NoDup {V : Type} (d : dict V) (k : string) (v : V) :
  NoDup (keys d) -> In (k, v) d -> get k d = Some v.
Proof.
  induction d as [|[k' v'] d IH]; simpl; intros Hnd Hin; [contradiction|].
  inversion Hnd as [|? ? Hnotin Hnd']; subst.
  destruct Hin as [Heq|Hin].
  - injection Heq as -> ->. now rewrite String.eqb_refl.
  - destruct (String.eqb_spec k k') as [->|Hne]; [|auto].
    exfalso. apply Hnotin. apply (in_map fst) in Hin. exact Hin.
Qed.

Lemma get_In {V : Type} (d : dict V) (k : string) (v : V) :
  get k d = Some v -> In (k, v) d.
Proof.
  induction d as [|[k' v'] d IH]; simpl; [discriminate|].
  destruct (String.eqb_spec k k') as [->|Hne].
  - intros [= ->]. now left.
  - intros H. right. auto.
Qed.

Lemma min_key_None (d : dict Z) : min_key d = None <-> d = [].
Proof.
  destruct d; simpl; split; intros; congruence.
Qed.

(** [min] over the keys returns a stored key whose timestamp is least. *)
Lemma min_key_least (d : dict Z) (k : string) :
  NoDup (keys d) ->
  min_key d = Some k ->
  exists t, get k d = Some t /\ forall k' t', get k' d = Some t' -> (t <= t')%Z.
Proof.
  intros Hnd Hmin. destruct d as [|kt rest]; [discriminate|].
  simpl in Hmin. injection Hmin as <-.
  destruct (fold_pick_least rest kt) as [Hin Hle].
  set (b := fold_left pick rest kt) in *.
  exists (snd b). split.
  - apply In_get_NoDup; [assumption|]. now destruct b.
  - intros k' t' Hget. apply get_In in Hget. exact (Hle _ Hget).
Qed.

End MinKey.

Section ResultCache.
Import Py PyDict CostOptimization.

Variable md5 : string -> string.

Lemma cache_wf_init (m t : Z) : cache_wf (init m t).
Proof. split; [reflexivity | constructor]. Qed.

Lemma get_cached_result_wf self sql now :
  cache_wf self -> cache_wf (snd (get_cached_result md5 self sql now)).
Proof.
  intros [Hk Hnd]. unfold get_cached_result.
  destruct (get _ (cache self)); [|now split].
  destruct (get _ (cache_timestamps self)); [|now split].
  destruct (_ <? _)%Z; [|now split].
  split; simpl.
  - now apply keys_del_congr.
  - now apply NoDup_keys_del.
Qed.

Lemma cache_result_wf self sql result now :
  cache_wf self -> cache_wf (snd (cache_result md5 self sql result now)).
Proof.
  intros [Hk Hnd]. unfold cache_result.
  destruct (_ <=? _)%Z.
  - destruct (min_key _); [|now split].
    destruct (mem _ _); [|now split].
    split; simpl.
    + apply keys_set_congr. now apply keys_del_congr.
    + apply NoDup_keys_set. now apply NoDup_keys_del.
  - split; simpl.
    + now apply keys_set_congr.
    + now apply NoDup_keys_set.
Qed.

Lemma get_cached_result_size self sql now :
  (List.length (cache (snd (get_cached_result md5 self sql now)))
   <= List.length (cache self))%nat.
Proof.
  unfold get_cached_result.
  destruct (get _ (cache self)) eqn:Hc; [|simpl; lia].
  destruct (get _ (cache_timestamps self)); [|simpl; lia].
  destruct (_ <? _)%Z; [|simpl; lia]. simpl.
  assert (Hm : mem (get_cache_key md5 sql) (cache self) = true)
    by (unfold mem; now rewrite Hc).
  apply length_del_mem in Hm. lia.
Qed.

Lemma cache_result_size self sql result now :
  (Z.of_nat (List.length (cache self)) <= max_cache_size self)%Z ->
  (Z.of_nat (List.length (cache (snd (cache_result md5 self sql result now))))
   <= max_cache_size self)%Z.
Proof.
  intros Hsz. unfold cache_result.
  destruct (Z.leb_spec (max_cache_size self) (Z.of_nat (List.length (cache self))))
    as [Hfull|Hroom].
  - destruct (min_key _); [|assumption].
    destruct (mem s (cache self)) eqn:Hm; [|assumption]. simpl.
    apply length_del_mem in Hm.
    pose proof (length_set_le (get_cache_key md5 sql) result
                              (del s (cache self))). lia.
  - simpl.
    pose proof (length_set_le (get_cache_key md5 sql) result (cache self)).
    lia.
Qed.

Lemma max_cache_size_step self o :
  max_cache_size (step md5 self o) = max_cache_size self.
Proof.
  destruct o as [sql now|sql result now]; simpl.
  - unfold get_cached_result.
    destruct (get _ (cache self)); [|reflexivity].
    destruct (get _ (cache_timestamps self)); [|reflexivity].
    now destruct (_ <? _)%Z.
  - unfold cache_result.
    destruct (_ <=? _)%Z; [|reflexivity].
    destruct (min_key _); [|reflexivity].
    now destruct (mem _ _).
Qed.

(** The invariant carried along a run. *)
Lemma run_invariant ops self :
  cache_wf self ->
  (Z.of_nat (List.length (cache self)) <= max_cache_size self)%Z ->
  cache_wf (run md5 ops self)
  /\ (Z.of_nat (List.length (cache (run md5 ops self)))
      <= max_cache_size self)%Z.
Proof.
  revert self. induction ops as [|o ops IH]; intros self Hwf Hsz; simpl.
  - now split.
  - rewrite <- (max_cache_size_step self o). apply IH.
    + destruct o; simpl;
        [now apply get_cached_result_wf | now apply cache_result_wf].
    + rewrite max_cache_size_step. destruct o; simpl.
      * pose proof (get_cached_result_size self sql now). lia.
      * now apply cache_result_size.
Qed.

End ResultCache.

(** C5 (as amended): a lookup of an entry whose age exceeds the TTL returns
    absent and removes that entry from the entry map and from the timestamp
    map during the lookup itself; every other entry is left as it was. *)
Theorem expired_lookup_is_absent_and_evicts
        (md5 : string -> string) (self : CostOptimization.ResultCacheManager)
        (sql : string) (now : Z) :
  let key := CostOptimization.get_cache_key md5 sql in
  let self' := snd (CostOptimization.get_cached_result md5 self sql now) in
  CostOptimization.cache_wf self ->
  CostOptimization.expired self key now ->
  fst (CostOptimization.get_cached_result md5 self sql now) = Py.Return None
  /\ PyDict.mem key (CostOptimization.cache self') = false
  /\ PyDict.mem key (CostOptimization.cache_timestamps self') = false
  /\ forall k, k <> key ->
       PyDict.get k (CostOptimization.cache self')
       = PyDict.get k (CostOptimization.cache self)
       /\ PyDict.get k (CostOptimization.cache_timestamps self')
          = PyDict.get k (CostOptimization.cache_timestamps self).
Proof.
  intros key self' [Hk Hnd] [stamp [Hstamp Hold]]. subst self'.
  unfold CostOptimization.get_cached_result. fold key.
  destruct (PyDict.get key (CostOptimization.cache self)) as [r|] eqn:Hc.
  - rewrite Hstamp. apply Z.ltb_lt in Hold. rewrite Hold. simpl.
    unfold PyDict.mem.
    rewrite (get_del_same key _ Hnd).
    rewrite Hk in Hnd. rewrite (get_del_same key _ Hnd).
    repeat split; auto using get_del_other.
  - exfalso. apply get_In_keys in Hstamp. rewrite <- Hk in Hstamp.
    apply get_None_not_In in Hc. contradiction.
Qed.

(** The amended C5 at an entry stamped 0, looked up at 3601 under a TTL of
    3600, through a differently spaced and cased spelling of the query. *)
Lemma expired_lookup_is_absent_and_evicts_witness :
  let self := {| CostOptimization.cache := [("select 1", [[("N", "1")]])];
                 CostOptimization.cache_timestamps := [("select 1", 0%Z)];
                 CostOptimization.max_cache_size := 1000;
                 CostOptimization.ttl_seconds := 3600 |} in
  let self' := snd (CostOptimization.get_cached_result
                      (fun s => s) self "SELECT  1" 3601) in
  fst (CostOptimization.get_cached_result (fun s => s) self "SELECT  1" 3601)
  = Py.Return None
  /\ PyDict.mem "select 1" (CostOptimization.cache self') = false.
Proof.
  intros self self'.
  destruct (expired_lookup_is_absent_and_evicts (fun s => s) self "SELECT  1" 3601)
    as [H1 [H2 _]].
  - split; [reflexivity|].
    constructor; [intros [] | constructor].
  - exists 0%Z. split; [reflexivity | reflexivity].
  - split; [exact H1 | exact H2].
Defined.

(** C5, counterexample: an entry stamped at time 0 with a TTL of 3600 is
    looked up at time 3601; the lookup answers absent and the entry is gone
    from both maps afterwards, so it does not outlive the lookup. *)
Lemma expired_entry_survives_lookup_counterexample :
  let self := {| CostOptimization.cache := [("select 1", [[("N", "1")]])];
                 CostOptimization.cache_timestamps := [("select 1", 0%Z)];
                 CostOptimization.max_cache_size := 1000;
                 CostOptimization.ttl_seconds := 3600 |} in
  CostOptimization.get_cached_result (fun s => s) self "SELECT 1" 3601
  = (Py.Return None,
     {| CostOptimization.cache := [];
        CostOptimization.cache_timestamps := [];
        CostOptimization.max_cache_size := 1000;
        CostOptimization.ttl_seconds := 3600 |})
  /\ ~ CostOptimization.expired_entry_survives_lookup.
Proof.
  intros self. split; [reflexivity|].
  intros H.
  destruct (H (fun s => s) self "SELECT 1" 3601%Z) as [_ Hmem].
  - split; [reflexivity|]. constructor; [intros [] | constructor].
  - exists 0%Z. split; reflexivity.
  - discriminate Hmem.
Qed.

(** C6 (as amended): an insertion performed when the number of stored
    entries has reached the configured capacity, for a capacity of at least
    one, evicts exactly one entry, an entry whose insertion timestamp is the
    oldest, and then stores the new entry; every other entry keeps its
    value and its timestamp. *)
Theorem insert_at_capacity_evicts_oldest
        (md5 : string -> string) (self : CostOptimization.ResultCacheManager)
        (sql : string) (result : Py.rows) (now : Z) :
  let key := CostOptimization.get_cache_key md5 sql in
  let self' := snd (CostOptimization.cache_result md5 self sql result now) in
  CostOptimization.cache_wf self ->
  (0 < CostOptimization.max_cache_size self)%Z ->
  (CostOptimization.max_cache_size self
   <= Z.of_nat (List.length (CostOptimization.cache self)))%Z ->
  exists oldest stamp,
    fst (CostOptimization.cache_result md5 self sql result now) = Py.Return tt
    /\ PyDict.get oldest (CostOptimization.cache_timestamps self) = Some stamp
    /\ CostOptimization.oldest_stamp self stamp
    /\ (forall k, In k (PyDict.keys (CostOptimization.cache self')) <->
                  k = key
                  \/ (k <> oldest
                      /\ In k (PyDict.keys (CostOptimization.cache self))))
    /\ (forall k, k <> oldest -> k <> key ->
          PyDict.get k (CostOptimization.cache self')
          = PyDict.get k (CostOptimization.cache self)
          /\ PyDict.get k (CostOptimization.cache_timestamps self')
             = PyDict.get k (CostOptimization.cache_timestamps self))
    /\ PyDict.get key (CostOptimization.cache self') = Some result
    /\ PyDict.get key (CostOptimization.cache_timestamps self') = Some now.
Proof.
  intros key self' [Hk Hnd] Hpos Hfull. subst self'.
  assert (Hne : CostOptimization.cache self <> []).
  { intros Hnil. rewrite Hnil in Hfull. simpl in Hfull. lia. }
  unfold CostOptimization.cache_result. fold key.
  apply Z.leb_le in Hfull. rewrite Hfull.
  destruct (PyDict.min_key (CostOptimization.cache_timestamps self))
    as [oldest|] eqn:Hmin.
  - assert (Hnd' : NoDup (PyDict.keys (CostOptimization.cache_timestamps self)))
      by now rewrite <- Hk.
    destruct (min_key_least _ _ Hnd' Hmin) as [stamp [Hget Hleast]].
    assert (Hmem : PyDict.mem oldest (CostOptimization.cache self) = true).
    { apply mem_In_keys. rewrite Hk. eapply get_In_keys; eassumption. }
    rewrite Hmem. simpl. exists oldest, stamp.
    split; [reflexivity|]. split; [assumption|]. split; [exact Hleast|].
    split; [|split; [|split]].
    + intros k. rewrite In_keys_set. rewrite (In_keys_del _ _ _ Hnd). tauto.
    + intros k Ho Hkey.
      rewrite !get_set_other by assumption.
      rewrite !get_del_other by assumption. now split.
    + apply get_set_same.
    + apply get_set_same.
  - exfalso. apply min_key_None in Hmin.
    destruct (CostOptimization.cache self); [congruence|].
    rewrite Hmin in Hk. discriminate Hk.
Qed.

(** C6 at a cache of capacity 2 that holds two entries. *)
Lemma insert_at_capacity_evicts_oldest_witness :
  let self := {| CostOptimization.cache :=
                   [("a", []); ("b", [])];
                 CostOptimization.cache_timestamps :=
                   [("a", 5%Z); ("b", 3%Z)];
                 CostOptimization.max_cache_size := 2;
                 CostOptimization.ttl_seconds := 3600 |} in
  exists oldest stamp,
    PyDict.get oldest (CostOptimization.cache_timestamps self) = Some stamp
    /\ PyDict.get "c"
         (CostOptimization.cache
            (snd (CostOptimization.cache_result (fun s => s) self "c" [] 9)))
       = Some [].
Proof.
  intros self.
  destruct (insert_at_capacity_evicts_oldest (fun s => s) self "c" [] 9%Z)
    as [oldest [stamp [_ [Hget [_ [_ [_ [Hnew _]]]]]]]].
  - split; [reflexivity|].
    constructor; [simpl; intros [H|[]]; discriminate H|].
    constructor; [intros [] | constructor].
  - simpl. lia.
  - simpl. lia.
  - exists oldest, stamp. split; [exact Hget | exact Hnew].
Defined.

(** C6, counterexample: a cache of capacity 0 is full while it is empty.
    The first insertion asks for the oldest of no timestamps: min() raises
    ValueError, nothing is evicted and nothing is stored. *)
Lemma insert_at_capacity_evicts_counterexample :
  let self := CostOptimization.init 0 3600 in
  CostOptimization.cache_wf self
  /\ (CostOptimization.max_cache_size self
      <= Z.of_nat (List.length (CostOptimization.cache self)))%Z
  /\ CostOptimization.cache_result (fun s => s) self "select 1"
                                   [[("N", "1")]] 100
     = (Py.Raise (Py.ValueError "min() arg is an empty sequence"), self)
  /\ ~ CostOptimization.insert_at_capacity_evicts.
Proof.
  intros self.
  assert (Hwf : CostOptimization.cache_wf self)
    by (split; [reflexivity | constructor]).
  assert (Hfull : (CostOptimization.max_cache_size self
                   <= Z.of_nat (List.length (CostOptimization.cache self)))%Z)
    by (simpl; lia).
  split; [exact Hwf|]. split; [exact Hfull|]. split; [reflexivity|].
  intros H.
  destruct (H (fun s => s) self "select 1" [[("N", "1")]] 100%Z Hwf Hfull)
    as [oldest [stamp [Hput _]]].
  discriminate Hput.
Qed.

(** C10: along every sequence of lookups and insertions that starts from a
    freshly constructed cache with a non-negative capacity, after each
    operation the entry map and the timestamp map have exactly the same
    keys and the number of stored entries is at most the capacity. *)
Theorem cache_maps_agree_and_bounded
        (md5 : string -> string) (max_cache_size ttl_seconds : Z)
        (ops : list (CostOptimization.op)) (n : nat) :
  let self := CostOptimization.run md5 (firstn n ops)
                (CostOptimization.init max_cache_size ttl_seconds) in
  (0 <= max_cache_size)%Z ->
  PyDict.keys (CostOptimization.cache self)
  = PyDict.keys (CostOptimization.cache_timestamps self)
  /\ (forall k, PyDict.mem k (CostOptimization.cache self)
                = PyDict.mem k (CostOptimization.cache_timestamps self))
  /\ (Z.of_nat (List.length (CostOptimization.cache self)) <= max_cache_size)%Z.
Proof.
  intros self Hcap. subst self.
  destruct (run_invariant md5 (firstn n ops)
              (CostOptimization.init max_cache_size ttl_seconds))
    as [[Hk Hnd] Hsz].
  - apply cache_wf_init.
  - simpl. lia.
  - split; [exact Hk|]. split; [|exact Hsz].
    intros k. now apply mem_congr.
Qed.

(** C10 at a run of four operations on a cache of capacity 2. *)
Lemma cache_maps_agree_and_bounded_witness :
  let ops := [CostOptimization.Put "a" [] 1%Z;
              CostOptimization.Put "b" [] 2%Z;
              CostOptimization.Get "a" 5000%Z;
              CostOptimization.Put "c" [] 5001%Z] in
  let self := CostOptimization.run (fun s => s) (firstn 4 ops)
                (CostOptimization.init 2 3600) in
  PyDict.keys (CostOptimization.cache self)
  = PyDict.keys (CostOptimization.cache_timestamps self)
  /\ (Z.of_nat (List.length (CostOptimization.cache self)) <= 2)%Z.
Proof.
  intros ops self.
  destruct (cache_maps_agree_and_bounded (fun s => s) 2 3600 ops 4)
    as [H1 [_ H3]].
  - lia.
  - split; [exact H1 | exact H3].
Defined.

(** ** Strings *)

Section StrFacts.
Import PyStr.

Lemma append_nil_r (s : string) : s ++ "" = s.
Proof. induction s; simpl; congruence. Qed.

Lemma append_assoc (a b c : string) : (a ++ b) ++ c = a ++ b ++ c.
Proof. induction a; simpl; congruence. Qed.

Lemma map_chars_app f (a b : string) :
  map_chars f (a ++ b) = map_chars f a ++ map_chars f b.
Proof. induction a; simpl; congruence. Qed.

Lemma strip_prefix_app (p s : string) : strip_prefix p (p ++ s) = Some s.
Proof.
  induction p as [|c p IH]; simpl; [reflexivity|].
  now rewrite Ascii.eqb_refl.
Qed.

Lemma startswith_spec (s p : string) :
  startswith s p = true <-> exists rest, s = p ++ rest.
Proof.
  revert s. induction p as [|a p IH]; intros s; simpl.
  - split; [exists s; reflexivity | reflexivity].
  - destruct s as [|b s]; simpl.
    + split; [discriminate | intros [rest H]; discriminate H].
    + rewrite andb_true_iff, IH. split.
      * intros [Hab [rest ->]]. apply Ascii.eqb_eq in Hab. subst.
        now exists rest.
      * intros [rest [= -> ->]]. split; [apply Ascii.eqb_refl|].
        now exists rest.
Qed.

Lemma contains_spec (sub s : string) :
  contains sub s = true <-> exists pre post, s = pre ++ sub ++ post.
Proof.
  induction s as [|c s IH]; simpl.
  - rewrite orb_false_r, startswith_spec. split.
    + intros [rest H]. exists "", rest. exact H.
    + intros [pre [post H]]. destruct pre; simpl in H; [|discriminate].
      now exists post.
  - rewrite orb_true_iff, startswith_spec, IH. split.
    + intros [[rest H]|[pre [post H]]].
      * exists "", rest. exact H.
      * exists (String c pre), post. simpl. now rewrite H.
    + intros [pre [post H]]. destruct pre as [|c' pre]; simpl in H.
      * left. now exists post.
      * right. injection H as -> ->. now exists pre, post.
Qed.

Lemma is_ascii_app (a b : string) :
  is_ascii (a ++ b) = is_ascii a && is_ascii b.
Proof.
  induction a as [|c a IH]; simpl; [reflexivity|].
  now rewrite IH, andb_assoc.
Qed.

(** On ASCII, [upper] keeps word characters and the others apart; it
    does not on U+0345. *)
Lemma is_word_upper_char (c : ascii) :
  is_ascii_char c = true -> is_word (upper_char c) = is_word c.
Proof.
  destruct c as [[] [] [] [] [] [] [] []]; intros H;
    first [reflexivity | discriminate H].
Qed.

Lemma last_from_upper (d d' : option ascii) (s : string) :
  is_ascii s = true ->
  Re.opt_is_word d = Re.opt_is_word d' ->
  Re.opt_is_word (last_from d (upper s)) = Re.opt_is_word (last_from d' s).
Proof.
  revert d d'. induction s as [|c s IH]; intros d d' Hs H; simpl; [exact H|].
  simpl in Hs. apply andb_true_iff in Hs. destruct Hs as [Hc Hs].
  apply IH; [exact Hs|]. simpl. now apply is_word_upper_char.
Qed.

Lemma first_char_upper (s : string) :
  is_ascii s = true ->
  Re.opt_is_word (first_char (upper s)) = Re.opt_is_word (first_char s).
Proof.
  destruct s as [|c s]; simpl; [reflexivity|].
  intros Hs. apply andb_true_iff in Hs. now apply is_word_upper_char.
Qed.

End StrFacts.

(** ** The security validator *)

Section WordSearch.
Import PyStr Re.

Lemma search_word_from_here kw prev s :
  match_word_here kw prev s = true -> search_word_from kw prev s = true.
Proof.
  intros H. destruct s; simpl; rewrite H; reflexivity.
Qed.

(** [\bkw\b] finds a keyword that starts and ends with a word character
    wherever it stands between two non-word positions. *)
Lemma search_word_from_found kw prev pre post :
  opt_is_word (first_char kw) = true ->
  opt_is_word (last_char kw) = true ->
  opt_is_word (last_from prev pre) = false ->
  opt_is_word (first_char post) = false ->
  search_word_from kw prev (pre ++ kw ++ post) = true.
Proof.
  intros Hfirst Hlast. revert prev.
  induction pre as [|c pre IH]; intros prev Hprev Hpost.
  - change ("" ++ kw ++ post) with (kw ++ post).
    apply search_word_from_here. unfold match_word_here.
    rewrite strip_prefix_app.
    destruct kw as [|k kw]; [discriminate Hfirst|].
    unfold boundary, last_char in *. simpl in *.
    rewrite Hprev, Hfirst, Hpost, Hlast. reflexivity.
  - simpl. apply orb_true_iff. right. apply IH; assumption.
Qed.

Lemma dangerous_keywords_are_words kw :
  In kw SqlTools.dangerous_keywords ->
  opt_is_word (first_char kw) = true /\ opt_is_word (last_char kw) = true.
Proof.
  unfold SqlTools.dangerous_keywords. simpl.
  intros H. repeat (destruct H as [<-|H]; [split; reflexivity|]).
  contradiction.
Qed.

Lemma whitespace_is_not_word (c : ascii) :
  isspace c = true -> is_word c = false.
Proof.
  destruct c as [[] [] [] [] [] [] [] []]; simpl; intros H;
    first [reflexivity | discriminate H].
Qed.

(** A keyword between whitespace, or at an end of the text, is a token of
    its own. *)
Lemma whitespace_delimited_is_standalone (keyword pre tok post : string) :
  upper tok = keyword ->
  (pre = "" \/ exists c pre', pre = pre' ++ String c "" /\ isspace c = true) ->
  (post = "" \/ exists c post', post = String c post' /\ isspace c = true) ->
  SqlTools.standalone_token keyword (pre ++ tok ++ post).
Proof.
  intros Hup Hpre Hpost. exists pre, tok, post.
  split; [reflexivity|]. split; [exact Hup|]. split.
  - destruct Hpre as [->|[c [pre' [-> Hc]]]]; [reflexivity|].
    unfold last_char. generalize (@None ascii).
    induction pre' as [|a pre' IH]; intros d; simpl.
    + now apply whitespace_is_not_word.
    + apply IH.
  - destruct Hpost as [->|[c [post' [-> Hc]]]]; [reflexivity|].
    simpl. now apply whitespace_is_not_word.
Qed.

End WordSearch.

(** The keyword search finds every keyword that stands as a token of its
    own in an ASCII text. *)
Lemma check_dangerous_operations_complete (sql keyword : string) :
  In keyword SqlTools.dangerous_keywords ->
  PyStr.is_ascii sql = true ->
  SqlTools.standalone_token keyword sql ->
  In keyword (SqlTools._check_dangerous_operations sql).
Proof.
  intros Hkw Hascii [pre [tok [post [-> [Hup [Hpre Hpost]]]]]].
  rewrite !is_ascii_app, !andb_true_iff in Hascii.
  destruct Hascii as [Hapre [_ Hapost]].
  unfold SqlTools._check_dangerous_operations.
  apply filter_In. split; [assumption|].
  unfold PyStr.upper. rewrite !map_chars_app.
  fold (PyStr.upper tok). rewrite Hup.
  destruct (dangerous_keywords_are_words _ Hkw) as [Hf Hl].
  apply search_word_from_found; try assumption.
  - fold (PyStr.upper pre).
    rewrite (last_from_upper None None pre Hapre eq_refl). exact Hpre.
  - fold (PyStr.upper post). rewrite (first_char_upper _ Hapost). exact Hpost.
Qed.




(** ** The complexity classifier *)

Section Classifier.
Import PyStr Complexity.

Lemma any_in_occurs (indicators : list string) (question : string) :
  any_in indicators (lower question) = true <-> occurs indicators question.
Proof.
  unfold any_in, occurs. rewrite existsb_exists. split.
  - intros [i [Hin Hc]]. apply contains_spec in Hc.
    destruct Hc as [pre [post H]]. now exists i, pre, post.
  - intros [i [pre [post [Hin H]]]]. exists i. split; [assumption|].
    apply contains_spec. now exists pre, post.
Qed.

Lemma any_in_not_occurs (indicators : list string) (question : string) :
  any_in indicators (lower question) = false <-> ~ occurs indicators question.
Proof.
  rewrite <- any_in_occurs. destruct (any_in _ _); split; congruence.
Qed.

End Classifier.

(** C9 (as amended): the SQL agent's classifier is a function of the
    question text alone; it puts "total sales" in the simple tier, "compare
    year over year growth by region" in the medium tier and "cohort
    retention forecasting" in the advanced tier; in general an advanced
    keyword gives advanced, else a complex keyword gives medium, else a
    simple keyword gives simple, else medium.  Conjunctions and word counts
    are used by the cost router only, which has the tiers simple, moderate
    and complex and rates the three questions simple, moderate and
    complex. *)
Theorem complexity_classifier_by_keywords :
  Complexity._determine_complexity_level "total sales" = Complexity.simple
  /\ Complexity._determine_complexity_level
       "compare year over year growth by region" = Complexity.medium
  /\ Complexity._determine_complexity_level "cohort retention forecasting"
     = Complexity.advanced
  /\ (forall question,
        let tier := Complexity._determine_complexity_level question in
        let adv := Complexity.occurs Complexity.advanced_indicators question in
        let cpx := Complexity.occurs Complexity.complex_indicators question in
        let smp := Complexity.occurs Complexity.simple_indicators question in
        (adv -> tier = Complexity.advanced)
        /\ (~ adv -> cpx -> tier = Complexity.medium)
        /\ (~ adv -> ~ cpx -> smp -> tier = Complexity.simple)
        /\ (~ adv -> ~ cpx -> ~ smp -> tier = Complexity.medium))
  /\ CostOptimization.assess_complexity "total sales" = CostOptimization.simple
  /\ CostOptimization.assess_complexity
       "compare year over year growth by region" = CostOptimization.moderate
  /\ CostOptimization.assess_complexity "cohort retention forecasting"
     = CostOptimization.complex.
Proof.
  repeat (split; [reflexivity|]).
  split; [|repeat split; reflexivity].
  intros question tier adv cpx smp. subst tier adv cpx smp.
  unfold Complexity._determine_complexity_level.
  repeat split.
  - intros H. apply any_in_occurs in H. now rewrite H.
  - intros H1 H2. apply any_in_not_occurs in H1. apply any_in_occurs in H2.
    now rewrite H1, H2.
  - intros H1 H2 H3. apply any_in_not_occurs in H1, H2.
    apply any_in_occurs in H3. now rewrite H1, H2, H3.
  - intros H1 H2 H3. apply any_in_not_occurs in H1, H2, H3.
    now rewrite H1, H2, H3.
Qed.

(** C9, counterexample: a five-word question with a simple keyword and two
    conjunctions is rated simple by the SQL agent's classifier, where the
    stated rule gives medium; and the cost router, which does count
    conjunctions, has no advanced tier. *)
Lemma classifier_follows_stated_rule_counterexample :
  Complexity._determine_complexity_level "total sales and returns and refunds"
  = Complexity.simple
  /\ Complexity.stated_rule "total sales and returns and refunds"
     = Complexity.medium
  /\ CostOptimization.assess_complexity "cohort retention forecasting"
     = CostOptimization.complex
  /\ ~ Complexity.classifier_follows_stated_rule.
Proof.
  repeat (split; [reflexivity|]).
  intros H. specialize (H "total sales and returns and refunds").
  discriminate H.
Qed.

(** ** Relationship inference *)

Section FirstMatch.

Lemma endswith_spec (s suf : string) :
  PyStr.endswith s suf = true <-> exists pre, s = pre ++ suf.
Proof.
  induction s as [|c s IH].
  - change (PyStr.endswith "" suf) with (String.eqb "" suf || false).
    rewrite orb_false_r, String.eqb_eq. split.
    + intros <-. now exists "".
    + intros [pre H]. destruct pre; simpl in H; [auto | discriminate].
  - change (PyStr.endswith (String c s) suf)
      with (String.eqb (String c s) suf || PyStr.endswith s suf).
    rewrite orb_true_iff, String.eqb_eq, IH. split.
    + intros [<-|[pre ->]]; [now exists "" | now exists (String c pre)].
    + intros [pre H]. destruct pre as [|c' pre]; simpl in H.
      * now left.
      * right. injection H as _ ->. now exists pre.
Qed.

(** [find] returns the first element that passes the test. *)
Lemma find_first {A : Type} (f : A -> bool) (l : list A) (x : A) :
  find f l = Some x <->
  exists j, nth_error l j = Some x /\ f x = true
            /\ forall j' y, (j' < j)%nat -> nth_error l j' = Some y ->
                            f y = false.
Proof.
  induction l as [|a l IH]; simpl.
  - split; [discriminate | intros [[|j] [H _]]; discriminate H].
  - destruct (f a) eqn:Hfa.
    + split.
      * intros [= <-]. exists 0%nat. repeat split; auto.
        intros j' y Hlt. lia.
      * intros [[|j] [Hj [Hx Hmin]]]; simpl in Hj; [congruence|].
        specialize (Hmin 0%nat a (Nat.lt_0_succ j) eq_refl). congruence.
    + rewrite IH. split.
      * intros [j [Hj [Hx Hmin]]]. exists (S j). repeat split; auto.
        intros [|j'] y Hlt Hy; simpl in Hy; [congruence|].
        apply (Hmin j' y); [lia | assumption].
      * intros [[|j] [Hj [Hx Hmin]]]; simpl in Hj; [congruence|].
        exists j. repeat split; auto.
        intros j' y Hlt Hy. apply (Hmin (S j') y); [lia | assumption].
Qed.

Lemma truthy_nonempty (s : string) : PyStr.truthy s = true <-> s <> "".
Proof. destruct s; simpl; split; congruence. Qed.

Lemma first_known_variation_first by_name variations v target :
  Discovery.first_known_variation by_name variations = Some (v, target) <->
  exists i, nth_error variations i = Some (Some v)
            /\ v <> ""
            /\ PyDict.get v by_name = Some target
            /\ forall i' v', (i' < i)%nat ->
                             nth_error variations i' = Some (Some v') ->
                             v' <> "" -> PyDict.get v' by_name = None.
Proof.
  induction variations as [|o rest IH]; simpl.
  - split; [discriminate | intros [[|i] [H _]]; discriminate H].
  - assert (Hskip :
              (exists i, nth_error rest i = Some (Some v) /\ v <> ""
                         /\ PyDict.get v by_name = Some target
                         /\ forall i' v', (i' < i)%nat ->
                              nth_error rest i' = Some (Some v') ->
                              v' <> "" -> PyDict.get v' by_name = None)
              -> (forall v', o = Some v' -> v' <> ""
                             -> PyDict.get v' by_name = None)
              -> exists i, nth_error (o :: rest) i = Some (Some v) /\ v <> ""
                         /\ PyDict.get v by_name = Some target
                         /\ forall i' v', (i' < i)%nat ->
                              nth_error (o :: rest) i' = Some (Some v') ->
                              v' <> "" -> PyDict.get v' by_name = None).
    { intros [i [Hi [Hv [Hg Hmin]]]] Ho. exists (S i). repeat split; auto.
      intros [|i'] v' Hlt Hv' Hne'; simpl in Hv'.
      - injection Hv' as ->. now apply Ho.
      - apply (Hmin i' v'); [lia | assumption | assumption]. }
    assert (Hback :
              (exists i, nth_error (o :: rest) i = Some (Some v) /\ v <> ""
                         /\ PyDict.get v by_name = Some target
                         /\ forall i' v', (i' < i)%nat ->
                              nth_error (o :: rest) i' = Some (Some v') ->
                              v' <> "" -> PyDict.get v' by_name = None)
              -> (o = Some v /\ v <> "" /\ PyDict.get v by_name = Some target)
                 \/ ((forall v', o = Some v' -> v' <> ""
                                 -> PyDict.get v' by_name = None)
                     /\ exists i, nth_error rest i = Some (Some v) /\ v <> ""
                         /\ PyDict.get v by_name = Some target
                         /\ forall i' v', (i' < i)%nat ->
                              nth_error rest i' = Some (Some v') ->
                              v' <> "" -> PyDict.get v' by_name = None)).
    { intros [[|i] [Hi [Hv [Hg Hmin]]]]; simpl in Hi.
      - left. injection Hi as ->. auto.
      - right. split.
        + intros v' -> Hne. apply (Hmin 0%nat v'); [lia | reflexivity | auto].
        + exists i. repeat split; auto.
          intros i' v' Hlt Hv' Hne'.
          apply (Hmin (S i') v'); [lia | assumption | assumption]. }
    destruct o as [variation|].
    + destruct (PyStr.truthy variation) eqn:Ht.
      * destruct (PyDict.get variation by_name) as [t|] eqn:Hg.
        -- split.
           ++ intros [= <- <-]. exists 0%nat.
              apply truthy_nonempty in Ht. repeat split; auto.
              intros i' v' Hlt. lia.
           ++ intros H. apply Hback in H.
              destruct H as [[[= ->] [_ Hg']]|[Hnone _]]; [congruence|].
              apply truthy_nonempty in Ht.
              rewrite (Hnone variation eq_refl Ht) in Hg. discriminate.
        -- rewrite IH. split.
           ++ intros H. apply Hskip; [assumption|].
              intros v' [= <-] _. assumption.
           ++ intros H. apply Hback in H.
              destruct H as [[[= ->] [_ Hg']]|[_ H]]; [congruence | assumption].
      * rewrite IH. split.
        -- intros H. apply Hskip; [assumption|].
           intros v' [= <-] Hne. apply truthy_nonempty in Hne. congruence.
        -- intros H. apply Hback in H.
           destruct H as [[[= ->] [Hne _]]|[_ H]]; [|assumption].
           apply truthy_nonempty in Hne. congruence.
    + rewrite IH. split.
      * intros H. apply Hskip; [assumption | discriminate].
      * intros H. apply Hback in H.
        destruct H as [[H _]|[_ H]]; [discriminate | assumption].
Qed.

End FirstMatch.

Section TableByName.
Import PyDict Models Discovery.

Lemma names_no_table_cons a ts n :
  names_no_table (a :: ts) n <-> Table.name a <> n /\ names_no_table ts n.
Proof.
  unfold names_no_table. simpl. split.
  - intros H. split; [apply H; auto | intros t Ht; apply H; auto].
  - intros [Ha H] t [<-|Ht]; auto.
Qed.

Lemma names_table_cons a ts n t :
  names_table (a :: ts) n t <->
  names_table ts n t \/ (names_no_table ts n /\ a = t /\ Table.name a = n).
Proof.
  unfold names_table. split.
  - intros [[|b before] [after [Heq [Hn Hlast]]]]; simpl in Heq.
    + injection Heq as -> ->. right. repeat split; auto.
    + injection Heq as -> ->. left. now exists before, after.
  - intros [[before [after [-> [Hn Hlast]]]]|[Hno [-> Hn]]].
    + now exists (a :: before), after.
    + now exists [], ts.
Qed.

Lemma get_fold_set_None tables d0 n :
  get n (fold_left (fun d table => set (Table.name table) table d) tables d0)
  = None <-> names_no_table tables n /\ get n d0 = None.
Proof.
  revert d0. induction tables as [|a ts IH]; intros d0; simpl.
  - split; [intros H; split; [intros t []|exact H] | tauto].
  - rewrite IH, names_no_table_cons.
    destruct (String.eqb_spec n (Table.name a)) as [->|Hne].
    + rewrite get_set_same. split; [intros [_ H]; discriminate H|].
      intros [[H _] _]. congruence.
    + rewrite (get_set_other _ _ _ _ Hne). intuition congruence.
Qed.

Lemma get_fold_set_Some tables d0 n t :
  get n (fold_left (fun d table => set (Table.name table) table d) tables d0)
  = Some t <-> names_table tables n t
               \/ (names_no_table tables n /\ get n d0 = Some t).
Proof.
  revert d0. induction tables as [|a ts IH]; intros d0; simpl.
  - split.
    + intros H. right. split; [intros t' []|exact H].
    + intros [[[|b before] [after [H _]]]|[_ H]];
        [discriminate H | discriminate H | exact H].
  - rewrite IH, names_table_cons, names_no_table_cons.
    destruct (String.eqb_spec n (Table.name a)) as [->|Hne].
    + rewrite get_set_same. split.
      * intros [H|[Hno Heq]]; [tauto|].
        injection Heq as <-. tauto.
      * intros [[H|[Hno [<- _]]]|[[H _] _]]; [tauto | tauto | congruence].
    + rewrite (get_set_other _ _ _ _ Hne). split.
      * intros [H|[Hno H]]; [tauto|].
        right. split; [split; [congruence | assumption] | assumption].
      * intros [[H|[Hno [_ H]]]|[[_ Hno] H]]; [tauto | congruence | tauto].
Qed.

Lemma table_by_name_Some tables n t :
  get n (table_by_name tables) = Some t <-> names_table tables n t.
Proof.
  unfold table_by_name. rewrite get_fold_set_Some. split; [|auto].
  intros [H|[_ H]]; [assumption | discriminate H].
Qed.

Lemma table_by_name_None tables n :
  get n (table_by_name tables) = None <-> names_no_table tables n.
Proof.
  unfold table_by_name. rewrite get_fold_set_None. simpl. tauto.
Qed.

Lemma is_target_column_eligible variation c :
  is_target_column variation c = true <-> eligible_target variation c.
Proof.
  unfold is_target_column, eligible_target, existsb.
  rewrite orb_false_r, !orb_true_iff, !String.eqb_eq. tauto.
Qed.

Lemma is_target_column_not_eligible variation c :
  is_target_column variation c = false <-> ~ eligible_target variation c.
Proof.
  rewrite <- is_target_column_eligible.
  destruct (is_target_column variation c); split; congruence.
Qed.

End TableByName.

(** C7 (as amended): the relationships inferred from names are exactly
    these.  For a column that is not a primary key and whose upper-cased
    name ends in _ID, the stem is the name without its last three
    characters; the candidates are tried in the fixed order: the upper-cased
    stem, the stem plus S, the stem without its last character (only when
    the stem as written ends in a capital S), the stem plus _DIM, the stem
    plus _MASTER; the first non-empty candidate that names a table wins, and
    the target column is the first column of that table, in column order,
    that is a primary key or is named ID or <candidate>_ID.  When that table
    has no such column the column yields no relationship.  Each inferred
    relationship is many-to-one and not enforced. *)
Theorem inferred_relationships_characterised
        (tables : list Models.Table.t) (r : Models.Relationship.t) :
  In r (Discovery._infer_relationships tables) <->
  exists table column i variation target j target_column,
    In table tables
    /\ In column (Models.Table.columns table)
    /\ Models.Column.is_primary_key column = false
    /\ (exists p, PyStr.upper (Models.Column.name column) = p ++ "_ID")
    /\ (let stem := PyStr.drop_last 3 (Models.Column.name column) in
        let candidates :=
          [Some (PyStr.upper stem);
           Some (PyStr.upper stem ++ "S");
           if PyStr.endswith stem "S"
           then Some (PyStr.drop_last 1 (PyStr.upper stem)) else None;
           Some (PyStr.upper stem ++ "_DIM");
           Some (PyStr.upper stem ++ "_MASTER")] in
        nth_error candidates i = Some (Some variation)
        /\ variation <> ""
        /\ Discovery.names_table tables variation target
        /\ forall i' v, (i' < i)%nat ->
                        nth_error candidates i' = Some (Some v) -> v <> "" ->
                        Discovery.names_no_table tables v)
    /\ nth_error (Models.Table.columns target) j = Some target_column
    /\ Discovery.eligible_target variation target_column
    /\ (forall j' c, (j' < j)%nat ->
                     nth_error (Models.Table.columns target) j' = Some c ->
                     ~ Discovery.eligible_target variation c)
    /\ r = {| Models.Relationship.source_table := Models.Table.name table;
              Models.Relationship.target_table := Models.Table.name target;
              Models.Relationship.source_column := Models.Column.name column;
              Models.Relationship.target_column :=
                Models.Column.name target_column;
              Models.Relationship.relationship_type := Models.MANY_TO_ONE;
              Models.Relationship.name := None;
              Models.Relationship.description :=
                Some ("Inferred from naming pattern: "
                        ++ Models.Column.name column);
              Models.Relationship.is_enforced := false |}.
Proof.
  unfold Discovery._infer_relationships. rewrite in_flat_map. split.
  - intros [table [Htable Hr]]. apply in_flat_map in Hr.
    destruct Hr as [column [Hcolumn Hr]].
    unfold Discovery.infer_column in Hr.
    destruct (Discovery.is_key_like column) eqn:Hkey; [|contradiction].
    unfold Discovery.is_key_like in Hkey. apply andb_true_iff in Hkey.
    destruct Hkey as [Hsuffix Hpk]. apply negb_true_iff in Hpk.
    apply endswith_spec in Hsuffix.
    destruct (Discovery.first_known_variation _ _) as [[variation target]|]
      eqn:Hvar; [|contradiction].
    destruct (find _ _) as [target_column|] eqn:Hfind; [|contradiction].
    destruct Hr as [<-|[]].
    apply first_known_variation_first in Hvar.
    destruct Hvar as [i [Hi [Hne [Hget Hmin]]]].
    apply find_first in Hfind. destruct Hfind as [j [Hj [Hel Hjmin]]].
    exists table, column, i, variation, target, j, target_column.
    do 4 (split; [assumption|]).
    split.
    { cbv zeta. split; [exact Hi|]. split; [exact Hne|].
      split; [now apply table_by_name_Some|].
      intros i' v Hlt Hv Hnev. apply table_by_name_None.
      exact (Hmin i' v Hlt Hv Hnev). }
    split; [exact Hj|].
    split; [now apply is_target_column_eligible|].
    split; [|reflexivity].
    intros j' c Hlt Hc. apply is_target_column_not_eligible.
    exact (Hjmin j' c Hlt Hc).
  - intros [table [column [i [variation [target [j [target_column H]]]]]]].
    destruct H as [Htable [Hcolumn [Hpk [Hsuffix [Hvar [Hj [Hel [Hjmin ->]]]]]]]].
    cbv zeta in Hvar. destruct Hvar as [Hi [Hne [Hnames Hmin]]].
    exists table. split; [assumption|]. apply in_flat_map.
    exists column. split; [assumption|].
    unfold Discovery.infer_column, Discovery.is_key_like.
    rewrite Hpk. apply endswith_spec in Hsuffix. rewrite Hsuffix.
    cbn [negb andb].
    assert (Hvar : Discovery.first_known_variation
                     (Discovery.table_by_name tables)
                     (Discovery.target_variations (Models.Column.name column))
                   = Some (variation, target)).
    { apply first_known_variation_first. exists i.
      split; [exact Hi|]. split; [exact Hne|].
      split; [now apply table_by_name_Some|].
      intros i' v' Hlt Hv' Hne'. apply table_by_name_None.
      exact (Hmin i' v' Hlt Hv' Hne'). }
    rewrite Hvar.
    assert (Hfind : find (Discovery.is_target_column variation)
                         (Models.Table.columns target) = Some target_column).
    { apply find_first. exists j.
      split; [exact Hj|]. split; [now apply is_target_column_eligible|].
      intros j' c Hlt Hc. apply is_target_column_not_eligible.
      exact (Hjmin j' c Hlt Hc). }
    rewrite Hfind. now left.
Qed.

(** C7, counterexample: CUSTOMERS has the columns ID (not a key) and
    CUSTOMER_KEY (the primary key), in this order.  For ORDERS.customer_id
    the inference points at CUSTOMERS.ID, the first eligible column, and
    not at the primary key. *)
Lemma target_prefers_primary_key_counterexample :
  Discovery._infer_relationships [Samples.ORDERS; Samples.CUSTOMERS_KEYED]
  = [ {| Models.Relationship.source_table := "ORDERS";
         Models.Relationship.target_table := "CUSTOMERS";
         Models.Relationship.source_column := "customer_id";
         Models.Relationship.target_column := "ID";
         Models.Relationship.relationship_type := Models.MANY_TO_ONE;
         Models.Relationship.name := None;
         Models.Relationship.description :=
           Some "Inferred from naming pattern: customer_id";
         Models.Relationship.is_enforced := false |} ]
  /\ Models.Table.get_primary_keys Samples.CUSTOMERS_KEYED
     = [Samples.column "CUSTOMER_KEY" "NUMBER" true]
  /\ ~ Discovery.target_prefers_primary_key.
Proof.
  split; [reflexivity|]. split; [reflexivity|].
  intros H.
  destruct (H [Samples.ORDERS; Samples.CUSTOMERS_KEYED]
              (Discovery.inferred Samples.ORDERS Samples.customer_id
                                  Samples.CUSTOMERS_KEYED
                                  (Samples.column "ID" "NUMBER" false))
              Samples.CUSTOMERS_KEYED)
    as [pk [Hpk Hname]].
  - left. reflexivity.
  - exists [Samples.ORDERS], []. repeat split. intros t' [].
  - discriminate.
  - destruct Hpk as [<-|[]]. discriminate Hname.
Qed.

Section InferenceOnLists.
Import PyStr PyDict Models.




End InferenceOnLists.





(** ** The orchestrator *)

Section Workflow.
Import Py Orchestrator.

Variable env : Env.t.

(** Resolving the context leaves the executor and the SQL agent alone. *)
Lemma ensure_schema_context_frame self question :
  db_calls (snd (_ensure_schema_context env self question)) = db_calls self
  /\ sql_agent (snd (_ensure_schema_context env self question))
     = sql_agent self.
Proof.
  unfold _ensure_schema_context.
  destruct (SchemaAgent.execute_get_context env (schema_agent self) question)
    as [r agent].
  destruct (cache_schema self) eqn:Hc, (schema_context_cached self);
    simpl; try destruct (cached_schema_context self) as [c|];
    try destruct (PyStr.truthy c);
    destruct r; simpl; rewrite ?Hc; auto.
Qed.

Lemma complete_sql_workflow_result agent question context optimize :
  (exists m, fst (SQLAgent._complete_sql_workflow env agent question context
                                                  optimize)
             = SQLAgent.Error m)
  \/ (exists final_sql,
        fst (SQLAgent._complete_sql_workflow env agent question context
                                             optimize)
        = SQLAgent.Completed final_sql).
Proof.
  unfold SQLAgent._complete_sql_workflow.
  destruct (SQLAgent._generate_sql env agent question context) as [[] ?];
    simpl; eauto.
Qed.

Lemma fix_sql_result agent question context failed_sql error_message :
  (exists m, fst (SQLAgent._fix_sql env agent question context failed_sql
                                    error_message) = SQLAgent.Error m)
  \/ (exists fixed v,
        fst (SQLAgent._fix_sql env agent question context failed_sql
                               error_message) = SQLAgent.Fixed fixed v).
Proof.
  unfold SQLAgent._fix_sql.
  destruct (negb _); [simpl; eauto|].
  unfold SQLAgent.ask. cbv iota beta.
  destruct (SqlTools.nl_to_sql _); simpl; eauto.
Qed.

Lemma generate_sql_with_retries_spec self question schema_context user_context :
  db_calls (snd (_generate_sql_with_retries env self question schema_context
                                            user_context))
  = db_calls self
  /\ ((exists m, fst (_generate_sql_with_retries env self question
                                                  schema_context user_context)
                 = SQLAgent.Error m)
      \/ (exists final_sql,
            fst (_generate_sql_with_retries env self question
                                            schema_context user_context)
            = SQLAgent.Completed final_sql)).
Proof.
  unfold _generate_sql_with_retries.
  match goal with
  | |- context [SQLAgent._complete_sql_workflow ?e ?a ?q ?c ?o] =>
      pose proof (complete_sql_workflow_result a q c o) as H;
      destruct (SQLAgent._complete_sql_workflow e a q c o) as [r agent]
  end.
  simpl in *. split; [reflexivity | exact H].
Qed.

Lemma attempt_sql_fix_spec self question context failed_sql error_message :
  db_calls (snd (_attempt_sql_fix env self question context failed_sql
                                  error_message))
  = db_calls self
  /\ ((exists m, fst (_attempt_sql_fix env self question context failed_sql
                                       error_message) = SQLAgent.Error m)
      \/ (exists fixed v,
            fst (_attempt_sql_fix env self question context failed_sql
                                  error_message) = SQLAgent.Fixed fixed v)).
Proof.
  unfold _attempt_sql_fix.
  pose proof (fix_sql_result (sql_agent self) question context failed_sql
                             error_message) as H.
  destruct (SQLAgent._fix_sql env (sql_agent self) question context
                              failed_sql error_message) as [r agent].
  simpl in *. split; [reflexivity | exact H].
Qed.

Lemma execute_sql_safely_calls self sql :
  db_calls (snd (_execute_sql_safely env self sql))
  = (db_calls self ++ [sql])%list.
Proof.
  unfold _execute_sql_safely. now destruct (Env.db env _ _).
Qed.

Hypothesis Hfail : always_fails env.

Lemma execute_sql_safely_fails self sql :
  exists e, fst (_execute_sql_safely env self sql) = ExecutionError e sql.
Proof.
  unfold _execute_sql_safely.
  destruct (Hfail (db_calls self) sql) as [e ->]. simpl. eauto.
Qed.

(** The repair cycle against a failing executor. *)
Lemma repair_and_retry_fails self question user_context schema_context
      final_sql error_message log0 :
  let run := repair_and_retry env self question user_context schema_context
                              final_sql error_message log0 in
  status (fst run) = error
  /\ ((exists m,
         log (fst run)
         = (log0 ++ [("sql_fix_attempt", SqlStep (SQLAgent.Error m))])%list
         /\ db_calls (snd run) = db_calls self)
      \/ (exists fixed v e,
            log (fst run)
            = (log0 ++ [("sql_fix_attempt", SqlStep (SQLAgent.Fixed fixed v));
                        ("sql_execution_retry",
                         ExecutionStep (ExecutionError e fixed))])%list
            /\ db_calls (snd run) = (db_calls self ++ [fixed])%list)).
Proof.
  intros run. subst run. unfold repair_and_retry.
  destruct (attempt_sql_fix_spec self question schema_context final_sql
                                 error_message) as [Hdb Hres].
  destruct (_attempt_sql_fix env self question schema_context final_sql
                             error_message) as [fix_result self1].
  simpl in Hdb, Hres.
  destruct Hres as [[m ->]|[fixed [v ->]]].
  - simpl. split; [reflexivity|]. left. exists m. now split.
  - pose proof (execute_sql_safely_calls self1 fixed) as Hdb2.
    destruct (execute_sql_safely_fails self1 fixed) as [e He].
    destruct (_execute_sql_safely env self1 fixed) as [r self2].
    simpl in Hdb2, He. subst r. simpl. split; [reflexivity|].
    right. exists fixed, v, e. rewrite <- app_assoc. simpl.
    split; [reflexivity|]. now rewrite Hdb2, Hdb.
Qed.

(** Generation and execution against a failing executor: the three ways
    the run can go. *)
Lemma generate_and_execute_fails self question user_context schema_context
      log0 :
  let run := generate_and_execute env self question user_context
                                  schema_context log0 in
  status (fst run) = error
  /\ ((exists m,
         log (fst run)
         = (log0 ++ [("sql_generation", SqlStep (SQLAgent.Error m))])%list
         /\ db_calls (snd run) = db_calls self)
      \/ (exists final_sql e m,
            log (fst run)
            = (log0 ++ [("sql_generation",
                         SqlStep (SQLAgent.Completed final_sql));
                        ("sql_execution",
                         ExecutionStep (ExecutionError e final_sql));
                        ("sql_fix_attempt", SqlStep (SQLAgent.Error m))])%list
            /\ db_calls (snd run) = (db_calls self ++ [final_sql])%list)
      \/ (exists final_sql e fixed v e',
            log (fst run)
            = (log0 ++ [("sql_generation",
                         SqlStep (SQLAgent.Completed final_sql));
                        ("sql_execution",
                         ExecutionStep (ExecutionError e final_sql));
                        ("sql_fix_attempt",
                         SqlStep (SQLAgent.Fixed fixed v));
                        ("sql_execution_retry",
                         ExecutionStep (ExecutionError e' fixed))])%list
            /\ db_calls (snd run)
               = (db_calls self ++ [final_sql; fixed])%list)).
Proof.
  intros run. subst run. unfold generate_and_execute.
  destruct (generate_sql_with_retries_spec self question schema_context
                                           user_context) as [Hdb Hres].
  destruct (_generate_sql_with_retries env self question schema_context
                                       user_context) as [sql_result self1].
  simpl in Hdb, Hres.
  destruct Hres as [[m ->]|[final_sql ->]].
  - simpl. split; [reflexivity|]. left. exists m. now split.
  - pose proof (execute_sql_safely_calls self1 final_sql) as Hdb2.
    destruct (execute_sql_safely_fails self1 final_sql) as [e He].
    destruct (_execute_sql_safely env self1 final_sql) as [r self2].
    simpl in Hdb2, He. subst r.
    match goal with
    | |- context [repair_and_retry ?a ?b ?c ?d ?f ?g ?h ?i] =>
        destruct (repair_and_retry_fails b c d f g h i) as [Hst Hlog]
    end.
    split; [exact Hst|]. right.
    destruct Hlog as [[m [Hlog Hcalls]]|[fixed [v [e' [Hlog Hcalls]]]]].
    + left. exists final_sql, e, m. rewrite Hlog, Hcalls, Hdb2, Hdb.
      rewrite <- !app_assoc. now split.
    + right. exists final_sql, e, fixed, v, e'.
      rewrite Hlog, Hcalls, Hdb2, Hdb.
      rewrite <- !app_assoc. now split.
Qed.

End Workflow.

(** No entry of a log written out has the given name and status. *)
Ltac not_logged H :=
  let s := fresh "s" in
  let Hin := fresh "Hin" in
  let Hst := fresh "Hst" in
  unfold Orchestrator.logged in H; simpl in H;
  destruct H as [s [Hin Hst]];
  repeat (destruct Hin as [Hin|Hin];
          [first [discriminate Hin
                 | injection Hin as <-; simpl in Hst; discriminate Hst]|]);
  contradiction.

(** C2 (as amended): in every run of the complete BI workflow in which
    every call to the query executor fails, the run ends with status
    'error' and makes at most two execution attempts; it makes exactly two,
    the initial one and one re-execution, exactly when the single repair
    attempt reports success, and none exactly when SQL generation did not
    succeed.  There is never a third attempt. *)
Theorem failing_executor_costs_at_most_two_attempts
        (env : Env.t) (self : Orchestrator.t) (question user_context : string) :
  let run := Orchestrator._complete_bi_workflow env self question user_context in
  Orchestrator.always_fails env ->
  Orchestrator.status (fst run) = Py.error
  /\ (Orchestrator.attempts self (snd run) <= 2)%nat
  /\ (Orchestrator.attempts self (snd run) = 2%nat
      <-> Orchestrator.logged "sql_fix_attempt" Py.success (fst run))
  /\ (Orchestrator.attempts self (snd run) = 0%nat
      <-> ~ Orchestrator.logged "sql_generation" Py.success (fst run)).
Proof.
  intros run Hfail. subst run.
  unfold Orchestrator._complete_bi_workflow, Orchestrator.attempts.
  destruct (PyStr.truthy question); cbn [negb].
  2:{ simpl. rewrite Nat.sub_diag.
      split; [reflexivity|]. split; [lia|]. split; split.
      - discriminate.
      - intros H. not_logged H.
      - intros _ H. not_logged H.
      - reflexivity. }
  pose proof (ensure_schema_context_frame env self question) as [Hdb1 _].
  destruct (Orchestrator._ensure_schema_context env self question)
    as [context_result self1].
  simpl in Hdb1.
  assert (Hlater :
            forall schema_context,
              let run := Orchestrator.generate_and_execute
                           env self1 question user_context schema_context
                           [("schema_context",
                             Orchestrator.ContextStep context_result)] in
              Orchestrator.status (fst run) = Py.error
              /\ (List.length (Orchestrator.db_calls (snd run))
                  - List.length (Orchestrator.db_calls self) <= 2)%nat
              /\ (List.length (Orchestrator.db_calls (snd run))
                  - List.length (Orchestrator.db_calls self) = 2%nat
                  <-> Orchestrator.logged "sql_fix_attempt" Py.success (fst run))
              /\ (List.length (Orchestrator.db_calls (snd run))
                  - List.length (Orchestrator.db_calls self) = 0%nat
                  <-> ~ Orchestrator.logged "sql_generation" Py.success
                        (fst run))).
  { intros schema_context run. subst run.
    destruct (generate_and_execute_fails
                env Hfail self1 question user_context schema_context
                [("schema_context", Orchestrator.ContextStep context_result)])
      as [Hst Hways].
    destruct (Orchestrator.generate_and_execute _ _ _ _ _ _) as [r self'].
    simpl in Hst, Hways |- *. split; [exact Hst|].
    unfold Orchestrator.logged.
    destruct Hways
      as [[m [Hlog Hcalls]]
         |[[final_sql [e [m [Hlog Hcalls]]]]
          |[final_sql [e [fixed [v [e' [Hlog Hcalls]]]]]]]];
      rewrite Hlog, Hcalls, Hdb1, ?length_app; simpl.
    - rewrite Nat.sub_diag. split; [lia|]. split; split.
      + discriminate.
      + intros H. not_logged H.
      + intros _ H. not_logged H.
      + reflexivity.
    - replace (List.length (Orchestrator.db_calls self) + 1
               - List.length (Orchestrator.db_calls self))%nat with 1%nat by lia.
      split; [lia|]. split; split.
      + discriminate.
      + intros H. not_logged H.
      + discriminate.
      + intros H. exfalso. apply H.
        eexists. split; [right; left; reflexivity | reflexivity].
    - replace (List.length (Orchestrator.db_calls self) + 2
               - List.length (Orchestrator.db_calls self))%nat with 2%nat by lia.
      split; [lia|]. split; split.
      + intros _.
        eexists. split; [do 3 right; left; reflexivity | reflexivity].
      + reflexivity.
      + discriminate.
      + intros H. exfalso. apply H.
        eexists. split; [right; left; reflexivity | reflexivity]. }
  destruct context_result as [c|c suggested|r].
  - apply Hlater.
  - apply Hlater.
  - simpl. rewrite Hdb1, Nat.sub_diag.
    split; [reflexivity|]. split; [lia|]. split; split.
    + discriminate.
    + intros H. not_logged H.
    + intros _ H. not_logged H.
    + reflexivity.
Qed.

(** The amended C2 at a run against a database that refuses every
    statement. *)
Lemma failing_executor_costs_at_most_two_attempts_witness :
  let run := Orchestrator._complete_bi_workflow
               Scenarios.database_down Orchestrator.init "total sales" "" in
  Orchestrator.always_fails Scenarios.database_down
  /\ Orchestrator.status (fst run) = Py.error
  /\ (Orchestrator.attempts Orchestrator.init (snd run) <= 2)%nat.
Proof.
  intros run.
  assert (H : Orchestrator.always_fails Scenarios.database_down).
  { intros earlier sql. eexists. reflexivity. }
  split; [exact H|].
  destruct (failing_executor_costs_at_most_two_attempts
              Scenarios.database_down Orchestrator.init "total sales" "" H)
    as [H1 [H2 _]].
  split; [exact H1 | exact H2].
Defined.

(** C2, counterexample: the executor rejects every statement and the
    repair collaborator fails to produce a corrected query; the run ends
    in error after a single execution attempt. *)
Lemma always_two_attempts_counterexample :
  let run := Orchestrator._complete_bi_workflow
               Scenarios.repair_unavailable Orchestrator.init "total sales" "" in
  Orchestrator.always_fails Scenarios.repair_unavailable
  /\ Orchestrator.status (fst run) = Py.error
  /\ Orchestrator.db_calls (snd run)
     = ["SELECT region, SUM(amount) FROM sales GROUP BY region"]
  /\ Orchestrator.attempts Orchestrator.init (snd run) = 1%nat
  /\ ~ Orchestrator.always_two_attempts.
Proof.
  intros run.
  assert (H : Orchestrator.always_fails Scenarios.repair_unavailable).
  { intros earlier sql. eexists. reflexivity. }
  split; [exact H|]. split; [reflexivity|]. split; [reflexivity|].
  split; [reflexivity|].
  intros Hclaim.
  destruct (Hclaim Scenarios.repair_unavailable Orchestrator.init
                   "total sales" "" eq_refl H) as [Htwo _].
  vm_compute in Htwo. discriminate Htwo.
Qed.

(** C3: the code at the failing input.  The first statement fails, the
    repair collaborator proposes DROP TABLE ORDERS, the validator marks it
    insecure, and the orchestrator still submits it to the executor and
    reports success with it as the final SQL. *)
Theorem insecure_repair_reaches_executor :
  let run := Orchestrator._complete_bi_workflow
               Scenarios.unsafe_repair Orchestrator.init "total orders" "" in
  let verdict := SqlTools.security_validator "DROP TABLE ORDERS" true in
  SqlTools.is_secure verdict = false
  /\ In ("sql_fix_attempt",
         Orchestrator.SqlStep (SQLAgent.Fixed "DROP TABLE ORDERS" verdict))
        (Orchestrator.log (fst run))
  /\ Orchestrator.db_calls (snd run)
     = ["SELECT * FROM ORDERZ"; "DROP TABLE ORDERS"]
  /\ Orchestrator.status (fst run) = Py.success
  /\ Orchestrator.sql_query (fst run) = Some "DROP TABLE ORDERS".
Proof.
  intros run verdict.
  split; [reflexivity|].
  split; [do 3 right; left; reflexivity|].
  repeat split; reflexivity.
Qed.

Section ContextResolution.
Import Py Orchestrator.

Variable env : Env.t.

Lemma schema_agent_fails_when_feed_fails agent question e :
  PyStr.truthy question = true ->
  SchemaAgent.catalog_built agent = false ->
  SchemaAgent.last_discovery agent = None ->
  Env.tables_feed env = Raise e ->
  SchemaAgent.execute_get_context env agent question
  = (SchemaAgent.Error (str_of_exn e), agent).
Proof.
  intros Hq Hbuilt Hdisc Hfeed.
  unfold SchemaAgent.execute_get_context, SchemaAgent._get_context_for_query.
  rewrite Hq, Hbuilt. cbn [negb].
  unfold SchemaAgent._build_catalog. rewrite Hdisc.
  unfold SchemaAgent._discover_schema, SchemaTools.discovery.
  rewrite Hfeed. reflexivity.
Qed.

Lemma no_context_when_feed_fails self question e :
  PyStr.truthy question = true ->
  context_cache_cold self ->
  SchemaAgent.catalog_built (schema_agent self) = false ->
  SchemaAgent.last_discovery (schema_agent self) = None ->
  Env.tables_feed env = Raise e ->
  fst (_ensure_schema_context env self question)
  = NoContext (SchemaAgent.Error (str_of_exn e)).
Proof.
  intros Hq Hcold Hbuilt Hdisc Hfeed.
  unfold _ensure_schema_context.
  rewrite (schema_agent_fails_when_feed_fails _ _ _ Hq Hbuilt Hdisc Hfeed).
  unfold context_cache_cold in Hcold.
  destruct (cache_schema self && schema_context_cached self);
    [|reflexivity].
  destruct (cached_schema_context self) as [c|]; [|reflexivity].
  simpl in Hcold. now rewrite Hcold.
Qed.

Lemma stops_at_schema_context self question user_context r :
  PyStr.truthy question = true ->
  fst (_ensure_schema_context env self question) = NoContext r ->
  failed_at_schema_context
    self (_complete_bi_workflow env self question user_context).
Proof.
  intros Hq Hno. unfold _complete_bi_workflow. rewrite Hq. cbn [negb].
  destruct (ensure_schema_context_frame env self question) as [Hdb Hagent].
  destruct (_ensure_schema_context env self question) as [cr self1].
  simpl in Hno, Hdb, Hagent. subst cr.
  unfold failed_at_schema_context. simpl.
  rewrite Hdb, Hagent. repeat split. now exists r.
Qed.

Lemma context_resolved_when_built self question :
  PyStr.truthy question = true ->
  SchemaAgent.catalog_built (schema_agent self) = true ->
  context_status (fst (_ensure_schema_context env self question)) = success.
Proof.
  intros Hq Hbuilt. unfold _ensure_schema_context.
  unfold SchemaAgent.execute_get_context, SchemaAgent._get_context_for_query.
  rewrite Hq, Hbuilt. cbn [negb].
  destruct (cache_schema self) eqn:Hc, (schema_context_cached self);
    simpl; try destruct (cached_schema_context self) as [c|];
    try destruct (PyStr.truthy c); simpl; rewrite ?Hc; reflexivity.
Qed.

Lemma finish_log_prefix self question user_context final_sql query_results
      log0 :
  exists suffix,
    log (fst (finish env self question user_context final_sql query_results
                     log0))
    = (log0 ++ suffix)%list.
Proof.
  unfold finish.
  destruct (include_analysis self && SqlTools.nonempty _).
  - destruct (Env.insights _); simpl; eauto.
  - simpl. exists []. now rewrite app_nil_r.
Qed.

Lemma repair_and_retry_log_prefix self question user_context schema_context
      final_sql error_message log0 :
  exists suffix,
    log (fst (repair_and_retry env self question user_context schema_context
                               final_sql error_message log0))
    = (log0 ++ suffix)%list.
Proof.
  unfold repair_and_retry.
  destruct (_attempt_sql_fix env self question schema_context final_sql
                             error_message) as [fix_result self1].
  destruct fix_result; simpl; eauto.
  destruct (_execute_sql_safely env self1 corrected_sql) as [[rs n|e sql] self2].
  - match goal with
    | |- context [finish ?a ?b ?c ?d ?f ?g ?h] =>
        destruct (finish_log_prefix b c d f g h) as [suffix ->]
    end.
    rewrite <- !app_assoc. eauto.
  - simpl. rewrite <- !app_assoc. eauto.
Qed.

Lemma generate_and_execute_log_prefix self question user_context
      schema_context log0 :
  exists suffix,
    log (fst (generate_and_execute env self question user_context
                                   schema_context log0))
    = (log0 ++ suffix)%list.
Proof.
  unfold generate_and_execute.
  destruct (_generate_sql_with_retries env self question schema_context
                                       user_context) as [sql_result self1].
  destruct sql_result; simpl; eauto.
  destruct (_execute_sql_safely env self1 final_sql) as [[rs n|e sql] self2].
  - match goal with
    | |- context [finish ?a ?b ?c ?d ?f ?g ?h] =>
        destruct (finish_log_prefix b c d f g h) as [suffix ->]
    end.
    rewrite <- !app_assoc. eauto.
  - match goal with
    | |- context [repair_and_retry ?a ?b ?c ?d ?f ?g ?h ?i] =>
        destruct (repair_and_retry_log_prefix b c d f g h i) as [suffix ->]
    end.
    rewrite <- !app_assoc. eauto.
Qed.

(** With a catalog that has been built, whatever it holds, the run gets
    past the schema-context step. *)
Lemma passes_schema_context_when_built self question user_context :
  PyStr.truthy question = true ->
  SchemaAgent.catalog_built (schema_agent self) = true ->
  logged "schema_context" success
         (fst (_complete_bi_workflow env self question user_context)).
Proof.
  intros Hq Hbuilt. unfold _complete_bi_workflow. rewrite Hq. cbn [negb].
  pose proof (context_resolved_when_built self question Hq Hbuilt) as Hst.
  destruct (_ensure_schema_context env self question) as [cr self1].
  simpl in Hst.
  destruct cr as [c|c suggested|r]; [| |discriminate Hst].
  - destruct (generate_and_execute_log_prefix
                self1 question user_context c
                [("schema_context", ContextStep (FromCache c))])
      as [suffix Hlog].
    exists (ContextStep (FromCache c)). rewrite Hlog.
    split; [left; reflexivity | reflexivity].
  - destruct (generate_and_execute_log_prefix
                self1 question user_context c
                [("schema_context", ContextStep (FromSchemaAgent c suggested))])
      as [suffix Hlog].
    exists (ContextStep (FromSchemaAgent c suggested)). rewrite Hlog.
    split; [left; reflexivity | reflexivity].
Qed.

End ContextResolution.

(** C4 (as amended): whenever schema-context resolution does not succeed,
    the run of the complete BI workflow fails at the schema-context step
    and the SQL synthesis collaborator is never invoked; this is the case
    in particular when no context is cached, the catalog has not been
    built, nothing was discovered before and the metadata feed fails.  An
    empty or unbuilt catalog alone does not stop the run: an unbuilt
    catalog is built on demand, and once the catalog has been built the
    schema-context step succeeds whatever the catalog holds. *)
Theorem unresolved_context_stops_before_synthesis
        (env : Env.t) (self : Orchestrator.t) (question user_context : string) :
  let run := Orchestrator._complete_bi_workflow env self question user_context in
  PyStr.truthy question = true ->
  ((exists r, fst (Orchestrator._ensure_schema_context env self question)
              = Orchestrator.NoContext r) ->
   Orchestrator.failed_at_schema_context self run)
  /\ (Orchestrator.context_cache_cold self ->
      SchemaAgent.catalog_built (Orchestrator.schema_agent self) = false ->
      SchemaAgent.last_discovery (Orchestrator.schema_agent self) = None ->
      (exists e, Env.tables_feed env = Py.Raise e) ->
      Orchestrator.failed_at_schema_context self run)
  /\ (SchemaAgent.catalog_built (Orchestrator.schema_agent self) = true ->
      Orchestrator.logged "schema_context" Py.success (fst run)).
Proof.
  intros run Hq. subst run. split; [|split].
  - intros [r Hr]. now apply stops_at_schema_context with (r := r).
  - intros Hcold Hbuilt Hdisc [e Hfeed].
    apply stops_at_schema_context
      with (r := SchemaAgent.Error (Py.str_of_exn e)); [exact Hq|].
    apply no_context_when_feed_fails; assumption.
  - intros Hbuilt. now apply passes_schema_context_when_built.
Qed.

(** The amended C4 at a fresh orchestrator whose metadata feed fails. *)
Lemma unresolved_context_stops_before_synthesis_witness :
  let run := Orchestrator._complete_bi_workflow
               Scenarios.feed_down Orchestrator.init "total sales" "" in
  Orchestrator.failed_at_schema_context Orchestrator.init run.
Proof.
  intros run.
  destruct (unresolved_context_stops_before_synthesis
              Scenarios.feed_down Orchestrator.init "total sales" "" eq_refl)
    as [_ [H _]].
  apply H.
  - reflexivity.
  - reflexivity.
  - reflexivity.
  - eexists. reflexivity.
Defined.

(** C4, counterexample: a fresh orchestrator, whose catalog is empty and
    has not been built, over a schema that lists no table.  The catalog is
    built on demand, stays empty, and renders a context; the synthesis
    collaborator is called once and the run succeeds. *)
Lemma empty_catalog_fails_fast_counterexample :
  let run := Orchestrator._complete_bi_workflow
               Scenarios.empty_schema Orchestrator.init "total sales" "" in
  Catalog.is_empty (SchemaAgent.catalog
                      (Orchestrator.schema_agent Orchestrator.init))
  /\ SchemaAgent.catalog_built (Orchestrator.schema_agent Orchestrator.init)
     = false
  /\ Catalog.is_empty (SchemaAgent.catalog
                         (Orchestrator.schema_agent (snd run)))
  /\ Orchestrator.logged "schema_context" Py.success (fst run)
  /\ map fst (SQLAgent.llm_calls (Orchestrator.sql_agent (snd run)))
     = ["total sales"]
  /\ Orchestrator.status (fst run) = Py.success
  /\ ~ Orchestrator.empty_catalog_fails_fast.
Proof.
  intros run.
  split; [reflexivity|]. split; [reflexivity|]. split; [reflexivity|].
  split; [eexists; split; [left; reflexivity | reflexivity]|].
  split; [reflexivity|]. split; [reflexivity|].
  intros Hclaim.
  destruct (Hclaim Scenarios.empty_schema Orchestrator.init "total sales" ""
                   eq_refl (or_introl eq_refl)) as [Hst _].
  vm_compute in Hst. discriminate Hst.
Qed.

(* ================================================================= *)
(** * Part III: further properties of the code                        *)
(* ================================================================= *)

(** ** The result cache: insertion, lookup and the cache key *)

Import Py PyDict CostOptimization.

(** A lookup made no later than the TTL after the insertion leaves a
    stored entry and its timestamp where they are. *)
Lemma lookup_keeps_fresh_entry
      (md5 : string -> string) (self : ResultCacheManager) (key sql : string)
      (result : rows) (stamp now : Z) :
  get key (cache self) = Some result ->
  get key (cache_timestamps self) = Some stamp ->
  (now <= stamp + ttl_seconds self)%Z ->
  let self' := snd (get_cached_result md5 self sql now) in
  get key (cache self') = Some result
  /\ get key (cache_timestamps self') = Some stamp
  /\ ttl_seconds self' = ttl_seconds self.
Proof.
  intros Hc Ht Hnow self'. subst self'. unfold get_cached_result.
  destruct (get (get_cache_key md5 sql) (cache self)) as [r|];
    [|simpl; auto].
  destruct (get (get_cache_key md5 sql) (cache_timestamps self)) as [t|] eqn:Et;
    [|simpl; auto].
  destruct (Z.ltb_spec (ttl_seconds self) (now - t)) as [Hlt|]; [|simpl; auto].
  simpl.
  destruct (String.eqb_spec key (get_cache_key md5 sql)) as [->|Hne].
  - rewrite Ht in Et. injection Et as <-. lia.
  - rewrite !get_del_other by exact Hne. auto.
Qed.

Lemma lookups_keep_fresh_entry
      (md5 : string -> string) (ops : list op) :
  forall (self : ResultCacheManager) (key : string) (result : rows)
         (stamp : Z),
    get key (cache self) = Some result ->
    get key (cache_timestamps self) = Some stamp ->
    lookups_until (stamp + ttl_seconds self) ops ->
    get key (cache (run md5 ops self)) = Some result
    /\ get key (cache_timestamps (run md5 ops self)) = Some stamp
    /\ ttl_seconds (run md5 ops self) = ttl_seconds self.
Proof.
  induction ops as [|o ops IH]; intros self key result stamp Hc Ht Hops.
  - simpl. auto.
  - inversion Hops as [|o' ops' Ho Hrest]; subst.
    destruct o as [sql now|sql r now]; [|contradiction].
    destruct (lookup_keeps_fresh_entry md5 self key sql result stamp now
                                       Hc Ht Ho) as [Hc' [Ht' Httl]].
    unfold run. cbn [fold_left step]. fold (run md5 ops).
    destruct (IH _ key result stamp Hc' Ht') as [H1 [H2 H3]].
    + now rewrite Httl.
    + split; [exact H1|]. split; [exact H2|].
      etransitivity; [exact H3 | exact Httl].
Qed.

(** X1: a result stored by [cache_result] is returned, and the cache left
    as it is, by every lookup of a query with the same cache key that is
    made no later than the TTL after the insertion, as long as the cache
    was only read in between, by lookups made no later than that. *)
Theorem cached_result_is_returned_within_ttl
        (md5 : string -> string) (self : ResultCacheManager)
        (sql sql' : string) (result : rows) (now now' : Z) (ops : list op) :
  let self1 := snd (cache_result md5 self sql result now) in
  let self2 := run md5 ops self1 in
  fst (cache_result md5 self sql result now) = Return tt ->
  lookups_until (now + ttl_seconds self) ops ->
  get_cache_key md5 sql' = get_cache_key md5 sql ->
  (now' - now <= ttl_seconds self)%Z ->
  get_cached_result md5 self2 sql' now' = (Return (Some result), self2).
Proof.
  intros self1 self2 Hput Hops Hkey Hfresh.
  assert (Hstored :
    get (get_cache_key md5 sql) (cache self1) = Some result
    /\ get (get_cache_key md5 sql) (cache_timestamps self1) = Some now
    /\ ttl_seconds self1 = ttl_seconds self).
  { subst self1. unfold cache_result in *.
    destruct (max_cache_size self <=? _)%Z.
    - destruct (min_key (cache_timestamps self)) as [oldest|];
        [|discriminate Hput].
      destruct (mem oldest (cache self)); [|discriminate Hput].
      simpl. rewrite !get_set_same. auto.
    - simpl. rewrite !get_set_same. auto. }
  destruct Hstored as [Hc [Ht Httl]].
  destruct (lookups_keep_fresh_entry md5 ops self1 _ result now Hc Ht)
    as [Hc2 [Ht2 Httl2]].
  { now rewrite Httl. }
  fold self2 in Hc2, Ht2, Httl2.
  unfold get_cached_result. rewrite Hkey, Hc2, Ht2, Httl2, Httl.
  destruct (Z.ltb_spec (ttl_seconds self) (now' - now)); [lia | reflexivity].
Qed.

(** X1 at a fresh cache: the entry is read back one hour later through a
    differently cased spelling of the query, after two other lookups. *)
Lemma cached_result_is_returned_within_ttl_witness :
  let self1 := snd (cache_result (fun s => s) (init 1000 3600) "select 1"
                                 [[("N", "1")]] 100) in
  let self2 := run (fun s => s) [Get "select 2" 200; Get "select  1" 3000]
                   self1 in
  get_cached_result (fun s => s) self2 "SELECT   1" 3700
  = (Return (Some [[("N", "1")]]), self2).
Proof.
  intros self1 self2.
  apply (cached_result_is_returned_within_ttl
           (fun s => s) (init 1000 3600) "select 1" "SELECT   1"
           [[("N", "1")]] 100 3700
           [Get "select 2" 200; Get "select  1" 3000]).
  - reflexivity.
  - repeat constructor; simpl; lia.
  - reflexivity.
  - simpl. lia.
Defined.

(** X2: a lookup never adds an entry and never changes the timestamp of an
    entry it leaves in the cache, and a hit leaves the whole cache as it
    was: reading an entry does not protect it from eviction. *)
Theorem lookup_never_refreshes_timestamps
        (md5 : string -> string) (self : ResultCacheManager) (sql : string) (now : Z) :
  let self1 := snd (get_cached_result md5 self sql now) in
  cache_wf self ->
  (forall k t, get k (cache_timestamps self1) = Some t ->
               get k (cache_timestamps self) = Some t)
  /\ (forall k r, get k (cache self1) = Some r -> get k (cache self) = Some r)
  /\ (forall r, fst (get_cached_result md5 self sql now) = Return (Some r) ->
                self1 = self).
Proof.
  intros self1 [Hk Hnd]. subst self1. unfold get_cached_result.
  destruct (get (get_cache_key md5 sql) (cache self)) as [result|];
    [|simpl; auto].
  destruct (get (get_cache_key md5 sql) (cache_timestamps self)) as [stamp|];
    [|simpl; auto].
  destruct (ttl_seconds self <? now - stamp)%Z; [|simpl; auto].
  simpl. split; [|split].
  - intros k t Hget.
    destruct (String.eqb_spec k (get_cache_key md5 sql)) as [->|Hne].
    + rewrite Hk in Hnd. rewrite (get_del_same _ _ Hnd) in Hget.
      discriminate Hget.
    + now rewrite (get_del_other _ _ _ Hne) in Hget.
  - intros k r Hget.
    destruct (String.eqb_spec k (get_cache_key md5 sql)) as [->|Hne].
    + rewrite (get_del_same _ _ Hnd) in Hget. discriminate Hget.
    + now rewrite (get_del_other _ _ _ Hne) in Hget.
  - discriminate.
Qed.

(** X2 at a hit on the only entry of a cache. *)
Lemma lookup_never_refreshes_timestamps_witness :
  let self := {| cache := [("a", [])]; cache_timestamps := [("a", 0%Z)];
                 max_cache_size := 2; ttl_seconds := 10 |} in
  snd (get_cached_result (fun s => s) self "a" 5) = self.
Proof.
  intros self.
  destruct (lookup_never_refreshes_timestamps (fun s => s) self "a" 5)
    as [_ [_ H]].
  - split; [reflexivity|]. constructor; [intros [] | constructor].
  - apply (H []). reflexivity.
Defined.

(** ** The cache key *)

Section CacheKey.
Import PyStr.

(** On ASCII, [lower] undoes [upper]; it does not on U+0345, whose upper
    case U+0399 has the lower case U+03B9. *)
Lemma lower_char_upper_char (c : ascii) :
  is_ascii_char c = true -> lower_char (upper_char c) = lower_char c.
Proof.
  destruct c as [[] [] [] [] [] [] [] []]; intros H;
    first [reflexivity | discriminate H].
Qed.

Lemma lower_char_idem (c : ascii) : lower_char (lower_char c) = lower_char c.
Proof. destruct c as [[] [] [] [] [] [] [] []]; reflexivity. Qed.

Lemma isspace_lower_char (c : ascii) : isspace (lower_char c) = isspace c.
Proof. destruct c as [[] [] [] [] [] [] [] []]; reflexivity. Qed.

Lemma isspace_upper_char (c : ascii) : isspace (upper_char c) = isspace c.
Proof. destruct c as [[] [] [] [] [] [] [] []]; reflexivity. Qed.

Lemma lower_upper (s : string) :
  is_ascii s = true -> lower (upper s) = lower s.
Proof.
  induction s as [|c s IH]; simpl; [reflexivity|].
  intros H. apply andb_true_iff in H. destruct H as [Hc Hs].
  unfold lower, upper in *. simpl.
  now rewrite (lower_char_upper_char _ Hc), (IH Hs).
Qed.

Lemma lower_idem (s : string) : lower (lower s) = lower s.
Proof.
  induction s as [|c s IH]; simpl; [reflexivity|].
  unfold lower in *. simpl. now rewrite lower_char_idem, IH.
Qed.

Lemma spaceless_app (a b : string) :
  spaceless (a ++ b) = spaceless a && spaceless b.
Proof.
  induction a as [|c a IH]; simpl; [reflexivity|].
  now rewrite IH, andb_assoc.
Qed.

Lemma split_from_words (s : string) :
  forall cur,
    (forall w, cur = Some w -> is_split_word w) ->
    Forall is_split_word (split_from cur s).
Proof.
  induction s as [|c s IH]; intros cur Hcur; simpl.
  - destruct cur as [w|]; [|constructor].
    constructor; [now apply Hcur | constructor].
  - destruct (isspace c) eqn:Hc.
    + destruct cur as [w|].
      * constructor; [now apply Hcur|]. apply IH. discriminate.
      * apply IH. discriminate.
    + apply IH. intros w [= <-]. destruct cur as [w'|].
      * destruct (Hcur w' eq_refl) as [Hne Hs]. split.
        -- destruct w'; [congruence | discriminate].
        -- rewrite spaceless_app, Hs. simpl. now rewrite Hc.
      * split; [discriminate|]. simpl. now rewrite Hc.
Qed.

Lemma split_words (s : string) : Forall is_split_word (split s).
Proof. apply split_from_words. discriminate. Qed.

Lemma split_from_spaceless (u r : string) :
  forall cur,
    spaceless u = true ->
    split_from cur (u ++ r) = split_from (extend cur u) r.
Proof.
  induction u as [|c u IH]; intros cur Hu; simpl in *; [reflexivity|].
  apply andb_true_iff in Hu. destruct Hu as [Hc Hu].
  apply negb_true_iff in Hc. rewrite Hc. rewrite IH by exact Hu.
  f_equal. destruct u as [|d u]; simpl.
  - destruct cur; reflexivity.
  - f_equal. destruct cur as [w|]; simpl; [|reflexivity].
    now rewrite append_assoc.
Qed.

Lemma split_join_words (ws : list string) :
  Forall is_split_word ws -> split (join " " ws) = ws.
Proof.
  unfold split, join. induction 1 as [|w ws [Hne Hw] Hws IH]; [reflexivity|].
  simpl. destruct ws as [|w' ws].
  - rewrite <- (append_nil_r w) at 1.
    rewrite split_from_spaceless by exact Hw.
    destruct w; [congruence | reflexivity].
  - rewrite split_from_spaceless by exact Hw.
    destruct w as [|c w]; [congruence|].
    simpl in *. now rewrite IH.
Qed.

Lemma split_from_map_chars (f : ascii -> ascii) (s : string) :
  (forall c, isspace (f c) = isspace c) ->
  forall cur,
    split_from (option_map (map_chars f) cur) (map_chars f s)
    = map (map_chars f) (split_from cur s).
Proof.
  intros Hf. induction s as [|c s IH]; intros cur; simpl.
  - destruct cur; reflexivity.
  - rewrite Hf. destruct (isspace c).
    + destruct cur as [w|]; simpl.
      * f_equal. apply (IH None).
      * apply (IH None).
    + rewrite <- IH. f_equal. destruct cur as [w|]; simpl; [|reflexivity].
      now rewrite map_chars_app.
Qed.

Lemma map_chars_concat (f : ascii -> ascii) (sep : string) (ws : list string) :
  map_chars f (String.concat sep ws)
  = String.concat (map_chars f sep) (map (map_chars f) ws).
Proof.
  induction ws as [|w ws IH]; [reflexivity|].
  simpl. destruct ws as [|w' ws]; [reflexivity|].
  rewrite !map_chars_app, IH. reflexivity.
Qed.

Lemma split_lower (s : string) : split (lower s) = map lower (split s).
Proof.
  unfold split, lower.
  exact (split_from_map_chars lower_char s isspace_lower_char None).
Qed.

End CacheKey.

Import CostOptimization.

(** X3: the cache key of an ASCII query depends only on its case-folded
    words: the query, its upper-case spelling and its normalised text
    (lower case, words separated by one blank) all have the same key. *)
Theorem cache_key_ignores_case_and_spacing
        (md5 : string -> string) (sql : string) :
  PyStr.is_ascii sql = true ->
  get_cache_key md5 (PyStr.upper sql) = get_cache_key md5 sql
  /\ get_cache_key md5 (PyStr.join " " (PyStr.split (PyStr.lower sql)))
     = get_cache_key md5 sql.
Proof.
  intros Hascii. unfold get_cache_key. split.
  - now rewrite lower_upper.
  - f_equal. f_equal. unfold PyStr.join at 1.
    change (PyStr.lower (String.concat " " ?l))
      with (PyStr.map_chars PyStr.lower_char (String.concat " " l)).
    rewrite map_chars_concat.
    change (PyStr.map_chars PyStr.lower_char) with PyStr.lower.
    rewrite split_lower, map_map.
    rewrite (map_ext _ _ lower_idem).
    rewrite <- split_lower.
    apply split_join_words. apply split_words.
Qed.

(** X3 at a query with a tabulator, blanks and mixed case. *)
Lemma cache_key_ignores_case_and_spacing_witness :
  let sql := "Select  1" ++ String (ascii_of_nat 9) "From   T " in
  get_cache_key (fun s => s) (PyStr.upper sql) = "select 1 from t"
  /\ get_cache_key (fun s => s) (PyStr.join " " (PyStr.split (PyStr.lower sql)))
     = "select 1 from t".
Proof.
  intros sql.
  change "select 1 from t" with (get_cache_key (fun s => s) sql).
  apply (cache_key_ignores_case_and_spacing (fun s => s) sql).
  reflexivity.
Defined.

(** ** The security validator reports only keywords standing as tokens *)

Section WordSearchConverse.
Import PyStr Re.

Lemma strip_prefix_Some (p s rest : string) :
  strip_prefix p s = Some rest -> s = p ++ rest.
Proof.
  revert s. induction p as [|a p IH]; intros s H; simpl in *.
  - now injection H as <-.
  - destruct s as [|b s]; [discriminate H|].
    destruct (Ascii.eqb_spec a b) as [<-|]; [|discriminate H].
    now rewrite (IH _ H).
Qed.

Lemma last_from_nonempty (d : option ascii) (s : string) :
  s <> "" -> last_from d s = last_char s.
Proof.
  destruct s as [|c s]; [congruence | reflexivity].
Qed.

Lemma search_word_from_inv kw prev s :
  opt_is_word (first_char kw) = true ->
  opt_is_word (last_char kw) = true ->
  search_word_from kw prev s = true ->
  exists pre post,
    s = pre ++ kw ++ post
    /\ opt_is_word (last_from prev pre) = false
    /\ opt_is_word (first_char post) = false.
Proof.
  intros Hfirst Hlast. revert prev.
  assert (Hhere : forall prev s0, match_word_here kw prev s0 = true ->
            exists post, s0 = kw ++ post
                         /\ opt_is_word prev = false
                         /\ opt_is_word (first_char post) = false).
  { intros prev s0 H. unfold match_word_here in H.
    apply andb_true_iff in H. destruct H as [Hb H].
    destruct (strip_prefix kw s0) as [rest|] eqn:Hp; [|discriminate H].
    apply strip_prefix_Some in Hp. subst s0. exists rest.
    split; [reflexivity|].
    destruct kw as [|k kw]; [discriminate Hfirst|].
    unfold boundary, last_char in *. simpl in *.
    rewrite Hfirst in Hb. rewrite Hlast in H.
    destruct (opt_is_word prev); [discriminate Hb|].
    destruct (opt_is_word (first_char rest)); [discriminate H|].
    split; reflexivity. }
  induction s as [|c s IH]; intros prev H; simpl in H.
  - rewrite orb_false_r in H. destruct (Hhere _ _ H) as [post [E [Hp Hq]]].
    exists "", post. auto.
  - apply orb_true_iff in H. destruct H as [H|H].
    + destruct (Hhere _ _ H) as [post [E [Hp Hq]]]. exists "", post. auto.
    + destruct (IH _ H) as [pre [post [E [Hp Hq]]]].
      exists (String c pre), post. simpl. rewrite E. auto.
Qed.

Lemma map_chars_app_inv f (s a b : string) :
  map_chars f s = a ++ b ->
  exists sa sb, s = sa ++ sb /\ map_chars f sa = a /\ map_chars f sb = b.
Proof.
  revert s. induction a as [|c a IH]; intros s H; simpl in H.
  - exists "", s. auto.
  - destruct s as [|d s]; [discriminate H|]. simpl in H.
    injection H as Hc H. destruct (IH _ H) as [sa [sb [-> [Ha Hb]]]].
    exists (String d sa), sb. simpl. rewrite Hc, Ha. auto.
Qed.

End WordSearchConverse.

(** A keyword found by the search occurs in the upper-cased text. *)
Lemma blocked_keyword_in_upper_text (sql keyword : string) :
  In keyword (SqlTools._check_dangerous_operations sql) ->
  PyStr.contains keyword (PyStr.upper sql) = true.
Proof.
  unfold SqlTools._check_dangerous_operations. intros H.
  apply filter_In in H. destruct H as [Hkw H].
  destruct (dangerous_keywords_are_words _ Hkw) as [Hf Hl].
  destruct (search_word_from_inv _ _ _ Hf Hl H) as [pre [post [E _]]].
  apply contains_spec. now exists pre, post.
Qed.

(** In an ASCII text, a keyword found by the search stands as a token of
    its own. *)
Lemma check_dangerous_operations_inv (sql keyword : string) :
  PyStr.is_ascii sql = true ->
  In keyword (SqlTools._check_dangerous_operations sql) ->
  In keyword SqlTools.dangerous_keywords
  /\ SqlTools.standalone_token keyword sql.
Proof.
  unfold SqlTools._check_dangerous_operations. intros Hascii H.
  apply filter_In in H. destruct H as [Hkw H]. split; [exact Hkw|].
  destruct (dangerous_keywords_are_words _ Hkw) as [Hf Hl].
  destruct (search_word_from_inv _ _ _ Hf Hl H) as [pre' [post' [E [Hp Hq]]]].
  apply map_chars_app_inv in E. destruct E as [pre [rest [-> [Epre E]]]].
  apply map_chars_app_inv in E. destruct E as [tok [post [-> [Etok Epost]]]].
  rewrite !is_ascii_app, !andb_true_iff in Hascii.
  destruct Hascii as [Hapre [_ Hapost]].
  exists pre, tok, post. split; [reflexivity|]. split; [exact Etok|].
  subst pre' post'. split.
  - unfold PyStr.last_char.
    rewrite <- (last_from_upper None None pre Hapre eq_refl). exact Hp.
  - rewrite <- (first_char_upper _ Hapost). exact Hq.
Qed.

(** X4: for an ASCII SQL text, every keyword the validator lists among
    the blocked operations is one of its twelve dangerous keywords and
    stands in the text as a token of its own; an identifier that merely
    contains a keyword is not reported, and the text is found insecure only
    if it holds such a token. *)
Theorem blocked_operation_is_standalone_keyword
        (sql : string) (strict_mode : bool) :
  PyStr.is_ascii sql = true ->
  (forall keyword,
      In keyword (SqlTools.blocked_operations
                    (SqlTools.security_validator sql strict_mode)) ->
      In keyword SqlTools.dangerous_keywords
      /\ SqlTools.standalone_token keyword sql)
  /\ (SqlTools.is_secure (SqlTools.security_validator sql strict_mode) = false
      -> exists keyword, In keyword SqlTools.dangerous_keywords
                         /\ SqlTools.standalone_token keyword sql).
Proof.
  intros Hascii. unfold SqlTools.security_validator. simpl. split.
  - intros keyword. now apply check_dangerous_operations_inv.
  - intros H.
    destruct (SqlTools._check_dangerous_operations sql) as [|kw ops] eqn:Hops;
      [discriminate H|].
    exists kw. apply check_dangerous_operations_inv; [exact Hascii|].
    rewrite Hops. now left.
Qed.

(** X4 at a statement with one keyword token and an identifier that
    contains another keyword. *)
Lemma blocked_operation_is_standalone_keyword_witness :
  In "DROP" SqlTools.dangerous_keywords
  /\ SqlTools.standalone_token "DROP" "drop table updated_at".
Proof.
  destruct (blocked_operation_is_standalone_keyword
              "drop table updated_at" true eq_refl) as [H _].
  apply H. vm_compute. auto.
Defined.

(** ** The substring checks behind the validator *)

Section StripFacts.
Import PyStr.

Lemma rev_app (a b : string) : rev (a ++ b) = rev b ++ rev a.
Proof.
  induction a as [|c a IH]; simpl.
  - now rewrite append_nil_r.
  - now rewrite IH, append_assoc.
Qed.

Lemma rev_involutive (s : string) : rev (rev s) = s.
Proof.
  induction s as [|c s IH]; simpl; [reflexivity|].
  now rewrite rev_app, IH.
Qed.

Lemma rev_map_chars f (s : string) : rev (map_chars f s) = map_chars f (rev s).
Proof.
  induction s as [|c s IH]; simpl; [reflexivity|].
  now rewrite map_chars_app, IH.
Qed.

Lemma lstrip_map_chars f (s : string) :
  (forall c, isspace (f c) = isspace c) ->
  lstrip (map_chars f s) = map_chars f (lstrip s).
Proof.
  intros Hf. induction s as [|c s IH]; simpl; [reflexivity|].
  rewrite Hf. destruct (isspace c); [exact IH | reflexivity].
Qed.

Lemma strip_map_chars f (s : string) :
  (forall c, isspace (f c) = isspace c) ->
  strip (map_chars f s) = map_chars f (strip s).
Proof.
  intros Hf. unfold strip, rstrip.
  rewrite rev_map_chars, lstrip_map_chars by exact Hf.
  now rewrite rev_map_chars, lstrip_map_chars by exact Hf.
Qed.

Lemma upper_strip (s : string) : upper (strip s) = strip (upper s).
Proof.
  unfold upper. symmetry. apply strip_map_chars. apply isspace_upper_char.
Qed.

Lemma spaceless_rev (s : string) : spaceless (rev s) = spaceless s.
Proof.
  induction s as [|c s IH]; simpl; [reflexivity|].
  rewrite spaceless_app, IH. simpl.
  now rewrite andb_true_r, andb_comm.
Qed.

Lemma rev_nonempty (s : string) : s <> "" -> rev s <> "".
Proof.
  destruct s as [|c s]; [congruence|]. simpl. intros _.
  destruct (rev s); discriminate.
Qed.

Lemma contains_rev (sub s : string) :
  contains sub s = true -> contains (rev sub) (rev s) = true.
Proof.
  rewrite !contains_spec. intros [pre [post ->]].
  exists (rev post), (rev pre). now rewrite !rev_app, append_assoc.
Qed.

(** Stripping whitespace from an end removes no occurrence of a word. *)
Lemma contains_lstrip (w s : string) :
  is_split_word w -> contains w s = true -> contains w (lstrip s) = true.
Proof.
  intros [Hne Hw]. induction s as [|c s IH]; simpl; [auto|].
  destruct (isspace c) eqn:Hc; [|auto].
  intros H. apply orb_true_iff in H. destruct H as [H|H]; [|auto].
  exfalso. destruct w as [|a w]; [congruence|]. simpl in *.
  apply andb_true_iff in H. destruct H as [H _]. apply Ascii.eqb_eq in H.
  subst a. rewrite Hc in Hw. discriminate Hw.
Qed.

Lemma contains_strip (w s : string) :
  is_split_word w -> contains w s = true -> contains w (strip s) = true.
Proof.
  intros Hw H. unfold strip, rstrip. apply contains_lstrip; [exact Hw|].
  rewrite <- (rev_involutive w). apply contains_rev.
  apply contains_lstrip.
  - destruct Hw as [Hne Hs]. split; [now apply rev_nonempty|].
    now rewrite spaceless_rev.
  - now apply contains_rev.
Qed.

End StripFacts.

(** X5: the NL-to-SQL tool's syntax validation agrees with the security
    validator on their six common keywords: a statement for which the
    validator blocks DROP, DELETE, UPDATE, INSERT, TRUNCATE or ALTER is
    marked invalid, with the keyword named among the issues. *)
Theorem blocked_keyword_fails_syntax_validation
        (sql keyword : string) (strict_mode : bool) :
  In keyword (SqlTools.blocked_operations
                (SqlTools.security_validator sql strict_mode)) ->
  In keyword SqlTools.syntax_dangerous_keywords ->
  SqlTools.SyntaxValidation.is_valid (SqlTools._validate_sql_syntax sql)
  = false
  /\ In ("Dangerous operation detected: " ++ keyword)
        (SqlTools.SyntaxValidation.issues (SqlTools._validate_sql_syntax sql)).
Proof.
  intros Hblocked Hkw.
  apply blocked_keyword_in_upper_text in Hblocked. rename Hblocked into Htok.
  unfold SqlTools._validate_sql_syntax.
  destruct sql as [|c sql].
  { exfalso. revert Htok. simpl in Hkw.
    repeat (destruct Hkw as [<-|Hkw]; [simpl; discriminate|]).
    contradiction. }
  cbv beta iota zeta delta [PyStr.truthy negb].
  set (found := filter _ SqlTools.syntax_dangerous_keywords).
  assert (Hin : In keyword found).
  { apply filter_In. split; assumption. }
  cbn [SqlTools.SyntaxValidation.is_valid SqlTools.SyntaxValidation.issues].
  split.
  - destruct found; [contradiction|]. apply andb_false_r.
  - apply in_or_app. right.
    apply (in_map (fun k => ("Dangerous operation detected: " ++ k)%string)).
    exact Hin.
Qed.

(** X5 at a statement that hides the keyword behind a comment. *)
Lemma blocked_keyword_fails_syntax_validation_witness :
  let sql := "SELECT 1; /* */ delete from orders" in
  SqlTools.SyntaxValidation.is_valid (SqlTools._validate_sql_syntax sql)
  = false
  /\ In "Dangerous operation detected: DELETE"
        (SqlTools.SyntaxValidation.issues (SqlTools._validate_sql_syntax sql)).
Proof.
  intros sql.
  apply (blocked_keyword_fails_syntax_validation sql "DELETE" true).
  - vm_compute. auto.
  - vm_compute. auto.
Defined.

(** X6: the Snowflake connector refuses, before it touches the database,
    every statement for which the security validator blocks one of the
    keywords the two lists share (DROP, DELETE, UPDATE, INSERT, TRUNCATE,
    ALTER, CREATE): [execute_query] raises whatever the connection would
    have answered. *)
Theorem snowflake_refuses_blocked_statement
        (sql keyword : string) (strict_mode : bool) :
  In keyword (SqlTools.blocked_operations
                (SqlTools.security_validator sql strict_mode)) ->
  In keyword Database.shared_keywords ->
  exists message,
    forall cursor,
      Database.execute_query cursor sql = Py.Raise (Py.Exception message).
Proof.
  intros Hblocked Hkw.
  apply blocked_keyword_in_upper_text in Hblocked. rename Hblocked into Htok.
  assert (Hword : PyStr.is_split_word keyword).
  { revert Hkw. unfold Database.shared_keywords. simpl.
    intros H.
    repeat (destruct H as [<-|H]; [split; [discriminate | reflexivity]|]).
    contradiction. }
  assert (Hdk : In keyword Database.dangerous_keywords).
  { revert Hkw. unfold Database.shared_keywords. simpl.
    intros H. repeat (destruct H as [<-|H]; [simpl; tauto|]).
    contradiction. }
  apply (contains_strip _ _ Hword) in Htok. rewrite <- upper_strip in Htok.
  unfold Database.execute_query.
  destruct (negb _ && negb _); [eexists; reflexivity|].
  destruct (find _ Database.dangerous_keywords) as [k|] eqn:Hfind.
  - eexists. reflexivity.
  - exfalso. apply (find_none _ _ Hfind) in Hdk.
    cbv beta in Hdk. congruence.
Qed.

(** X6 at a read followed by a destructive statement. *)
Lemma snowflake_refuses_blocked_statement_witness :
  exists message,
    forall cursor,
      Database.execute_query cursor "SELECT 1; DROP TABLE orders"
      = Py.Raise (Py.Exception message).
Proof.
  apply (snowflake_refuses_blocked_statement
           "SELECT 1; DROP TABLE orders" "DROP" true).
  - vm_compute. auto.
  - vm_compute. auto.
Defined.

(** ** The context handed to the language model *)

Section Rendering.
Import PyStr Catalog.

Lemma contains_concat_In (sep x : string) (parts : list string) :
  In x parts -> contains x (String.concat sep parts) = true.
Proof.
  intros Hin. apply contains_spec.
  induction parts as [|p parts IH]; [contradiction|].
  simpl. destruct Hin as [->|Hin].
  - destruct parts as [|q parts].
    + exists "", "". simpl. now rewrite append_nil_r.
    + exists "", (sep ++ String.concat sep (q :: parts)). reflexivity.
  - destruct (IH Hin) as [pre [post E]].
    destruct parts as [|q parts]; [contradiction|].
    exists (p ++ sep ++ pre), post. rewrite E.
    now rewrite !append_assoc.
Qed.

Lemma contains_truthy (x s : string) :
  x <> "" -> contains x s = true -> truthy s = true.
Proof.
  intros Hx H. destruct s as [|c s]; [|reflexivity].
  destruct x; [congruence | discriminate H].
Qed.

Lemma render_parts h layer :
  contains schema_header (render h layer) = true
  /\ forall rule, In rule (business_rules layer) ->
                  contains ("- " ++ rule) (render h layer) = true.
Proof.
  unfold render, join. split.
  - apply contains_concat_In. apply in_or_app. right.
    apply in_or_app. right. now left.
  - intros rule Hin. apply contains_concat_In.
    do 5 (apply in_or_app; right).
    destruct (business_rules layer) as [|r rules]; [contradiction|].
    right. apply (in_map (fun rule => ("- " ++ rule)%string)). exact Hin.
Qed.

Lemma add_table_business_rules h layer r :
  business_rules (add_table h layer r) = business_rules layer.
Proof.
  unfold add_table. destruct (deref h r); reflexivity.
Qed.

Lemma get_context_for_llm_parts h layer table_names :
  contains schema_header (get_context_for_llm h layer table_names) = true
  /\ forall rule, In rule (business_rules layer) ->
       contains ("- " ++ rule) (get_context_for_llm h layer table_names)
       = true.
Proof.
  unfold get_context_for_llm.
  destruct table_names as [|n names]; [apply render_parts|].
  match goal with
  | |- context [render h ?l] =>
      assert (E : business_rules l = business_rules layer)
  end.
  { match goal with
    | |- business_rules (fold_left ?f ?ns ?l0) = _ =>
        assert (G : forall ms l1,
                   business_rules (fold_left f ms l1) = business_rules l1)
    end.
    { induction ms as [|m ms IH]; intros l1; [reflexivity|].
      simpl. rewrite IH. destruct (get_table h layer m); [|reflexivity].
      apply add_table_business_rules. }
    rewrite G. reflexivity. }
  match goal with
  | |- context [render h ?l] =>
      destruct (render_parts h l) as [H1 H2]
  end.
  split; [exact H1|]. intros rule Hin. apply H2. rewrite E. exact Hin.
Qed.

End Rendering.

(** ** What one run may ask of its collaborators *)

Section Traces.
Import Py PyStr Orchestrator.

Variable env : Env.t.

(** The SQL workflow sends at most one request; the statement it
    completes with is the cleaned answer to that request, and has passed
    the security validator. *)
Lemma complete_sql_workflow_trace agent question context optimize :
  let run :=
    SQLAgent._complete_sql_workflow env agent question context optimize in
  (SQLAgent.llm_calls (snd run) = SQLAgent.llm_calls agent
   \/ SQLAgent.llm_calls (snd run)
      = (SQLAgent.llm_calls agent ++ [(question, context)])%list)
  /\ forall final_sql,
       fst run = SQLAgent.Completed final_sql ->
       SQLAgent.llm_calls (snd run)
       = (SQLAgent.llm_calls agent ++ [(question, context)])%list
       /\ SqlTools.is_secure (SqlTools.security_validator final_sql true)
          = true
       /\ exists answer,
            Env.llm env (SQLAgent.llm_calls agent) (question, context)
            = Some answer
            /\ truthy answer = true
            /\ final_sql = SqlTools._clean_sql_query answer.
Proof.
  unfold SQLAgent._complete_sql_workflow, SQLAgent._generate_sql.
  destruct (negb (truthy question) || negb (truthy context)).
  { simpl. split; [now left | discriminate]. }
  unfold SQLAgent.ask. cbv iota beta.
  unfold SqlTools.nl_to_sql.
  destruct (Env.llm env (SQLAgent.llm_calls agent) (question, context))
    as [answer|]; [|simpl; split; [now right | discriminate]].
  destruct (truthy answer) eqn:Hanswer;
    [|simpl; split; [now right | discriminate]].
  cbv iota beta.
  destruct (negb (SqlTools.is_secure _)) eqn:Hsec;
    [simpl; split; [now right | discriminate]|].
  apply negb_false_iff in Hsec.
  cbv iota beta. cbn [fst snd SQLAgent.llm_calls].
  split; [now right|].
  intros final_sql [= <-].
  assert (Hsame :
    (if optimize
     then match SQLAgent._optimize_sql
                  {| SQLAgent.llm_calls :=
                       (SQLAgent.llm_calls agent ++ [(question, context)])%list;
                     SQLAgent.last_generation :=
                       Some {| SQLAgent.g_question := question;
                               SQLAgent.g_sql_query :=
                                 SqlTools._clean_sql_query answer;
                               SQLAgent.g_security :=
                                 SqlTools.security_validator
                                   (SqlTools._clean_sql_query answer)
                                   (SQLAgent.strict agent);
                               SQLAgent.g_complexity_level :=
                                 Complexity._determine_complexity_level
                                   question |};
                     SQLAgent.workflow_result := SQLAgent.workflow_result agent;
                     SQLAgent.strict := SQLAgent.strict agent |}
                  (SqlTools._clean_sql_query answer) with
          | SQLAgent.Optimized optimized_query =>
              if truthy optimized_query
                 && negb (String.eqb optimized_query
                                     (SqlTools._clean_sql_query answer))
              then optimized_query else SqlTools._clean_sql_query answer
          | _ => SqlTools._clean_sql_query answer
          end
     else SqlTools._clean_sql_query answer)
    = SqlTools._clean_sql_query answer).
  { destruct optimize; [|reflexivity].
    unfold SQLAgent._optimize_sql. cbn [SQLAgent.last_generation
                                         SQLAgent.g_sql_query].
    destruct (truthy (SqlTools._clean_sql_query answer)) eqn:Ht;
      cbv beta iota zeta delta [negb SqlTools.optimized_query].
    - rewrite ?Ht, ?String.eqb_refl. reflexivity.
    - rewrite ?Ht. reflexivity. }
  simpl in Hsame |- *. rewrite Hsame.
  split; [reflexivity|]. split; [exact Hsec|].
  exists answer. auto.
Qed.

(** A repair sends at most one request and reports the cleaned answer,
    whatever the validator says of it. *)
Lemma fix_sql_trace agent question context failed_sql error_message :
  let request :=
    (question, SQLAgent.enhanced_context context failed_sql error_message) in
  let run :=
    SQLAgent._fix_sql env agent question context failed_sql error_message in
  (SQLAgent.llm_calls (snd run) = SQLAgent.llm_calls agent
   \/ SQLAgent.llm_calls (snd run)
      = (SQLAgent.llm_calls agent ++ [request])%list)
  /\ (forall fixed v,
        fst run = SQLAgent.Fixed fixed v ->
        SQLAgent.llm_calls (snd run)
        = (SQLAgent.llm_calls agent ++ [request])%list
        /\ truthy failed_sql = true /\ truthy error_message = true)
  /\ (forall answer,
        truthy question = true -> truthy context = true ->
        truthy failed_sql = true -> truthy error_message = true ->
        Env.llm env (SQLAgent.llm_calls agent) request = Some answer ->
        truthy answer = true ->
        exists v, fst run = SQLAgent.Fixed (SqlTools._clean_sql_query answer) v)
  /\ (truthy failed_sql && truthy error_message = false ->
      run = (SQLAgent.Error "Missing required parameters for SQL fixing",
             agent)).
Proof.
  unfold SQLAgent._fix_sql.
  destruct (truthy question), (truthy context), (truthy failed_sql),
    (truthy error_message); cbn [andb negb fst snd];
    try (split; [now left | split; [|split]; intros; solve
           [discriminate | reflexivity]]).
  unfold SQLAgent.ask. cbv iota beta. unfold SqlTools.nl_to_sql.
  destruct (Env.llm env (SQLAgent.llm_calls agent) _) as [answer|];
    [|simpl; split; [now right | split; [|split]; intros; discriminate]].
  destruct (truthy answer) eqn:Hanswer;
    [|simpl; split; [now right | split; [|split]; intros; try discriminate]].
  - simpl. split; [now right|]. split; [auto|]. split; [|discriminate].
    intros answer' _ _ _ _ [= <-] _. eauto.
  - match goal with H : Some _ = Some _ |- _ => injection H as <- end.
    congruence.
Qed.

Lemma finish_frame self question user_context final_sql query_results log0 :
  let self' :=
    snd (finish env self question user_context final_sql query_results log0) in
  db_calls self' = db_calls self
  /\ sql_agent self' = sql_agent self
  /\ schema_agent self' = schema_agent self
  /\ cache_schema self' = cache_schema self
  /\ schema_context_cached self' = schema_context_cached self
  /\ cached_schema_context self' = cached_schema_context self.
Proof.
  unfold finish.
  destruct (include_analysis self && SqlTools.nonempty _).
  - destruct (Env.insights _); simpl; auto 10.
  - simpl. auto 10.
Qed.

Lemma adds_refl self : adds self self [] [].
Proof. unfold adds. now rewrite !app_nil_r. Qed.

Lemma adds_trans a b c s1 r1 s2 r2 :
  adds a b s1 r1 -> adds b c s2 r2 -> adds a c (s1 ++ s2) (r1 ++ r2).
Proof.
  unfold adds. intros [H1 H2] [H3 H4].
  now rewrite H3, H1, H4, H2, !app_assoc.
Qed.

Lemma ensure_schema_context_adds self question :
  adds self (snd (_ensure_schema_context env self question)) [] [].
Proof.
  destruct (ensure_schema_context_frame env self question) as [H1 H2].
  unfold adds. now rewrite H1, H2, !app_nil_r.
Qed.

Lemma execute_sql_safely_adds self sql :
  adds self (snd (_execute_sql_safely env self sql)) [sql] [].
Proof.
  unfold adds, _execute_sql_safely.
  destruct (Env.db env _ _); simpl; now rewrite app_nil_r.
Qed.

Lemma finish_adds self question user_context final_sql query_results log0 :
  adds self (snd (finish env self question user_context final_sql
                         query_results log0)) [] [].
Proof.
  destruct (finish_frame self question user_context final_sql query_results
                         log0) as [H1 [H2 _]].
  unfold adds. now rewrite H1, H2, !app_nil_r.
Qed.

Lemma generate_sql_with_retries_adds self question schema_context
      user_context :
  let run := _generate_sql_with_retries env self question schema_context
                                        user_context in
  exists requests,
    adds self (snd run) [] requests
    /\ (length requests <= 1)%nat
    /\ forall final_sql,
         fst run = SQLAgent.Completed final_sql ->
         SqlTools.is_secure (SqlTools.security_validator final_sql true)
         = true
         /\ exists context answer,
              requests = [(question, context)]
              /\ Env.llm env (SQLAgent.llm_calls (sql_agent self))
                         (question, context) = Some answer
              /\ truthy answer = true
              /\ final_sql = SqlTools._clean_sql_query answer.
Proof.
  unfold _generate_sql_with_retries.
  match goal with
  | |- context [SQLAgent._complete_sql_workflow ?e ?a ?q ?c ?o] =>
      pose proof (complete_sql_workflow_trace a q c o) as H;
      destruct (SQLAgent._complete_sql_workflow e a q c o) as [r agent];
      set (full_context := c) in *
  end.
  cbv zeta in H. cbn [fst snd] in *. destruct H as [Hcalls Hdone].
  destruct r as [m|? ?|?|? ?|final].
  5: { destruct (Hdone final eq_refl) as [Hc [Hs [answer [Ha [Ht Hf]]]]].
       exists [(question, full_context)]. unfold adds. simpl.
       split; [split; [now rewrite app_nil_r | exact Hc]|].
       split; [lia|]. intros final_sql [= <-]. split; [exact Hs|].
       exists full_context, answer. auto. }
  all: destruct Hcalls as [Hc|Hc];
    [exists []; unfold adds; simpl; rewrite Hc, !app_nil_r
    |exists [(question, full_context)]; unfold adds; simpl;
     rewrite Hc, !app_nil_r];
    (split; [split; reflexivity|]); (split; [simpl; lia|]);
    intros final_sql; discriminate.
Qed.

Lemma attempt_sql_fix_adds self question context failed_sql error_message :
  let run := _attempt_sql_fix env self question context failed_sql
                              error_message in
  exists requests,
    adds self (snd run) [] requests
    /\ (length requests <= 1)%nat
    /\ (forall fixed v,
          fst run = SQLAgent.Fixed fixed v -> length requests = 1%nat)
    /\ (truthy failed_sql && truthy error_message = false ->
        requests = [] /\ exists m, fst run = SQLAgent.Error m).
Proof.
  unfold _attempt_sql_fix.
  pose proof (fix_sql_trace (sql_agent self) question context failed_sql
                            error_message) as H.
  destruct (SQLAgent._fix_sql env (sql_agent self) question context
                              failed_sql error_message) as [r agent].
  cbv zeta in H. cbn [fst snd] in *.
  destruct H as [Hcalls [Hfixed [_ Hmissing]]].
  destruct (truthy failed_sql && truthy error_message) eqn:Hboth.
  - destruct r as [m|? ?|?|fixed v|?].
    4: { destruct (Hfixed fixed v eq_refl) as [Hc _].
         eexists [_]. unfold adds. simpl.
         split; [split; [now rewrite app_nil_r | exact Hc]|].
         split; [lia|]. split; [reflexivity | discriminate]. }
    all: destruct Hcalls as [Hc|Hc];
      [exists [] | eexists [_]]; unfold adds; simpl; rewrite Hc, ?app_nil_r;
      (split; [split; reflexivity|]); (split; [simpl; lia|]);
      (split; [intros ? ?; discriminate | discriminate]).
  - injection (Hmissing eq_refl) as -> ->.
    exists []. unfold adds. simpl. rewrite !app_nil_r.
    split; [split; reflexivity|]. split; [lia|].
    split; [discriminate|]. intros _. eauto.
Qed.

Lemma repair_and_retry_adds self question user_context schema_context
      final_sql error_message log0 :
  exists statements requests,
    adds self
         (snd (repair_and_retry env self question user_context schema_context
                                final_sql error_message log0))
         statements requests
    /\ (length statements <= length requests <= 1)%nat
    /\ (truthy final_sql && truthy error_message = false ->
        statements = [] /\ requests = []).
Proof.
  unfold repair_and_retry.
  destruct (attempt_sql_fix_adds self question schema_context final_sql
                                 error_message)
    as [requests [Hadds [Hlen [Hfixed Hmissing]]]].
  cbv zeta in *.
  destruct (_attempt_sql_fix env self question schema_context final_sql
                             error_message) as [fix_result self1].
  cbn [fst snd] in *.
  destruct fix_result as [m|? ?|?|fixed v|?].
  4: { specialize (Hfixed fixed v eq_refl).
       pose proof (execute_sql_safely_adds self1 fixed) as Hexec.
       destruct (_execute_sql_safely env self1 fixed)
         as [[rs n|e sql] self2]; cbn [fst snd] in *.
       - exists [fixed], requests. split.
         + replace requests with (requests ++ [])%list by apply app_nil_r.
           change [fixed] with ([] ++ [fixed])%list.
           eapply adds_trans; [exact Hadds|].
           change [fixed] with ([fixed] ++ [])%list.
           replace (@nil Env.llm_request) with
             (@nil Env.llm_request ++ [])%list by reflexivity.
           eapply adds_trans; [exact Hexec | apply finish_adds].
         + split; [simpl; lia|]. intros Hf.
           destruct (Hmissing Hf) as [_ [m E]]. discriminate E.
       - exists [fixed], requests. split.
         + replace requests with (requests ++ [])%list by apply app_nil_r.
           change [fixed] with ([] ++ [fixed])%list.
           eapply adds_trans; [exact Hadds | exact Hexec].
         + split; [simpl; lia|]. intros Hf.
           destruct (Hmissing Hf) as [_ [m E]]. discriminate E. }
  all: exists [], requests; cbn [snd];
    (split; [exact Hadds|]); (split; [simpl; lia|]);
    intros Hf; destruct (Hmissing Hf) as [-> _]; auto.
Qed.

Lemma generate_and_execute_adds self question user_context schema_context
      log0 :
  exists statements requests,
    adds self
         (snd (generate_and_execute env self question user_context
                                    schema_context log0))
         statements requests
    /\ (length statements <= length requests <= 2)%nat
    /\ (forall sql rest,
          statements = sql :: rest ->
          SqlTools.is_secure (SqlTools.security_validator sql true) = true
          /\ exists context answer,
               Env.llm env (SQLAgent.llm_calls (sql_agent self))
                       (question, context) = Some answer
               /\ truthy answer = true
               /\ sql = SqlTools._clean_sql_query answer)
    /\ (forall rest, statements = "" :: rest ->
                     rest = [] /\ length requests = 1%nat).
Proof.
  unfold generate_and_execute.
  destruct (generate_sql_with_retries_adds self question schema_context
                                           user_context)
    as [requests [Hadds [Hlen Hdone]]].
  cbv zeta in *.
  destruct (_generate_sql_with_retries env self question schema_context
                                       user_context) as [sql_result self1].
  cbn [fst snd] in *.
  destruct sql_result as [m|? ?|?|? ?|final].
  5: { destruct (Hdone final eq_refl)
         as [Hsec [context [answer [-> [Hllm [Hans Hclean]]]]]].
       pose proof (execute_sql_safely_adds self1 final) as Hexec.
       destruct (_execute_sql_safely env self1 final)
         as [[rs n|e sql] self2]; cbn [fst snd] in *.
       - exists [final], [(question, context)]. split.
         + change [final] with ([] ++ [final] ++ [])%list.
           change [(question, context)]
             with ([(question, context)] ++ [] ++ [])%list.
           eapply adds_trans; [exact Hadds|].
           eapply adds_trans; [exact Hexec | apply finish_adds].
         + split; [simpl; lia|]. split.
           * intros sql rest [= <- <-]. split; [exact Hsec|]. eauto.
           * intros rest [= _ <-]. auto.
       - match goal with
         | |- context [repair_and_retry env ?a ?b ?c ?d ?f ?g ?h] =>
             destruct (repair_and_retry_adds a b c d f g h)
               as [statements [requests' [Hrep [Hlen' Hmissing]]]]
         end.
         exists (final :: statements), ((question, context) :: requests').
         split.
         + change (final :: statements)
             with ([] ++ [final] ++ statements)%list.
           change ((question, context) :: requests')
             with ([(question, context)] ++ [] ++ requests')%list.
           eapply adds_trans; [exact Hadds|].
           eapply adds_trans; [exact Hexec | exact Hrep].
         + split; [simpl; lia|]. split.
           * intros sql' rest [= <- <-]. split; [exact Hsec|]. eauto.
           * intros rest [= E <-]. rewrite E in Hmissing.
             destruct (Hmissing eq_refl) as [-> ->]. auto. }
  all: exists [], requests; cbn [snd];
    (split; [exact Hadds|]); (split; [simpl; lia|]);
    split; intros; discriminate.
Qed.

Lemma complete_bi_workflow_adds self question user_context :
  exists statements requests,
    adds self (snd (_complete_bi_workflow env self question user_context))
         statements requests
    /\ (length statements <= length requests <= 2)%nat
    /\ (forall sql rest,
          statements = sql :: rest ->
          SqlTools.is_secure (SqlTools.security_validator sql true) = true
          /\ exists context answer,
               Env.llm env (SQLAgent.llm_calls (sql_agent self))
                       (question, context) = Some answer
               /\ truthy answer = true
               /\ sql = SqlTools._clean_sql_query answer)
    /\ (forall rest, statements = "" :: rest ->
                     rest = [] /\ length requests = 1%nat).
Proof.
  unfold _complete_bi_workflow.
  destruct (negb (truthy question)).
  { exists [], []. split; [apply adds_refl|]. split; [simpl; lia|].
    split; intros; discriminate. }
  pose proof (ensure_schema_context_adds self question) as Hctx.
  destruct (ensure_schema_context_frame env self question) as [_ Hagent].
  destruct (_ensure_schema_context env self question)
    as [context_result self1].
  cbn [fst snd] in *.
  destruct context_result as [c|c ts|r].
  3: { exists [], []. split; [exact Hctx|]. split; [simpl; lia|].
       split; intros; discriminate. }
  all: match goal with
       | |- context [generate_and_execute env ?a ?b ?c ?d ?f] =>
           destruct (generate_and_execute_adds a b c d f)
             as [statements [requests [Hadds [Hlen [Hfirst Hempty]]]]]
       end;
    exists statements, requests;
    (split; [exact (adds_trans _ _ _ _ _ _ _ Hctx Hadds)|]);
    (split; [exact Hlen|]); rewrite <- Hagent; split; assumption.
Qed.

End Traces.

(** X7: whatever the language model, the database and the schema feed
    do, one run of the complete BI workflow sends at most two requests
    for SQL to the language model and submits at most two statements to
    the executor, and never more statements than requests. *)
Theorem workflow_call_budget
        (env : Env.t) (self : Orchestrator.t) (question user_context : string) :
  let run := Orchestrator._complete_bi_workflow env self question
                                                user_context in
  exists statements requests,
    Orchestrator.db_calls (snd run)
    = (Orchestrator.db_calls self ++ statements)%list
    /\ SQLAgent.llm_calls (Orchestrator.sql_agent (snd run))
       = (SQLAgent.llm_calls (Orchestrator.sql_agent self) ++ requests)%list
    /\ (length statements <= length requests <= 2)%nat.
Proof.
  destruct (complete_bi_workflow_adds env self question user_context)
    as [statements [requests [[H1 H2] [Hlen _]]]].
  exists statements, requests. auto.
Qed.

(** X8: the first statement a run of the complete BI workflow submits to
    the executor is the cleaned answer of the language model to a request
    for the user's question; it has passed the security validator, so, if
    it is ASCII text, none of the twelve dangerous keywords stands in it as
    a token. *)
Theorem first_statement_is_validated_answer
        (env : Env.t) (self : Orchestrator.t) (question user_context : string)
        (sql : string) (rest : list string) :
  let run := Orchestrator._complete_bi_workflow env self question
                                                user_context in
  Orchestrator.db_calls (snd run)
  = (Orchestrator.db_calls self ++ sql :: rest)%list ->
  (forall strict_mode,
      SqlTools.is_secure (SqlTools.security_validator sql strict_mode) = true)
  /\ (PyStr.is_ascii sql = true ->
      forall keyword, In keyword SqlTools.dangerous_keywords ->
                      ~ SqlTools.standalone_token keyword sql)
  /\ exists context answer,
       Env.llm env (SQLAgent.llm_calls (Orchestrator.sql_agent self))
               (question, context) = Some answer
       /\ PyStr.truthy answer = true
       /\ sql = SqlTools._clean_sql_query answer.
Proof.
  intros run Hcalls. subst run.
  destruct (complete_bi_workflow_adds env self question user_context)
    as [statements [requests [[H1 _] [_ [Hfirst _]]]]].
  rewrite H1 in Hcalls. apply app_inv_head in Hcalls.
  destruct (Hfirst _ _ Hcalls) as [Hsec Hanswer].
  split; [intros strict_mode; exact Hsec|]. split; [|exact Hanswer].
  intros Hascii keyword Hkw Htok.
  pose proof (check_dangerous_operations_complete _ _ Hkw Hascii Htok) as Hin.
  unfold SqlTools.security_validator in Hsec. simpl in Hsec.
  destruct (SqlTools._check_dangerous_operations sql);
    [contradiction | discriminate Hsec].
Qed.

(** X8 at a run whose first statement fails and is followed by a
    repair. *)
Lemma first_statement_is_validated_answer_witness :
  (forall strict_mode,
      SqlTools.is_secure
        (SqlTools.security_validator "SELECT * FROM ORDERZ" strict_mode) = true)
  /\ (PyStr.is_ascii "SELECT * FROM ORDERZ" = true ->
      forall keyword, In keyword SqlTools.dangerous_keywords ->
                      ~ SqlTools.standalone_token keyword "SELECT * FROM ORDERZ")
  /\ exists context answer,
       Env.llm Scenarios.unsafe_repair
               (SQLAgent.llm_calls (Orchestrator.sql_agent Orchestrator.init))
               ("total sales", context) = Some answer
       /\ PyStr.truthy answer = true
       /\ "SELECT * FROM ORDERZ" = SqlTools._clean_sql_query answer.
Proof.
  apply (first_statement_is_validated_answer
           Scenarios.unsafe_repair Orchestrator.init "total sales" ""
           "SELECT * FROM ORDERZ" ["DROP TABLE ORDERS"]).
  vm_compute. reflexivity.
Defined.

(** ** The other task types of the orchestrator *)

(** X9: the fix-and-retry task submits to the executor whatever the
    language model answers to the repair request: when the four task
    fields are present and the model answers, the cleaned answer is
    executed, whatever the security validator says of it, and the task's
    status is that of the execution. *)
Theorem fix_and_retry_executes_the_repair
        (env : Env.t) (self : Orchestrator.t)
        (question context failed_sql error_message answer : string) :
  let run := Orchestrator._fix_and_retry env self question context
                                         failed_sql error_message in
  let corrected_sql := SqlTools._clean_sql_query answer in
  PyStr.truthy question = true ->
  PyStr.truthy context = true ->
  PyStr.truthy failed_sql = true ->
  PyStr.truthy error_message = true ->
  Env.llm env (SQLAgent.llm_calls (Orchestrator.sql_agent self))
          (question,
           SQLAgent.enhanced_context context failed_sql error_message)
  = Some answer ->
  PyStr.truthy answer = true ->
  Orchestrator.db_calls (snd run)
  = (Orchestrator.db_calls self ++ [corrected_sql])%list
  /\ exists results details,
       fst run
       = Orchestrator.FixAndRetryCompleted
           (match Env.db env (Orchestrator.db_calls self) corrected_sql with
            | Py.Return _ => Py.success
            | Py.Raise _ => Py.error
            end)
           corrected_sql results details.
Proof.
  intros run corrected_sql Hq Hc Hf He Hllm Hanswer. subst run corrected_sql.
  unfold Orchestrator._fix_and_retry, Orchestrator._attempt_sql_fix.
  destruct (fix_sql_trace env (Orchestrator.sql_agent self) question context
                          failed_sql error_message) as [_ [_ [Hfixed _]]].
  destruct (Hfixed answer Hq Hc Hf He Hllm Hanswer) as [v Hv].
  destruct (SQLAgent._fix_sql env (Orchestrator.sql_agent self) question
                              context failed_sql error_message)
    as [fix_result agent].
  cbn [fst] in Hv. subst fix_result.
  unfold Orchestrator._execute_sql_safely. cbn [Orchestrator.db_calls
    Orchestrator.with_sql_agent Orchestrator.with_db_calls].
  destruct (Env.db env (Orchestrator.db_calls self)
                   (SqlTools._clean_sql_query answer));
    cbn [fst snd Orchestrator.db_calls Orchestrator.with_db_calls
         Orchestrator.execution_status];
    (split; [reflexivity | eauto]).
Qed.

(** X9 at a repair that proposes to drop a table. *)
Lemma fix_and_retry_executes_the_repair_witness :
  let env := Scenarios.empty_schema in
  let env :=
    {| Env.llm := fun _ _ => Some "DROP TABLE ORDERS";
       Env.db := Env.db env; Env.analysis := Env.analysis env;
       Env.tables_feed := Env.tables_feed env;
       Env.foreign_keys_feed := Env.foreign_keys_feed env;
       Env.catalog_save := Env.catalog_save env;
       Env.set_iteration := Env.set_iteration env |} in
  let run := Orchestrator._fix_and_retry
               env Orchestrator.init "total sales" "Table: ORDERS"
               "SELECT * FROM ORDERZ" "relation orderz does not exist" in
  Orchestrator.db_calls (snd run) = ["DROP TABLE ORDERS"]
  /\ exists results details,
       fst run
       = Orchestrator.FixAndRetryCompleted Py.success "DROP TABLE ORDERS"
                                           results details.
Proof.
  intros env0 env run.
  apply (fix_and_retry_executes_the_repair
           env Orchestrator.init "total sales" "Table: ORDERS"
           "SELECT * FROM ORDERZ" "relation orderz does not exist"
           "DROP TABLE ORDERS"); reflexivity.
Defined.

(** X10: a query-with-context task never consults the schema agent or
    the cached schema context, sends at most one request for SQL to the
    language model and submits at most one statement, so a failed
    execution is not followed by a repair. *)
Theorem query_with_context_is_single_shot
        (env : Env.t) (self : Orchestrator.t) (question context : string) :
  let run := Orchestrator._query_with_context env self question context in
  Orchestrator.schema_agent (snd run) = Orchestrator.schema_agent self
  /\ Orchestrator.cached_schema_context (snd run)
     = Orchestrator.cached_schema_context self
  /\ (exists statements requests,
        Orchestrator.db_calls (snd run)
        = (Orchestrator.db_calls self ++ statements)%list
        /\ SQLAgent.llm_calls (Orchestrator.sql_agent (snd run))
           = (SQLAgent.llm_calls (Orchestrator.sql_agent self)
                ++ requests)%list
        /\ (length statements <= length requests <= 1)%nat).
Proof.
  intros run. subst run. unfold Orchestrator._query_with_context.
  destruct (negb (PyStr.truthy question) || negb (PyStr.truthy context)).
  { cbn [fst snd]. split; [reflexivity|]. split; [reflexivity|].
    exists [], []. rewrite !app_nil_r. simpl. auto. }
  destruct (complete_sql_workflow_trace env (Orchestrator.sql_agent self)
              question context (Orchestrator.auto_optimize self))
    as [Hcalls Hdone].
  destruct (SQLAgent._complete_sql_workflow env (Orchestrator.sql_agent self)
              question context (Orchestrator.auto_optimize self))
    as [sql_result agent].
  cbn [fst snd] in *.
  destruct sql_result as [m|? ?|?|? ?|final].
  5: { destruct (Hdone final eq_refl) as [Hc _].
       unfold Orchestrator._execute_sql_safely.
       cbn [Orchestrator.db_calls Orchestrator.with_sql_agent].
       destruct (Env.db env (Orchestrator.db_calls self) final) eqn:Hdb;
         cbn [fst snd Orchestrator.schema_agent Orchestrator.with_db_calls
              Orchestrator.with_sql_agent Orchestrator.cached_schema_context
              Orchestrator.db_calls Orchestrator.sql_agent];
         (split; [reflexivity|]); (split; [reflexivity|]);
         exists [final], [(question, context)]; simpl; auto. }
  all: cbn [fst snd Orchestrator.schema_agent Orchestrator.with_sql_agent
            Orchestrator.cached_schema_context Orchestrator.db_calls
            Orchestrator.sql_agent];
    (split; [reflexivity|]); (split; [reflexivity|]);
    destruct Hcalls as [Hc|Hc]; rewrite Hc;
    [exists [], [] | exists [], [(question, context)]];
    rewrite ?app_nil_r; simpl; auto.
Qed.

(** ** Building and refreshing the catalog *)

Section CatalogBuild.
Import Py PyDict Models Catalog.

Lemma add_table_keys h layer r k :
  In k (keys (tables layer)) -> In k (keys (tables (add_table h layer r))).
Proof.
  unfold add_table. destruct (deref h r); [|auto].
  simpl. intros H. apply In_keys_set. now right.
Qed.

Lemma fold_add_table_frame h refs :
  forall layer,
    business_rules (fold_left (add_table h) refs layer) = business_rules layer
    /\ forall k, In k (keys (tables layer)) ->
                 In k (keys (tables (fold_left (add_table h) refs layer))).
Proof.
  induction refs as [|r refs IH]; intros layer; simpl; [auto|].
  destruct (IH (add_table h layer r)) as [H1 H2]. split.
  - now rewrite H1, add_table_business_rules.
  - intros k Hk. apply H2. now apply add_table_keys.
Qed.

Lemma fold_left_preserves {A B C : Type} (g : A -> C) (f : A -> B -> A)
      (l : list B) :
  (forall a b, g (f a b) = g a) -> forall a, g (fold_left f l a) = g a.
Proof.
  intros Hf. induction l as [|b l IH]; intros a; simpl; [reflexivity|].
  now rewrite IH, Hf.
Qed.

Lemma sales_metrics_frame layer table :
  business_rules (SchemaTools.sales_metrics layer table) = business_rules layer
  /\ tables (SchemaTools.sales_metrics layer table) = tables layer.
Proof.
  unfold SchemaTools.sales_metrics.
  split; apply fold_left_preserves; intros a b;
    destruct (_ || _)%bool; reflexivity.
Qed.

Lemma customer_metric_frame layer table layer' :
  SchemaTools.customer_metric layer table = Return layer' ->
  business_rules layer' = business_rules layer
  /\ tables layer' = tables layer.
Proof.
  unfold SchemaTools.customer_metric.
  destruct (existsb _ (Table.columns table)).
  - intros [= <-]. auto.
  - destruct (Table.columns table); [discriminate|].
    intros [= <-]. auto.
Qed.

Lemma default_metrics_frame ts :
  forall layer,
    business_rules (snd (SchemaTools.default_metrics ts layer))
    = business_rules layer
    /\ tables (snd (SchemaTools.default_metrics ts layer)) = tables layer.
Proof.
  induction ts as [|table ts IH]; intros layer; [simpl; auto|].
  cbn [SchemaTools.default_metrics].
  set (layer1 := if (PyStr.contains "sales" _ || PyStr.contains "order" _)%bool
                 then SchemaTools.sales_metrics layer table else layer).
  assert (H1 : business_rules layer1 = business_rules layer
               /\ tables layer1 = tables layer).
  { subst layer1. destruct (_ || _)%bool; [apply sales_metrics_frame | auto]. }
  destruct H1 as [Hr Ht].
  destruct (PyStr.contains "customer" _ || PyStr.contains "user" _)%bool.
  - destruct (SchemaTools.customer_metric layer1 table) as [layer2|e] eqn:Hc.
    + destruct (customer_metric_frame _ _ _ Hc) as [Hr2 Ht2].
      destruct (IH layer2) as [H1 H2]. rewrite H1, H2. split; congruence.
    + cbn [snd]. auto.
  - destruct (IH layer1) as [H1 H2]. rewrite H1, H2. auto.
Qed.

Lemma fold_add_business_rule rules :
  forall layer,
    business_rules (fold_left add_business_rule rules layer)
    = (business_rules layer ++ rules)%list
    /\ tables (fold_left add_business_rule rules layer) = tables layer.
Proof.
  induction rules as [|r rules IH]; intros layer; simpl.
  - now rewrite app_nil_r.
  - destruct (IH (add_business_rule layer r)) as [H1 H2].
    rewrite H1, H2. simpl. now rewrite <- app_assoc.
Qed.

(** The tool's build: every table of the catalog stays, and a successful
    build appends the default rules. *)
Lemma tool_build_catalog_spec env h layer refs rels :
  let run := SchemaTools._build_catalog env h layer refs rels in
  (forall k, In k (keys (tables layer)) ->
             In k (keys (tables (snd (snd run)))))
  /\ (fst run = Return tt ->
      business_rules (snd (snd run))
      = (business_rules layer ++ SchemaTools.default_business_rules)%list).
Proof.
  unfold SchemaTools._build_catalog, SchemaTools._add_default_business_context.
  destruct (fold_add_table_frame h refs layer) as [Hr Hk].
  set (layer1 := fold_left (add_table h) refs layer) in *.
  set (h1 := fold_left _ rels h).
  destruct (default_metrics_frame (SchemaTools.deref_all h1 refs) layer1)
    as [Hr2 Ht2].
  destruct (SchemaTools.default_metrics (SchemaTools.deref_all h1 refs) layer1)
    as [[[]|e] layer2]; cbn [fst snd] in *.
  - destruct (fold_add_business_rule SchemaTools.default_business_rules layer2)
      as [Hr3 Ht3].
    destruct (Env.catalog_save env) as [[]|e]; cbn [fst snd].
    + split.
      * intros k Hin. rewrite Ht3, Ht2. now apply Hk.
      * intros _. now rewrite Hr3, Hr2, Hr.
    + split; [|discriminate].
      intros k Hin. rewrite Ht3, Ht2. now apply Hk.
  - split; [|discriminate]. intros k Hin. rewrite Ht2. now apply Hk.
Qed.

Variable env : Env.t.

Lemma discover_schema_frame self :
  SchemaAgent.catalog (snd (SchemaAgent._discover_schema env self))
  = SchemaAgent.catalog self
  /\ SchemaAgent.catalog_built (snd (SchemaAgent._discover_schema env self))
     = SchemaAgent.catalog_built self.
Proof.
  unfold SchemaAgent._discover_schema.
  destruct (SchemaTools.discovery env); simpl; auto.
Qed.

Lemma build_with_spec self data :
  let run := SchemaAgent.build_with env self data in
  (forall k, In k (keys (tables (SchemaAgent.catalog self))) ->
             In k (keys (tables (SchemaAgent.catalog (snd run)))))
  /\ (forall r, fst run = Return r ->
        r = SchemaAgent.CatalogBuilt
        /\ SchemaAgent.catalog_built (snd run) = true
        /\ business_rules (SchemaAgent.catalog (snd run))
           = (business_rules (SchemaAgent.catalog self)
                ++ SchemaTools.default_business_rules)%list)
  /\ (forall e, fst run = Raise e ->
        SchemaAgent.catalog_built (snd run) = SchemaAgent.catalog_built self).
Proof.
  unfold SchemaAgent.build_with.
  destruct (tool_build_catalog_spec env (SchemaAgent.objects self)
              (SchemaAgent.catalog self) (fst data) (snd data)) as [Hk Hr].
  destruct (SchemaTools._build_catalog env (SchemaAgent.objects self)
              (SchemaAgent.catalog self) (fst data) (snd data))
    as [[[]|e] [h1 layer1]]; cbn [fst snd] in *.
  - split; [exact Hk|]. split; [|discriminate].
    intros r [= <-]. auto.
  - split; [exact Hk|]. split; [discriminate|]. auto.
Qed.

Lemma agent_build_catalog_spec self :
  let run := SchemaAgent._build_catalog env self in
  (forall k, In k (keys (tables (SchemaAgent.catalog self))) ->
             In k (keys (tables (SchemaAgent.catalog (snd run)))))
  /\ (forall r, fst run = Return r -> SchemaAgent.status_of r = success ->
        r = SchemaAgent.CatalogBuilt
        /\ SchemaAgent.catalog_built (snd run) = true
        /\ business_rules (SchemaAgent.catalog (snd run))
           = (business_rules (SchemaAgent.catalog self)
                ++ SchemaTools.default_business_rules)%list)
  /\ (SchemaAgent.catalog_built self = false ->
      SchemaAgent.catalog_built (snd run) = true ->
      fst run = Return SchemaAgent.CatalogBuilt).
Proof.
  unfold SchemaAgent._build_catalog.
  destruct (SchemaAgent.last_discovery self) as [data|].
  - destruct (build_with_spec self data) as [H1 [H2 H3]].
    split; [exact H1|]. split; [intros r Hr _; now apply H2|].
    intros Hb Hb'.
    destruct (SchemaAgent.build_with env self data) as [[r|e] self1];
      cbn [fst snd] in *.
    + destruct (H2 r eq_refl) as [-> _]. reflexivity.
    + rewrite (H3 e eq_refl) in Hb'. congruence.
  - destruct (discover_schema_frame self) as [Hc Hb].
    destruct (SchemaAgent._discover_schema env self) as [[r|e] self1];
      cbn [fst snd] in *.
    + destruct (SchemaAgent.status_of r) eqn:Hs.
      * destruct (SchemaAgent.last_discovery self1) as [data|].
        -- destruct (build_with_spec self1 data) as [H1 [H2 H3]].
           rewrite Hc in H1, H2. split; [exact H1|].
           split; [intros r' Hr _; now apply H2|].
           intros Hf Hb'.
           destruct (SchemaAgent.build_with env self1 data)
             as [[r'|e] self2]; cbn [fst snd] in *.
           ++ destruct (H2 r' eq_refl) as [-> _]. reflexivity.
           ++ rewrite (H3 e eq_refl) in Hb'. congruence.
        -- cbn [fst snd]. rewrite Hc. split; [auto|].
           split; [discriminate|]. intros Hf Hb'. congruence.
      * cbn [fst snd]. rewrite Hc. split; [auto|].
        split; [intros r' [= <-] Hs'; congruence|].
        intros Hf Hb'. congruence.
    + cbn [fst snd]. rewrite Hc. split; [auto|].
      split; [discriminate|]. intros Hf Hb'. congruence.
Qed.

End CatalogBuild.

(** X11: a refresh of the system empties the orchestrator's context
    cache but never removes a table from the catalog: a table that was in
    the catalog is still there afterwards, whatever the schema feed now
    reports and whether or not the refresh succeeds. *)
Theorem refresh_never_forgets_a_table
        (env : Env.t) (self : Orchestrator.t) (key : string) :
  let run := Orchestrator.refresh_system env self in
  In key (PyDict.keys (Catalog.tables
            (SchemaAgent.catalog (Orchestrator.schema_agent self)))) ->
  In key (PyDict.keys (Catalog.tables
            (SchemaAgent.catalog (Orchestrator.schema_agent (snd run)))))
  /\ Orchestrator.schema_context_cached (snd run) = false
  /\ Orchestrator.cached_schema_context (snd run) = None.
Proof.
  intros run Hin. subst run.
  unfold Orchestrator.refresh_system, SchemaAgent.refresh_catalog.
  cbn [Orchestrator.schema_agent].
  set (agent0 := {| SchemaAgent.objects := _ |}).
  assert (H0 : SchemaAgent.catalog agent0
               = SchemaAgent.catalog (Orchestrator.schema_agent self))
    by reflexivity.
  destruct (discover_schema_frame env agent0) as [Hc _].
  destruct (SchemaAgent._discover_schema env agent0) as [[r|e] agent1];
    cbn [fst snd] in *.
  - destruct (SchemaAgent.status_of r).
    + destruct (agent_build_catalog_spec env agent1) as [Hk _].
      destruct (SchemaAgent._build_catalog env agent1) as [[r'|e] agent2];
        cbn [fst snd] in *;
        [destruct (SchemaAgent.status_of r')|];
        cbn [snd Orchestrator.schema_agent Orchestrator.with_schema_agent
             Orchestrator.schema_context_cached
             Orchestrator.cached_schema_context];
        (split; [apply Hk; rewrite Hc, H0; exact Hin | auto]).
    + cbn [SchemaAgent.status_of snd Orchestrator.schema_agent
           Orchestrator.with_schema_agent Orchestrator.schema_context_cached
           Orchestrator.cached_schema_context].
      destruct r; cbn; rewrite ?Hc; auto.
  - cbn. rewrite Hc. auto.
Qed.

(** X11 at a catalog built from two tables, refreshed when the schema
    feed is down. *)
Lemma refresh_never_forgets_a_table_witness :
  let run := Orchestrator.refresh_system Scenarios.feed_down
                                         Scenarios.shop_ready in
  In "UNKNOWN.PUBLIC.ORDERS"
     (PyDict.keys (Catalog.tables
        (SchemaAgent.catalog (Orchestrator.schema_agent (snd run)))))
  /\ Orchestrator.schema_context_cached (snd run) = false
  /\ Orchestrator.cached_schema_context (snd run) = None.
Proof.
  apply (refresh_never_forgets_a_table
           Scenarios.feed_down Scenarios.shop_ready "UNKNOWN.PUBLIC.ORDERS").
  vm_compute. auto.
Defined.

(** X12: every successful initialisation of the system appends the four
    default business rules to the rules the catalog already holds, so
    initialising again duplicates them. *)
Theorem initialize_system_appends_default_rules
        (env : Env.t) (self : Orchestrator.t) :
  let run := Orchestrator._initialize_system env self in
  fst (fst (fst run)) = Py.success ->
  Catalog.business_rules
    (SchemaAgent.catalog (Orchestrator.schema_agent (snd run)))
  = (Catalog.business_rules
       (SchemaAgent.catalog (Orchestrator.schema_agent self))
       ++ SchemaTools.default_business_rules)%list.
Proof.
  intros run. subst run.
  unfold Orchestrator._initialize_system, SchemaAgent.execute_build_catalog.
  destruct (agent_build_catalog_spec env (Orchestrator.schema_agent self))
    as [_ [Hr _]].
  destruct (SchemaAgent._build_catalog env (Orchestrator.schema_agent self))
    as [[r|e] agent]; cbn [fst snd] in *.
  - destruct (SchemaAgent.status_of r) eqn:Hs; cbn [fst snd].
    + intros _. now destruct (Hr r eq_refl Hs) as [_ [_ H]].
    + discriminate.
  - cbn. discriminate.
Qed.

(** X12 at a second initialisation: the catalog then holds eight
    rules. *)
Lemma initialize_system_appends_default_rules_witness :
  let run := Orchestrator._initialize_system Scenarios.shop
                                             Scenarios.shop_ready in
  Catalog.business_rules
    (SchemaAgent.catalog (Orchestrator.schema_agent (snd run)))
  = (SchemaTools.default_business_rules
       ++ SchemaTools.default_business_rules)%list.
Proof.
  apply (initialize_system_appends_default_rules
           Scenarios.shop Scenarios.shop_ready).
  vm_compute. reflexivity.
Defined.

(** ** The cached schema context *)

Section ContextCache.
Import Py PyStr Orchestrator.

Variable env : Env.t.

(** The schema agent answers a context request with an error or with a
    context that holds the schema header. *)
Lemma execute_get_context_result agent question :
  (exists m, fst (SchemaAgent.execute_get_context env agent question)
             = SchemaAgent.Error m)
  \/ (exists c suggested related,
        fst (SchemaAgent.execute_get_context env agent question)
        = SchemaAgent.ContextFor c suggested related
        /\ contains Catalog.schema_header c = true).
Proof.
  unfold SchemaAgent.execute_get_context, SchemaAgent._get_context_for_query.
  destruct (negb (truthy question)); [left; simpl; eauto|].
  assert (Hretrieve : forall a,
    contains Catalog.schema_header
      (SchemaTools.full_context
         (SchemaTools._get_context_for_query
            env (SchemaAgent.objects a) (SchemaAgent.catalog a) question))
    = true).
  { intros a. unfold SchemaTools._get_context_for_query.
    destruct (Catalog.get_table_suggestions _ _ _ _);
      cbn [SchemaTools.full_context]; apply get_context_for_llm_parts. }
  destruct (SchemaAgent.catalog_built agent).
  - right. simpl. eauto.
  - destruct (SchemaAgent._build_catalog env agent) as [[r|e] agent1].
    + destruct r; simpl; eauto 6.
    + left. simpl. eauto.
Qed.

Lemma ensure_schema_context_result self question :
  let run := _ensure_schema_context env self question in
  (exists r, fst run = NoContext r)
  \/ (exists c,
        fst run = FromCache c /\ truthy c = true /\ snd run = self
        /\ schema_context_cached self = true
        /\ cached_schema_context self = Some c)
  \/ (exists c ts,
        fst run = FromSchemaAgent c ts
        /\ truthy c = true
        /\ (cache_schema self = true ->
            cache_schema (snd run) = true
            /\ schema_context_cached (snd run) = true
            /\ cached_schema_context (snd run) = Some c)).
Proof.
  unfold _ensure_schema_context.
  assert (Hagent :
    let run :=
      (let (context_result, agent) :=
         SchemaAgent.execute_get_context env (schema_agent self) question in
       match context_result with
       | SchemaAgent.ContextFor context suggested_tables _ =>
           (FromSchemaAgent context suggested_tables,
            if cache_schema (with_schema_agent self agent)
            then with_cached_context (with_schema_agent self agent) context
            else with_schema_agent self agent)
       | SchemaAgent.Discovered _ _ | SchemaAgent.CatalogBuilt =>
           (FromSchemaAgent "" [],
            if cache_schema (with_schema_agent self agent)
            then with_cached_context (with_schema_agent self agent) ""
            else with_schema_agent self agent)
       | SchemaAgent.Error _ =>
           (NoContext context_result, with_schema_agent self agent)
       end) in
    (exists r, fst run = NoContext r)
    \/ (exists c ts,
          fst run = FromSchemaAgent c ts
          /\ truthy c = true
          /\ (cache_schema self = true ->
              cache_schema (snd run) = true
              /\ schema_context_cached (snd run) = true
              /\ cached_schema_context (snd run) = Some c))).
  { destruct (execute_get_context_result (schema_agent self) question)
      as [[m H]|[c [s [r [H Hc]]]]];
      destruct (SchemaAgent.execute_get_context env (schema_agent self)
                                                question) as [res agent];
      cbn [fst] in H; subst res; cbv beta iota zeta; cbn [fst snd].
    - left. eauto.
    - right. exists c, s. split; [reflexivity|]. split.
      + apply (contains_truthy Catalog.schema_header); [discriminate|exact Hc].
      + cbn [cache_schema with_schema_agent]. intros Hcs. rewrite Hcs.
        cbn. auto. }
  cbv zeta in Hagent.
  destruct (cache_schema self && schema_context_cached self) eqn:Hboth.
  - destruct (cached_schema_context self) as [c|].
    + destruct (truthy c) eqn:Hc.
      * right. left. exists c. apply andb_true_iff in Hboth. cbn. tauto.
      * destruct Hagent as [H|H]; [left | right; right]; exact H.
    + destruct Hagent as [H|H]; [left | right; right]; exact H.
  - destruct Hagent as [H|H]; [left | right; right]; exact H.
Qed.

Lemma generate_and_execute_cache self question user_context schema_context
      log0 :
  same_context_cache
    self (snd (generate_and_execute env self question user_context
                                    schema_context log0)).
Proof.
  unfold generate_and_execute, _generate_sql_with_retries.
  destruct (SQLAgent._complete_sql_workflow _ _ _ _ _) as [r agent].
  destruct r; try (cbn; unfold same_context_cache; cbn; auto; fail).
  unfold _execute_sql_safely at 1.
  destruct (Env.db env _ final_sql) as [rs|e].
  - match goal with
    | |- context [finish env ?a ?b ?c ?d ?f ?g] =>
        destruct (finish_frame env a b c d f g) as [_ [_ [H1 [H2 [H3 H4]]]]]
    end.
    unfold same_context_cache. rewrite H1, H2, H3, H4. cbn. auto.
  - unfold repair_and_retry, _attempt_sql_fix.
    destruct (SQLAgent._fix_sql _ _ _ _ _ _) as [r agent'].
    destruct r; try (cbn; unfold same_context_cache; cbn; auto; fail).
    unfold _execute_sql_safely at 1.
    destruct (Env.db env _ corrected_sql) as [rs|e'].
    + match goal with
      | |- context [finish env ?a ?b ?c ?d ?f ?g] =>
          destruct (finish_frame env a b c d f g) as [_ [_ [H1 [H2 [H3 H4]]]]]
      end.
      unfold same_context_cache. rewrite H1, H2, H3, H4. cbn. auto.
    + cbn. unfold same_context_cache. cbn. auto.
Qed.

End ContextCache.

(** X13: with schema caching on (the default), the context resolved for
    one question is the context of every later question: after a run
    whose context step succeeded for [question], the context step for any
    other question, against any state of the outside world, returns the
    same text from the cache and leaves the schema agent alone. *)
Theorem cached_context_serves_later_questions
        (env env' : Env.t) (self : Orchestrator.t)
        (question user_context question' : string) :
  let context_step := Orchestrator._ensure_schema_context env self question in
  let after :=
    snd (Orchestrator._complete_bi_workflow env self question user_context) in
  Orchestrator.cache_schema self = true ->
  PyStr.truthy question = true ->
  Orchestrator.context_status (fst context_step) = Py.success ->
  exists context,
    (fst context_step = Orchestrator.FromCache context
     \/ exists tables,
          fst context_step = Orchestrator.FromSchemaAgent context tables)
    /\ Orchestrator._ensure_schema_context env' after question'
       = (Orchestrator.FromCache context, after).
Proof.
  intros context_step after Hcache Hq Hstatus. subst context_step after.
  unfold Orchestrator._complete_bi_workflow. rewrite Hq. cbn [negb].
  assert (Hserve : forall state c,
            Orchestrator.cache_schema state = true ->
            Orchestrator.schema_context_cached state = true ->
            Orchestrator.cached_schema_context state = Some c ->
            PyStr.truthy c = true ->
            Orchestrator._ensure_schema_context env' state question'
            = (Orchestrator.FromCache c, state)).
  { intros state c H1 H2 H3 H4. unfold Orchestrator._ensure_schema_context.
    now rewrite H1, H2, H3, H4. }
  destruct (ensure_schema_context_result env self question)
    as [[r H]|[[c [H [Hc [Hself [Hflag Hctx]]]]]|[c [ts [H [Hc Hcached]]]]]];
    destruct (Orchestrator._ensure_schema_context env self question)
      as [res self1]; cbn [fst snd] in *; subst res.
  - discriminate Hstatus.
  - subst self1. exists c. split; [now left|].
    match goal with
    | |- context [Orchestrator.generate_and_execute env ?a ?b ?c ?d ?f] =>
        destruct (generate_and_execute_cache env a b c d f)
          as [H1 [H2 [H3 H4]]]
    end.
    apply Hserve; congruence.
  - destruct (Hcached Hcache) as [G1 [G2 G3]].
    exists c. split; [right; now exists ts|].
    match goal with
    | |- context [Orchestrator.generate_and_execute env ?a ?b ?c ?d ?f] =>
        destruct (generate_and_execute_cache env a b c d f)
          as [H1 [H2 [H3 H4]]]
    end.
    apply Hserve; congruence.
Qed.

(** X13 at a first question about orders and a second about something
    else, asked when the schema feed is down. *)
Lemma cached_context_serves_later_questions_witness :
  let context_step :=
    Orchestrator._ensure_schema_context Scenarios.shop Orchestrator.init
                                        "how many orders" in
  let after :=
    snd (Orchestrator._complete_bi_workflow Scenarios.shop Orchestrator.init
                                            "how many orders" "") in
  exists context,
    (fst context_step = Orchestrator.FromCache context
     \/ exists tables,
          fst context_step = Orchestrator.FromSchemaAgent context tables)
    /\ Orchestrator._ensure_schema_context Scenarios.feed_down after
                                           "list all customers"
       = (Orchestrator.FromCache context, after).
Proof.
  apply (cached_context_serves_later_questions
           Scenarios.shop Scenarios.feed_down Orchestrator.init
           "how many orders" "" "list all customers"); reflexivity.
Defined.

(** ** An answer that cleans to nothing *)

Section EmptyStatement.
Import Py PyStr Orchestrator.

Variable env : Env.t.

Lemma complete_sql_workflow_forward agent question context optimize answer :
  truthy question = true ->
  truthy context = true ->
  Env.llm env (SQLAgent.llm_calls agent) (question, context) = Some answer ->
  truthy answer = true ->
  SqlTools.is_secure
    (SqlTools.security_validator (SqlTools._clean_sql_query answer) true)
  = true ->
  fst (SQLAgent._complete_sql_workflow env agent question context optimize)
  = SQLAgent.Completed (SqlTools._clean_sql_query answer).
Proof.
  intros Hq Hc Hllm Hanswer Hsec.
  destruct (complete_sql_workflow_trace env agent question context optimize)
    as [_ Hdone].
  revert Hdone.
  unfold SQLAgent._complete_sql_workflow, SQLAgent._generate_sql.
  rewrite Hq, Hc. cbn [negb orb].
  unfold SQLAgent.ask. cbv iota beta.
  rewrite Hllm. unfold SqlTools.nl_to_sql. rewrite Hanswer.
  cbv iota beta.
  change (SqlTools.is_secure
            (SqlTools.security_validator (SqlTools._clean_sql_query answer)
                                         ?b))
    with (SqlTools.is_secure
            (SqlTools.security_validator (SqlTools._clean_sql_query answer)
                                         true)).
  rewrite Hsec. cbn [negb]. cbv iota beta. cbn [fst].
  intros Hdone.
  match goal with
  | |- SQLAgent.Completed ?s = _ =>
      destruct (Hdone s eq_refl) as [_ [_ [answer' [Ha [_ E]]]]]
  end.
  injection Ha as <-. exact (f_equal SQLAgent.Completed E).
Qed.

Lemma truthy_app_l (a b : string) : truthy a = true -> truthy (a ++ b) = true.
Proof. destruct a; [discriminate | reflexivity]. Qed.

End EmptyStatement.

(** X14: an answer of the language model that cleans to the empty
    statement (an empty fenced block, say) passes the validator and is
    submitted to the executor; when the executor rejects it, no repair is
    requested, because the failed statement is empty: the run ends in
    error after one statement and one request for SQL. *)
Theorem empty_statement_is_executed_and_not_repaired
        (env : Env.t) (self : Orchestrator.t)
        (question user_context answer : string) (e : Py.exn) :
  let run := Orchestrator._complete_bi_workflow env self question
                                                user_context in
  PyStr.truthy question = true ->
  Orchestrator.context_status
    (fst (Orchestrator._ensure_schema_context env self question))
  = Py.success ->
  (forall request,
      Env.llm env (SQLAgent.llm_calls (Orchestrator.sql_agent self)) request
      = Some answer) ->
  PyStr.truthy answer = true ->
  SqlTools._clean_sql_query answer = "" ->
  Env.db env (Orchestrator.db_calls self) "" = Py.Raise e ->
  Orchestrator.status (fst run) = Py.error
  /\ Orchestrator.message (fst run) = "SQL execution failed after retry"
  /\ Orchestrator.db_calls (snd run)
     = (Orchestrator.db_calls self ++ [""])%list
  /\ length (SQLAgent.llm_calls (Orchestrator.sql_agent (snd run)))
     = S (length (SQLAgent.llm_calls (Orchestrator.sql_agent self))).
Proof.
  intros run Hq Hstatus Hllm Hanswer Hclean Hdb. subst run.
  unfold Orchestrator._complete_bi_workflow. rewrite Hq. cbn [negb].
  destruct (ensure_schema_context_frame env self question) as [Hcalls Hagent].
  destruct (ensure_schema_context_result env self question)
    as [[r H]|[[c [H [Hc _]]]|[c [ts [H [Hc _]]]]]];
    destruct (Orchestrator._ensure_schema_context env self question)
      as [res self1]; cbn [fst snd] in *; subst res;
    [discriminate Hstatus| |].
  all: unfold Orchestrator.generate_and_execute,
         Orchestrator._generate_sql_with_retries;
    match goal with
    | |- context [SQLAgent._complete_sql_workflow ?v ?a ?q ?ctx ?o] =>
        pose proof (complete_sql_workflow_forward v a q ctx o answer Hq)
          as Hfwd;
        destruct (complete_sql_workflow_trace v a q ctx o) as [_ Hdone];
        destruct (SQLAgent._complete_sql_workflow v a q ctx o)
          as [sql_result agent]
    end;
    cbn [fst snd] in *;
    rewrite Hagent, Hclean in Hfwd;
    assert (Hres : sql_result = SQLAgent.Completed "")
      by (apply Hfwd;
          [ destruct (PyStr.truthy user_context);
            [apply truthy_app_l|]; exact Hc
          | apply Hllm | exact Hanswer | reflexivity ]);
    subst sql_result; destruct (Hdone "" eq_refl) as [Hreq _].
  all: unfold Orchestrator._execute_sql_safely;
    cbn [Orchestrator.db_calls Orchestrator.with_sql_agent];
    rewrite Hcalls, Hdb;
    unfold Orchestrator.repair_and_retry, Orchestrator._attempt_sql_fix;
    cbn [Orchestrator.sql_agent Orchestrator.with_db_calls];
    match goal with
    | |- context [SQLAgent._fix_sql ?v ?a ?q ?ctx "" ?m] =>
        destruct (fix_sql_trace v a q ctx "" m) as [_ [_ [_ Hmissing]]]
    end;
    cbv zeta in Hmissing; rewrite (Hmissing eq_refl);
    cbn; rewrite Hreq, Hagent, length_app; cbn;
    repeat split; try reflexivity; lia.
Qed.

(** X14 at a model that answers with an empty fenced block. *)
Lemma empty_statement_is_executed_and_not_repaired_witness :
  let run := Orchestrator._complete_bi_workflow
               Scenarios.bare_fence Orchestrator.init "total sales" "" in
  Orchestrator.status (fst run) = Py.error
  /\ Orchestrator.message (fst run) = "SQL execution failed after retry"
  /\ Orchestrator.db_calls (snd run)
     = (Orchestrator.db_calls Orchestrator.init ++ [""])%list
  /\ length (SQLAgent.llm_calls (Orchestrator.sql_agent (snd run)))
     = S (length (SQLAgent.llm_calls
                    (Orchestrator.sql_agent Orchestrator.init))).
Proof.
  apply (empty_statement_is_executed_and_not_repaired
           Scenarios.bare_fence Orchestrator.init "total sales" ""
           "```" (Py.Exception "syntax error at end of input"));
    reflexivity.
Defined.

(** X15: the context handed to the language model is never empty: it
    always holds the schema header and every business rule of the
    catalog, also when it is restricted to some tables, when none of the
    requested tables is known and when the catalog is empty. *)
Theorem context_keeps_header_and_rules
        (h : Catalog.store) (layer : Catalog.SemanticLayer)
        (table_names : list string) :
  let context := Catalog.get_context_for_llm h layer table_names in
  PyStr.truthy context = true
  /\ PyStr.contains Catalog.schema_header context = true
  /\ forall rule,
       In rule (Catalog.business_rules layer) ->
       PyStr.contains ("- " ++ rule) context = true.
Proof.
  intros context. subst context.
  destruct (get_context_for_llm_parts h layer table_names) as [H1 H2].
  split; [|split; assumption].
  apply (contains_truthy Catalog.schema_header); [discriminate | exact H1].
Qed.

(** ** Related tables *)

Section RelatedTables.
Import PyStr PyDict Models Catalog.







End RelatedTables.



(** ** The Snowflake connector and the metadata queries *)

Section SnowflakeGuard.
Import Py PyStr.

Lemma contains_app_l (k a b : string) :
  contains k a = true -> contains k (a ++ b) = true.
Proof.
  rewrite !contains_spec. intros [pre [post ->]].
  exists pre, (post ++ b). now rewrite !append_assoc.
Qed.

Lemma contains_app_r (k a b : string) :
  contains k b = true -> contains k (a ++ b) = true.
Proof.
  rewrite !contains_spec. intros [pre [post ->]].
  exists (a ++ pre), post. now rewrite !append_assoc.
Qed.

Lemma prohibited_keywords_are_words (keyword : string) :
  In keyword Database.dangerous_keywords -> is_split_word keyword.
Proof.
  unfold Database.dangerous_keywords. simpl. intros H.
  repeat (destruct H as [<-|H]; [split; [discriminate | reflexivity]|]).
  contradiction.
Qed.

(** The connector refuses a statement in which the letters of one of its
    keywords occur anywhere, in any letter case. *)
Lemma snowflake_refuses_substring (sql keyword : string) :
  In keyword Database.dangerous_keywords ->
  contains keyword (upper sql) = true ->
  exists message,
    forall cursor,
      Database.execute_query cursor sql = Raise (Exception message).
Proof.
  intros Hkw Hc.
  apply (contains_strip _ _ (prohibited_keywords_are_words _ Hkw)) in Hc.
  rewrite <- upper_strip in Hc.
  unfold Database.execute_query.
  destruct (negb _ && negb _); [eexists; reflexivity|].
  destruct (find _ Database.dangerous_keywords) as [k|] eqn:Hfind.
  - eexists. reflexivity.
  - exfalso. apply (find_none _ _ Hfind) in Hkw.
    cbv beta in Hkw. congruence.
Qed.

End SnowflakeGuard.

(** X17: the Snowflake connector refuses the relationship mapper's
    foreign-key query for every schema, before it reaches the database:
    the query names two of its result columns target_table and
    target_column, and GET is one of the connector's prohibited
    keywords. *)
Theorem snowflake_refuses_the_foreign_key_query (schema : string) :
  exists message,
    forall cursor,
      Database.execute_query cursor (SchemaTools.fk_query schema)
      = Py.Raise (Py.Exception message).
Proof.
  apply (snowflake_refuses_substring _ "GET").
  - unfold Database.dangerous_keywords. simpl. tauto.
  - unfold SchemaTools.fk_query, PyStr.upper. rewrite map_chars_app.
    apply contains_app_l. vm_compute. reflexivity.
Qed.

(** X18: the Snowflake connector refuses the discovery tool's column
    query, before it reaches the database, for every table whose name
    contains the letters of a prohibited keyword (WIDGETS and TARGETS
    contain GET, INPUTS contains PUT, UPDATES contains UPDATE). *)
Theorem snowflake_refuses_columns_of_keyword_table
        (schema table_name keyword : string) :
  In keyword Database.dangerous_keywords ->
  PyStr.contains keyword (PyStr.upper table_name) = true ->
  exists message,
    forall cursor,
      Database.execute_query cursor
                             (SchemaTools.columns_query schema table_name)
      = Py.Raise (Py.Exception message).
Proof.
  intros Hkw Hc. apply (snowflake_refuses_substring _ keyword Hkw).
  unfold SchemaTools.columns_query, PyStr.upper.
  rewrite !map_chars_app.
  do 3 apply contains_app_r. apply contains_app_l. exact Hc.
Qed.

(** X18 at a table of widgets. *)
Lemma snowflake_refuses_columns_of_keyword_table_witness :
  exists message,
    forall cursor,
      Database.execute_query cursor
                             (SchemaTools.columns_query "PUBLIC" "WIDGETS")
      = Py.Raise (Py.Exception message).
Proof.
  apply (snowflake_refuses_columns_of_keyword_table "PUBLIC" "WIDGETS" "GET").
  - unfold Database.dangerous_keywords. simpl. tauto.
  - reflexivity.
Defined.

(** ** The two inference routines *)

Section InferenceAgreement.
Import PyStr PyDict Models.

Lemma upper_char_lower_char (c : ascii) :
  upper_char (lower_char c) = upper_char c.
Proof. destruct c as [[] [] [] [] [] [] [] []]; reflexivity. Qed.

Lemma upper_char_idem (c : ascii) : upper_char (upper_char c) = upper_char c.
Proof. destruct c as [[] [] [] [] [] [] [] []]; reflexivity. Qed.

Lemma upper_lower (s : string) : upper (lower s) = upper s.
Proof.
  induction s as [|c s IH]; simpl; [reflexivity|].
  unfold lower, upper in *. simpl. now rewrite upper_char_lower_char, IH.
Qed.

Lemma upper_idem (s : string) : upper (upper s) = upper s.
Proof.
  induction s as [|c s IH]; simpl; [reflexivity|].
  unfold upper in *. simpl. now rewrite upper_char_idem, IH.
Qed.

Lemma upper_app (a b : string) : upper (a ++ b) = upper a ++ upper b.
Proof. apply map_chars_app. Qed.

Lemma lower_app (a b : string) : lower (a ++ b) = lower a ++ lower b.
Proof. apply map_chars_app. Qed.

(** The two spellings of the test for a key-like name agree on ASCII
    names. *)
Lemma endswith_id_agree (n : string) :
  is_ascii n = true ->
  endswith (upper n) "_ID" = endswith (lower n) "_id".
Proof.
  intros Hn. apply eq_true_iff_eq. rewrite !endswith_spec.
  split; intros [pre H].
  - exists (lower pre). rewrite <- (lower_upper n Hn), H, lower_app.
    reflexivity.
  - exists (upper pre). rewrite <- upper_lower, H, upper_app. reflexivity.
Qed.

(** The two spellings of the test for a target column agree for a
    candidate in upper case and a column with an ASCII name. *)
Lemma target_test_agree (variation : string) (c : Column.t) :
  upper variation = variation ->
  is_ascii (Column.name c) = true ->
  SchemaTools.is_target_pk variation c
  = Discovery.is_target_column variation c.
Proof.
  intros Hv Hc. unfold SchemaTools.is_target_pk, Discovery.is_target_column.
  f_equal. cbn [existsb]. f_equal; [|f_equal].
  - apply eq_true_iff_eq. rewrite !String.eqb_eq. split; intros H.
    + rewrite <- upper_lower, H. reflexivity.
    + rewrite <- (lower_upper _ Hc), H. reflexivity.
  - apply eq_true_iff_eq. rewrite !String.eqb_eq. split; intros H.
    + rewrite <- upper_lower, H, upper_app, upper_lower, Hv. reflexivity.
    + rewrite <- (lower_upper _ Hc), H, lower_app. reflexivity.
Qed.

Lemma find_ext_in {A : Type} (f g : A -> bool) (l : list A) :
  (forall x, In x l -> f x = g x) -> find f l = find g l.
Proof.
  induction l as [|a l IH]; intros H; simpl; [reflexivity|].
  rewrite (H a (or_introl eq_refl)). destruct (g a); [reflexivity|].
  apply IH. intros x Hx. apply H. now right.
Qed.

Lemma flat_map_ext_in {A B : Type} (f g : A -> list B) (l : list A) :
  (forall x, In x l -> f x = g x) -> flat_map f l = flat_map g l.
Proof.
  induction l as [|a l IH]; intros H; simpl; [reflexivity|].
  rewrite (H a (or_introl eq_refl)). f_equal.
  apply IH. intros x Hx. apply H. now right.
Qed.

(** A last candidate that names no table does not matter. *)
Lemma first_known_variation_last by_name (vs : list (option string))
      (x y : string) :
  get x by_name = None -> get y by_name = None ->
  Discovery.first_known_variation by_name (vs ++ [Some x])
  = Discovery.first_known_variation by_name (vs ++ [Some y]).
Proof.
  intros Hx Hy. induction vs as [|[v|] vs IH]; simpl.
  - rewrite Hx, Hy. now destruct (truthy x), (truthy y).
  - destruct (truthy v); [|exact IH].
    destruct (get v by_name); [reflexivity | exact IH].
  - exact IH.
Qed.

Lemma first_known_variation_In by_name vs v target :
  Discovery.first_known_variation by_name vs = Some (v, target) ->
  In (Some v) vs /\ get v by_name = Some target.
Proof.
  intros H. apply first_known_variation_first in H.
  destruct H as [i [Hi [_ [Hget _]]]]. split; [|exact Hget].
  now apply nth_error_In in Hi.
Qed.

Lemma no_table_with_suffix tables suffix stem :
  (forall t, In t tables -> endswith (Table.name t) suffix = false) ->
  get (stem ++ suffix) (Discovery.table_by_name tables) = None.
Proof.
  intros H. apply table_by_name_None. intros t Hin E.
  specialize (H t Hin). rewrite E in H.
  assert (Hs : endswith (stem ++ suffix) suffix = true)
    by (apply endswith_spec; now exists stem).
  congruence.
Qed.

End InferenceAgreement.

(** X19: the relationship mapper's inference and the discovery module's
    inference return the same relationships, in the same order, for
    every list of tables in which the column names are ASCII, no table
    name ends in _MASTER or _FACT and no column has a stem (its name
    without the last three characters) that ends in the letter s, in
    either case.  (The case of the letters and these endings are the
    places where the two routines are written differently.) *)
Theorem inference_routines_agree (tables : list Models.Table.t) :
  (forall t c, In t tables -> In c (Models.Table.columns t) ->
               PyStr.is_ascii (Models.Column.name c) = true) ->
  (forall t, In t tables ->
             PyStr.endswith (Models.Table.name t) "_MASTER" = false
             /\ PyStr.endswith (Models.Table.name t) "_FACT" = false) ->
  (forall t c, In t tables -> In c (Models.Table.columns t) ->
               let stem := PyStr.drop_last 3 (Models.Column.name c) in
               PyStr.endswith stem "S" = false
               /\ PyStr.endswith stem "s" = false) ->
  SchemaTools._infer_relationships_from_naming tables
  = Discovery._infer_relationships tables.
Proof.
  intros Hascii Hnames Hstems.
  unfold SchemaTools._infer_relationships_from_naming,
    Discovery._infer_relationships.
  apply flat_map_ext_in. intros table Htable.
  apply flat_map_ext_in. intros column Hcolumn.
  unfold SchemaTools.infer_column, Discovery.infer_column,
    Discovery.is_key_like.
  rewrite <- (endswith_id_agree _ (Hascii table column Htable Hcolumn)).
  destruct (PyStr.endswith _ "_ID" && negb _); [|reflexivity].
  destruct (Hstems table column Htable Hcolumn) as [HS Hs].
  cbv zeta in HS, Hs.
  unfold SchemaTools.variations, Discovery.target_variations.
  rewrite HS, Hs.
  set (stem := PyStr.upper (PyStr.drop_last 3 (Models.Column.name column))).
  set (by_name := Discovery.table_by_name tables).
  change [Some stem; Some (stem ++ "S"); None; Some (stem ++ "_DIM");
          Some (stem ++ "_FACT")]
    with ([Some stem; Some (stem ++ "S")%string; None;
           Some (stem ++ "_DIM")%string]
            ++ [Some (stem ++ "_FACT")%string])%list.
  change [Some stem; Some (stem ++ "S"); None; Some (stem ++ "_DIM");
          Some (stem ++ "_MASTER")]
    with ([Some stem; Some (stem ++ "S")%string; None;
           Some (stem ++ "_DIM")%string]
            ++ [Some (stem ++ "_MASTER")%string])%list.
  assert (Hfact : PyDict.get (stem ++ "_FACT") by_name = None)
    by (apply no_table_with_suffix; intros t Ht; apply Hnames, Ht).
  assert (Hmaster : PyDict.get (stem ++ "_MASTER") by_name = None)
    by (apply no_table_with_suffix; intros t Ht; apply Hnames, Ht).
  rewrite (first_known_variation_last by_name _ _ _ Hfact Hmaster).
  destruct (Discovery.first_known_variation by_name _)
    as [[variation target]|] eqn:Hfirst; [|reflexivity].
  apply first_known_variation_In in Hfirst. destruct Hfirst as [Hin Hget].
  assert (Hupper : PyStr.upper variation = variation).
  { subst stem. simpl in Hin.
    destruct Hin as [[= <-]|[[= <-]|[Hin|[[= <-]|[[= <-]|[]]]]]];
      rewrite ?upper_app, ?upper_idem; try reflexivity.
    discriminate Hin. }
  rewrite (find_ext_in _ (Discovery.is_target_column variation)
                       (Models.Table.columns target));
    [reflexivity|].
  intros c Hc. apply target_test_agree; [exact Hupper|].
  apply table_by_name_Some in Hget.
  destruct Hget as [before [after [Htables _]]].
  apply (Hascii target c); [|exact Hc].
  rewrite Htables. apply in_or_app. right. now left.
Qed.

(** X19 at the order table and the customer table. *)
Lemma inference_routines_agree_witness :
  SchemaTools._infer_relationships_from_naming
    [Samples.ORDERS; Samples.CUSTOMERS]
  = Discovery._infer_relationships [Samples.ORDERS; Samples.CUSTOMERS].
Proof.
  apply (inference_routines_agree [Samples.ORDERS; Samples.CUSTOMERS]).
  - intros t c [<-|[<-|[]]] [<-|[]]; reflexivity.
  - intros t [<-|[<-|[]]]; split; reflexivity.
  - intros t c [<-|[<-|[]]] [<-|[]]; split; reflexivity.
Defined.

(** ** The prompt optimizer and the cost-optimised orchestrator *)

Lemma In_firstn {A : Type} (n : nat) (l : list A) (x : A) :
  In x (firstn n l) -> In x l.
Proof.
  revert l. induction n as [|n IH]; intros [|a l]; simpl; try tauto.
  intros [H|H]; [now left | right; now apply IH].
Qed.

(** X20: the prompt optimizer hands on at most five tables, each of them
    a table of the schema, and at least one as soon as the schema has a
    table, whatever the question. *)
Theorem relevant_tables_are_few_and_from_the_schema
        (question : string) (schema : CostOptimization.schema) :
  let relevant := CostOptimization._extract_relevant_tables question schema in
  (length relevant <= 5)%nat
  /\ (forall table, In table relevant -> In table schema)
  /\ (schema <> [] -> relevant <> []).
Proof.
  intros relevant. subst relevant.
  unfold CostOptimization._extract_relevant_tables.
  set (keywords := PyStr.split (PyStr.lower question)).
  split; [apply firstn_le_length|]. split.
  - intros table Hin. apply In_firstn in Hin.
    destruct (filter _ schema) as [|t ts] eqn:E.
    + now apply In_firstn in Hin.
    + rewrite <- E in Hin. now apply filter_In in Hin.
  - intros Hne. destruct (filter _ schema) as [|t ts] eqn:E.
    + destruct schema as [|t schema]; [congruence | discriminate].
    + discriminate.
Qed.

(** X21: the compression cache is keyed by the question and the number
    of tables alone: once a prompt was built for a question, the same
    prompt is returned for that question and any schema with as many
    tables, whatever its tables are. *)
Theorem compressed_prompt_is_reused_across_schemas
        (md5 : string -> string)
        (schema_repr_length : CostOptimization.schema -> nat)
        (cache : PyDict.dict string) (question : string)
        (schema schema' : CostOptimization.schema) :
  let first :=
    CostOptimization.optimize_schema_prompt md5 schema_repr_length cache
                                            question schema in
  let second :=
    CostOptimization.optimize_schema_prompt md5 schema_repr_length
                                            (snd first) question schema' in
  length schema' = length schema ->
  fst (fst second) = fst (fst first)
  /\ CostOptimization.cache_hits (snd (fst second)) = 1%nat
  /\ snd second = snd first.
Proof.
  intros first second Hlen. subst first second.
  unfold CostOptimization.optimize_schema_prompt. rewrite Hlen.
  set (key := md5 _).
  destruct (PyDict.get key cache) as [p|] eqn:Hget; cbn [fst snd].
  - rewrite Hget. auto.
  - rewrite get_set_same. auto.
Qed.

(** X21 at two different schemas of one table each. *)
Lemma compressed_prompt_is_reused_across_schemas_witness :
  let orders :=
    [{| CostOptimization.tbl_name := "orders";
        CostOptimization.tbl_columns :=
          [{| CostOptimization.col_name := "id";
              CostOptimization.col_data_type := "NUMBER";
              CostOptimization.col_is_primary_key := true |}] |}] in
  let invoices :=
    [{| CostOptimization.tbl_name := "invoices";
        CostOptimization.tbl_columns := [] |}] in
  let first :=
    CostOptimization.optimize_schema_prompt (fun s => s) (fun _ => 0%nat) []
                                            "how many" orders in
  let second :=
    CostOptimization.optimize_schema_prompt (fun s => s) (fun _ => 0%nat)
                                            (snd first) "how many" invoices in
  fst (fst second) = fst (fst first)
  /\ CostOptimization.cache_hits (snd (fst second)) = 1%nat
  /\ snd second = snd first.
Proof.
  intros orders invoices.
  apply (compressed_prompt_is_reused_across_schemas
           (fun s => s) (fun _ => 0%nat) [] "how many" orders invoices).
  reflexivity.
Defined.

Section NeverACacheHit.
Import Py PyDict CostOptimization.

Variable md5 : string -> string.
Variable schema_repr_length : schema -> nat.

Lemma optimize_workflow_task_cold self question schema now :
  cache (result_cache self) = [] ->
  let run := optimize_workflow_task md5 schema_repr_length self question
                                    schema now in
  (exists prompt complexity metrics,
      fst run = Return (OptimizedTask prompt complexity metrics))
  /\ result_cache (snd run) = result_cache self
  /\ stats_cache_hits (snd run) = stats_cache_hits self
  /\ total_queries (snd run) = S (total_queries self).
Proof.
  intros Hempty. unfold optimize_workflow_task, get_cached_result.
  rewrite Hempty. cbn [get].
  destruct (optimize_schema_prompt md5 schema_repr_length
              (compression_cache self) question schema) as [[p m] c].
  cbn. eauto 10.
Qed.

Lemma optimize_all_cold tasks :
  forall self,
    cache (result_cache self) = [] ->
    let run := optimize_all md5 schema_repr_length self tasks in
    Forall (fun r => exists prompt complexity metrics,
                       r = Return (OptimizedTask prompt complexity metrics))
           (fst run)
    /\ result_cache (snd run) = result_cache self
    /\ stats_cache_hits (snd run) = stats_cache_hits self
    /\ total_queries (snd run) = (length tasks + total_queries self)%nat.
Proof.
  induction tasks as [|[[question schema] now] tasks IH]; intros self Hempty.
  - cbn. auto.
  - cbn [optimize_all].
    destruct (optimize_workflow_task_cold self question schema now Hempty)
      as [Hr [Hc [Hh Hq]]].
    destruct (optimize_workflow_task md5 schema_repr_length self question
                                     schema now) as [r self1].
    cbn [fst snd] in *.
    assert (Hempty1 : cache (result_cache self1) = []) by congruence.
    destruct (IH self1 Hempty1) as [Hrs [Hc' [Hh' Hq']]].
    destruct (optimize_all md5 schema_repr_length self1 tasks) as [rs self2].
    cbn [fst snd length] in *.
    split; [constructor; assumption|].
    split; [congruence|]. split; [congruence|]. lia.
Qed.

End NeverACacheHit.

(** X22: the cost-optimised orchestrator only ever reads its result
    cache: from a new orchestrator, whatever tasks are optimised and
    whenever, no task is answered from the cache, the cache-hit counter
    stays at zero and every task is counted. *)
Theorem new_orchestrator_never_hits_the_result_cache
        (md5 : string -> string)
        (schema_repr_length : CostOptimization.schema -> nat)
        (tasks : list (string * CostOptimization.schema * Z)) :
  let run :=
    CostOptimization.optimize_all md5 schema_repr_length
                                  CostOptimization.new_orchestrator tasks in
  Forall (fun r => exists prompt complexity metrics,
                     r = Py.Return (CostOptimization.OptimizedTask
                                      prompt complexity metrics))
         (fst run)
  /\ CostOptimization.stats_cache_hits (snd run) = 0%nat
  /\ CostOptimization.total_queries (snd run) = length tasks
  /\ CostOptimization.result_cache (snd run) = CostOptimization.default.
Proof.
  intros run. subst run.
  destruct (optimize_all_cold md5 schema_repr_length tasks
              CostOptimization.new_orchestrator eq_refl)
    as [H1 [H2 [H3 H4]]].
  cbn in H2, H3, H4. rewrite Nat.add_0_r in H4. auto.
Qed.

(** ** A customer table without columns *)

Section ColumnlessTable.
Import Py PyStr PyDict Models Catalog.

Lemma columnless_shape t t' :
  SchemaTools.shape t' = SchemaTools.shape t ->
  SchemaTools.columnless_customer_table t ->
  SchemaTools.columnless_customer_table t'.
Proof.
  unfold SchemaTools.shape, SchemaTools.columnless_customer_table.
  intros [= -> ->]. auto.
Qed.

Lemma customer_metric_raises layer table e :
  SchemaTools.customer_metric layer table = Raise e ->
  e = IndexError "list index out of range".
Proof.
  unfold SchemaTools.customer_metric.
  destruct (existsb _ (Table.columns table)); [discriminate|].
  destruct (Table.columns table); [|discriminate].
  now intros [= <-].
Qed.

Lemma default_metrics_raises ts :
  (exists t, In t ts /\ SchemaTools.columnless_customer_table t) ->
  forall layer,
    fst (SchemaTools.default_metrics ts layer)
    = Raise (IndexError "list index out of range").
Proof.
  induction ts as [|a ts IH]; intros [t [Hin [Hname Hcols]]] layer;
    [contradiction|].
  cbn [SchemaTools.default_metrics].
  set (layer1 := if (contains "sales" _ || contains "order" _)%bool
                 then SchemaTools.sales_metrics layer a else layer).
  destruct Hin as [->|Hin].
  - rewrite Hname. unfold SchemaTools.customer_metric. rewrite Hcols.
    reflexivity.
  - destruct (contains "customer" (lower (Table.name a))
              || contains "user" (lower (Table.name a)))%bool.
    + destruct (SchemaTools.customer_metric layer1 a) as [layer2|e] eqn:Hc.
      * apply IH. exists t. split; [exact Hin | split; assumption].
      * now rewrite (customer_metric_raises _ _ _ Hc).
    + apply IH. exists t. split; [exact Hin | split; assumption].
Qed.

Lemma update_shape h r rel :
  map SchemaTools.shape
      (update h r (fun t => Table.append_relationship t rel))
  = map SchemaTools.shape h.
Proof.
  revert r. induction h as [|t h IH]; intros r; [reflexivity|].
  destruct r as [|r]; simpl; [reflexivity|]. now rewrite IH.
Qed.

Lemma add_relationship_shape h layer rel :
  map SchemaTools.shape (add_relationship h layer rel)
  = map SchemaTools.shape h.
Proof.
  unfold add_relationship.
  destruct (get_table h layer _); [apply update_shape | reflexivity].
Qed.

Lemma fold_add_relationship_shape layer rels :
  forall h,
    map SchemaTools.shape
        (fold_left (fun h' rel => add_relationship h' layer rel) rels h)
    = map SchemaTools.shape h.
Proof.
  induction rels as [|rel rels IH]; intros h; simpl; [reflexivity|].
  now rewrite IH, add_relationship_shape.
Qed.

Lemma deref_same_shape h h1 r t :
  map SchemaTools.shape h1 = map SchemaTools.shape h -> deref h r = Some t ->
  exists t',
    deref h1 r = Some t' /\ SchemaTools.shape t' = SchemaTools.shape t.
Proof.
  unfold deref. intros Hmap Hd.
  assert (E : nth_error (map SchemaTools.shape h1) r
              = Some (SchemaTools.shape t))
    by (rewrite Hmap; now apply map_nth_error).
  rewrite nth_error_map in E.
  destruct (nth_error h1 r) as [t'|]; [|discriminate E].
  exists t'. split; [reflexivity|]. simpl in E. congruence.
Qed.

(** The tool's build raises as soon as one of the tables it is given is
    such a table. *)
Lemma tool_build_catalog_raises env h layer refs rels r t :
  In r refs -> deref h r = Some t -> SchemaTools.columnless_customer_table t ->
  fst (SchemaTools._build_catalog env h layer refs rels)
  = Raise (IndexError "list index out of range").
Proof.
  intros Hin Hd Hbad.
  unfold SchemaTools._build_catalog,
    SchemaTools._add_default_business_context.
  set (layer1 := fold_left (add_table h) refs layer).
  set (h1 := fold_left _ rels h).
  destruct (deref_same_shape h h1 r t
              (fold_add_relationship_shape layer1 rels h) Hd)
    as [t' [Hd' Hshape]].
  assert (Hraise : fst (SchemaTools.default_metrics
                          (SchemaTools.deref_all h1 refs) layer1)
                   = Raise (IndexError "list index out of range")).
  { apply default_metrics_raises. exists t'. split.
    - unfold SchemaTools.deref_all. apply in_flat_map. exists r.
      split; [exact Hin|]. rewrite Hd'. now left.
    - now apply (columnless_shape t). }
  destruct (SchemaTools.default_metrics _ layer1) as [[[]|e] layer2];
    cbn [fst] in Hraise; [discriminate Hraise|].
  injection Hraise as ->. reflexivity.
Qed.

Lemma alloc_deref h (ts : list Table.t) t :
  In t ts ->
  exists r, In r (snd (alloc h ts)) /\ deref (fst (alloc h ts)) r = Some t.
Proof.
  intros Hin. apply In_nth_error in Hin. destruct Hin as [i Hi].
  exists (length h + i)%nat. unfold alloc, deref. cbn [fst snd]. split.
  - apply in_seq. split; [lia|].
    assert (i < length ts)%nat by (apply nth_error_Some; congruence). lia.
  - rewrite nth_error_app2 by lia.
    replace (length h + i - length h)%nat with i by lia. exact Hi.
Qed.

End ColumnlessTable.

(** X23: when the schema feed lists a table whose name contains customer
    or user and that has no columns, the first context request of a
    schema agent fails: building the default customer metric indexes the
    empty column list, the request ends with the error "list index out of
    range", and the catalog is not marked as built. *)
Theorem columnless_customer_table_fails_the_build
        (env : Env.t) (self : SchemaAgent.t) (question : string)
        (tables : list Models.Table.t) (table : Models.Table.t) :
  let run := SchemaAgent.execute_get_context env self question in
  PyStr.truthy question = true ->
  SchemaAgent.catalog_built self = false ->
  SchemaAgent.last_discovery self = None ->
  Env.tables_feed env = Py.Return tables ->
  In table tables ->
  SchemaTools.columnless_customer_table table ->
  fst run = SchemaAgent.Error "list index out of range"
  /\ SchemaAgent.catalog_built (snd run) = false.
Proof.
  intros run Hq Hbuilt Hlast Hfeed Hin Hbad. subst run.
  unfold SchemaAgent.execute_get_context, SchemaAgent._get_context_for_query.
  rewrite Hq, Hbuilt. cbn [negb].
  unfold SchemaAgent._build_catalog. rewrite Hlast.
  unfold SchemaAgent._discover_schema, SchemaTools.discovery.
  rewrite Hfeed.
  destruct (alloc_deref (SchemaAgent.objects self) tables table Hin)
    as [r [Hr Hd]].
  destruct (Catalog.alloc (SchemaAgent.objects self) tables) as [h refs].
  cbn [fst snd] in *. cbn [SchemaAgent.status_of SchemaAgent.last_discovery].
  unfold SchemaAgent.build_with.
  cbn [fst snd SchemaAgent.objects SchemaAgent.catalog
       SchemaAgent.catalog_built SchemaAgent.last_discovery].
  pose proof (tool_build_catalog_raises env h (SchemaAgent.catalog self) refs
                (SchemaTools.relationship_mapper env tables) r table
                Hr Hd Hbad) as Hraise.
  destruct (SchemaTools._build_catalog env h (SchemaAgent.catalog self) refs
              (SchemaTools.relationship_mapper env tables))
    as [[[]|e] hc]; cbn [fst] in Hraise; [discriminate Hraise|].
  injection Hraise as ->. cbn. auto.
Qed.

(** X23 at a feed that lists a view of users whose columns cannot be
    read. *)
Lemma columnless_customer_table_fails_the_build_witness :
  let env :=
    {| Env.llm := Env.llm Scenarios.shop; Env.db := Env.db Scenarios.shop;
       Env.analysis := Env.analysis Scenarios.shop;
       Env.tables_feed :=
         Py.Return [Samples.ORDERS; Samples.table "APP_USERS" []];
       Env.foreign_keys_feed := Env.foreign_keys_feed Scenarios.shop;
       Env.catalog_save := Env.catalog_save Scenarios.shop;
       Env.set_iteration := Env.set_iteration Scenarios.shop |} in
  let run := SchemaAgent.execute_get_context env SchemaAgent.init
                                             "how many users" in
  fst run = SchemaAgent.Error "list index out of range"
  /\ SchemaAgent.catalog_built (snd run) = false.
Proof.
  intros env.
  apply (columnless_customer_table_fails_the_build
           env SchemaAgent.init "how many users"
           [Samples.ORDERS; Samples.table "APP_USERS" []]
           (Samples.table "APP_USERS" [])).
  - reflexivity.
  - reflexivity.
  - reflexivity.
  - reflexivity.
  - right. left. reflexivity.
  - split; reflexivity.
Defined.

(** ** After a successful initialisation *)

Section BuiltCatalog.
Import Py PyStr Orchestrator.

Variable env : Env.t.

(** A schema agent that has built its catalog answers a context request
    without changing. *)
Lemma execute_get_context_when_built agent question :
  SchemaAgent.catalog_built agent = true ->
  snd (SchemaAgent.execute_get_context env agent question) = agent.
Proof.
  intros Hbuilt.
  unfold SchemaAgent.execute_get_context, SchemaAgent._get_context_for_query.
  destruct (negb (truthy question)); [reflexivity|].
  rewrite Hbuilt. reflexivity.
Qed.

Lemma ensure_schema_context_keeps_agent self question :
  SchemaAgent.catalog_built (schema_agent self) = true ->
  schema_agent (snd (_ensure_schema_context env self question))
  = schema_agent self.
Proof.
  intros Hbuilt. unfold _ensure_schema_context.
  pose proof (execute_get_context_when_built (schema_agent self) question
                                             Hbuilt) as Hagent.
  destruct (SchemaAgent.execute_get_context env (schema_agent self) question)
    as [r agent].
  cbn [snd] in Hagent. subst agent.
  destruct (cache_schema self) eqn:Hc, (schema_context_cached self);
    simpl; try destruct (cached_schema_context self) as [c|];
    try destruct (truthy c);
    destruct r; simpl; rewrite ?Hc; reflexivity.
Qed.

(** A run of the complete BI workflow leaves a schema agent that has
    built its catalog as it is. *)
Lemma complete_bi_workflow_keeps_agent self question user_context :
  SchemaAgent.catalog_built (schema_agent self) = true ->
  schema_agent (snd (_complete_bi_workflow env self question user_context))
  = schema_agent self.
Proof.
  intros Hbuilt. unfold _complete_bi_workflow.
  destruct (negb (truthy question)); [reflexivity|].
  pose proof (ensure_schema_context_keeps_agent self question Hbuilt) as H1.
  destruct (_ensure_schema_context env self question) as [res self1].
  cbn [snd] in H1.
  destruct res as [c|c ts|r]; [| |exact H1].
  all: match goal with
       | |- context [generate_and_execute ?v ?a ?b ?c ?d ?f] =>
           destruct (generate_and_execute_cache v a b c d f)
             as [_ [_ [_ H2]]]
       end; now rewrite H2.
Qed.

End BuiltCatalog.

Lemma run_workflows_when_built (tasks : list Orchestrator.workflow_task) :
  forall self,
    SchemaAgent.catalog_built (Orchestrator.schema_agent self) = true ->
    Forall2 (fun task response =>
               PyStr.truthy (snd (fst task)) = true ->
               Orchestrator.logged "schema_context" Py.success response)
            tasks (fst (Orchestrator.run_workflows self tasks))
    /\ Orchestrator.schema_agent (snd (Orchestrator.run_workflows self tasks))
       = Orchestrator.schema_agent self.
Proof.
  induction tasks as [|[[env question] user_context] tasks IH];
    intros self Hbuilt.
  - split; [constructor | reflexivity].
  - cbn [Orchestrator.run_workflows fst snd].
    pose proof (complete_bi_workflow_keeps_agent env self question
                                                 user_context Hbuilt) as Hagent.
    destruct (IH (snd (Orchestrator._complete_bi_workflow
                         env self question user_context))) as [Hrest Hend].
    + now rewrite Hagent.
    + split; [|now rewrite Hend].
      constructor; [|exact Hrest].
      cbn [fst snd]. intros Hq.
      now apply passes_schema_context_when_built.
Qed.

(** X24: once the system was initialised successfully, the context step
    of every later run of the complete BI workflow with a question
    succeeds, in every sequence of such runs that follows the
    initialisation with no other task and no refresh in between, whatever
    the schema feed, the file system and the other collaborators do by
    then: no such run ends with "Failed to get schema context", and the
    schema agent stays as the initialisation left it. *)
Theorem initialized_system_survives_feed_outage
        (env : Env.t) (self : Orchestrator.t)
        (tasks : list Orchestrator.workflow_task) :
  let ready := snd (Orchestrator._initialize_system env self) in
  let runs := Orchestrator.run_workflows ready tasks in
  fst (fst (fst (Orchestrator._initialize_system env self))) = Py.success ->
  Forall2 (fun task response =>
             PyStr.truthy (snd (fst task)) = true ->
             Orchestrator.logged "schema_context" Py.success response)
          tasks (fst runs)
  /\ Orchestrator.schema_agent (snd runs) = Orchestrator.schema_agent ready.
Proof.
  intros ready runs Hinit. subst ready runs.
  apply run_workflows_when_built.
  revert Hinit.
  unfold Orchestrator._initialize_system, SchemaAgent.execute_build_catalog.
  destruct (agent_build_catalog_spec env (Orchestrator.schema_agent self))
    as [_ [Hr _]].
  destruct (SchemaAgent._build_catalog env (Orchestrator.schema_agent self))
    as [[r|e] agent]; cbn [fst snd] in *.
  - destruct (SchemaAgent.status_of r) eqn:Hs; cbn [fst snd].
    + intros _. now destruct (Hr r eq_refl Hs) as [_ [H _]].
    + discriminate.
  - cbn. discriminate.
Qed.

(** X24 at a system initialised against two tables and then asked two
    questions while the schema feed is down. *)
Lemma initialized_system_survives_feed_outage_witness :
  let tasks := [(Scenarios.feed_down, "how many orders", "");
                (Scenarios.bare_fence, "how many customers", "per region")] in
  let runs := Orchestrator.run_workflows Scenarios.shop_ready tasks in
  Forall2 (fun task response =>
             PyStr.truthy (snd (fst task)) = true ->
             Orchestrator.logged "schema_context" Py.success response)
          tasks (fst runs)
  /\ Orchestrator.schema_agent (snd runs)
     = Orchestrator.schema_agent Scenarios.shop_ready.
Proof.
  intros tasks runs.
  apply (initialized_system_survives_feed_outage
           Scenarios.shop Orchestrator.init tasks).
  reflexivity.
Defined.

(** ** Injection patterns *)

Section InjectionPatterns.
Import PyStr Re.

Lemma follows_on_line_found (b mid post : string) :
  no_newline mid = true -> follows_on_line b (mid ++ b ++ post) = true.
Proof.
  induction mid as [|c mid IH]; intros H.
  - simpl. destruct (b ++ post) eqn:E; simpl.
    + rewrite orb_false_r. apply startswith_spec. exists post.
      now rewrite E.
    + apply orb_true_iff. left. apply startswith_spec. exists post.
      now rewrite E.
  - simpl in H. apply andb_true_iff in H. destruct H as [Hc H].
    apply negb_true_iff in Hc.
    cbn [append follows_on_line]. rewrite Hc, (IH H). apply orb_true_r.
Qed.

Lemma search_then_found (a b pre mid post : string) :
  no_newline mid = true ->
  search_then a b (pre ++ a ++ mid ++ b ++ post) = true.
Proof.
  intros H. induction pre as [|c pre IH].
  - change ("" ++ a ++ mid ++ b ++ post) with (a ++ mid ++ b ++ post).
    destruct (a ++ mid ++ b ++ post) eqn:E; cbn [search_then];
      rewrite <- E, strip_prefix_app, follows_on_line_found by exact H;
      reflexivity.
  - cbn [append search_then]. rewrite IH. apply orb_true_r.
Qed.

Lemma upper_char_newline (c : ascii) :
  Ascii.eqb (upper_char c) newline = Ascii.eqb c newline.
Proof. destruct c as [[] [] [] [] [] [] [] []]; reflexivity. Qed.

Lemma no_newline_upper (s : string) : no_newline (upper s) = no_newline s.
Proof.
  induction s as [|c s IH]; [reflexivity|].
  unfold upper in *. simpl. now rewrite upper_char_newline, IH.
Qed.

End InjectionPatterns.

(** X25: a statement in which the letters OR, in any letter case and
    also inside a word such as ORDER, are followed on the same line by
    1=1 is warned about as a potential boolean injection and rated
    "medium"; the warning never blocks it: if the statement is ASCII
    text, it is still found secure exactly when it holds no dangerous
    keyword token. *)
Theorem or_before_tautology_is_only_a_warning
        (pre tok mid post : string) (strict_mode : bool) :
  let sql := pre ++ tok ++ mid ++ "1=1" ++ post in
  let verdict := SqlTools.security_validator sql strict_mode in
  PyStr.upper tok = "OR" ->
  Re.no_newline mid = true ->
  In "Potential injection pattern detected: OR.*1=1"
     (SqlTools.warnings verdict)
  /\ SqlTools.security_level verdict = "medium"
  /\ (PyStr.is_ascii sql = true ->
      (SqlTools.is_secure verdict = true <->
       forall keyword, In keyword SqlTools.dangerous_keywords ->
                       ~ SqlTools.standalone_token keyword sql)).
Proof.
  intros sql verdict Htok Hmid. subst verdict.
  assert (Hfound : Re.search_then_ignorecase "OR" "1=1" sql = true).
  { unfold Re.search_then_ignorecase. subst sql.
    rewrite !upper_app, Htok.
    change (PyStr.upper "OR") with "OR". change (PyStr.upper "1=1") with "1=1".
    apply search_then_found. now rewrite no_newline_upper. }
  assert (Hrisk : In "Potential injection pattern detected: OR.*1=1"
                     (SqlTools._check_injection_risks sql)).
  { unfold SqlTools._check_injection_risks.
    apply (in_map (fun p => ("Potential injection pattern detected: "
                               ++ snd p)%string)
                  _ ("OR", "1=1", "OR.*1=1")).
    apply filter_In. split; [|exact Hfound].
    unfold SqlTools.injection_patterns. simpl. tauto. }
  unfold SqlTools.security_validator.
  cbn [SqlTools.warnings SqlTools.security_level SqlTools.is_secure].
  split; [apply in_or_app; now left|]. split.
  - destruct (SqlTools._check_injection_risks sql); [contradiction|].
    reflexivity.
  - intros Hascii. split.
    + intros Hs keyword Hkw Htoken.
      pose proof (check_dangerous_operations_complete _ _ Hkw Hascii Htoken)
        as Hin.
      destruct (SqlTools._check_dangerous_operations sql);
        [contradiction | discriminate Hs].
    + intros Hnone.
      destruct (SqlTools._check_dangerous_operations sql) as [|kw ops] eqn:E;
        [reflexivity|].
      exfalso.
      destruct (check_dangerous_operations_inv sql kw Hascii) as [Hkw Ht].
      * rewrite E. now left.
      * exact (Hnone kw Hkw Ht).
Qed.

(** X25 at a query over an order table with a condition that is always
    true. *)
Lemma or_before_tautology_is_only_a_warning_witness :
  let sql := "SELECT * FROM ORDERS WHERE 1=1" in
  let verdict := SqlTools.security_validator sql true in
  In "Potential injection pattern detected: OR.*1=1"
     (SqlTools.warnings verdict)
  /\ SqlTools.security_level verdict = "medium"
  /\ (PyStr.is_ascii sql = true ->
      (SqlTools.is_secure verdict = true <->
       forall keyword, In keyword SqlTools.dangerous_keywords ->
                       ~ SqlTools.standalone_token keyword sql)).
Proof.
  apply (or_before_tautology_is_only_a_warning
           "SELECT * FROM " "OR" "DERS WHERE " "" true); reflexivity.
Defined.

(** ** Relationships inferred by the mapper *)

Lemma flat_map_length_le {A B : Type} (f : A -> list B) (l : list A) :
  (forall x, (length (f x) <= 1)%nat) ->
  (length (flat_map f l) <= length l)%nat.
Proof.
  intros Hf. induction l as [|a l IH]; simpl; [lia|].
  rewrite length_app. specialize (Hf a). lia.
Qed.

Lemma tool_infer_column_length by_name table column :
  (length (SchemaTools.infer_column by_name table column) <= 1)%nat.
Proof.
  unfold SchemaTools.infer_column.
  destruct (_ && _); [|simpl; lia].
  destruct (Discovery.first_known_variation _ _) as [[v t]|]; [|simpl; lia].
  destruct (find _ _); simpl; lia.
Qed.

(** X26: every relationship the mapper infers from names is well formed:
    its source is a column of a table of the list that is not a primary
    key and whose name ends in _id in some letter case, and its target is
    a column of a table of the list; and there are no more inferred
    relationships than columns. *)
Theorem mapper_relationships_are_well_formed
        (tables : list Models.Table.t) :
  (forall r,
      In r (SchemaTools._infer_relationships_from_naming tables) ->
      exists table column target target_column,
        In table tables
        /\ In column (Models.Table.columns table)
        /\ Models.Column.is_primary_key column = false
        /\ PyStr.endswith (PyStr.lower (Models.Column.name column)) "_id"
           = true
        /\ In target tables
        /\ In target_column (Models.Table.columns target)
        /\ r = Discovery.inferred table column target target_column)
  /\ (length (SchemaTools._infer_relationships_from_naming tables)
      <= length (flat_map Models.Table.columns tables))%nat.
Proof.
  unfold SchemaTools._infer_relationships_from_naming. split.
  - intros r Hr. apply in_flat_map in Hr. destruct Hr as [table [Htable Hr]].
    apply in_flat_map in Hr. destruct Hr as [column [Hcolumn Hr]].
    unfold SchemaTools.infer_column in Hr.
    destruct (PyStr.endswith _ "_id") eqn:Hid; [|contradiction].
    destruct (Models.Column.is_primary_key column) eqn:Hpk; [contradiction|].
    cbn [negb andb] in Hr.
    destruct (Discovery.first_known_variation _ _)
      as [[variation target]|] eqn:Hfirst; [|contradiction].
    destruct (find _ (Models.Table.columns target)) as [target_pk|] eqn:Hfind;
      [|contradiction].
    destruct Hr as [<-|[]].
    apply first_known_variation_In in Hfirst. destruct Hfirst as [_ Hget].
    apply table_by_name_Some in Hget.
    destruct Hget as [before [after [-> _]]].
    apply find_some in Hfind. destruct Hfind as [Hin _].
    exists table, column, target, target_pk.
    repeat (split; [assumption || reflexivity || idtac|]); try reflexivity.
    apply in_or_app. right. now left.
  - generalize (Discovery.table_by_name tables). intros by_name.
    induction tables as [|t ts IH]; simpl; [lia|].
    rewrite !length_app.
    pose proof (flat_map_length_le (SchemaTools.infer_column by_name t)
                  (Models.Table.columns t)
                  (tool_infer_column_length by_name t)).
    lia.
Qed.

(** ** The analysis step *)

Section AnalysisStep.
Import Py PyStr Orchestrator.

Variable env : Env.t.

Ltac no_analysis_entry :=
  let s := fresh "s" in
  let Hin := fresh "Hin" in
  intros s Hin;
  repeat (apply in_app_or in Hin; destruct Hin as [Hin|Hin]);
  simpl in Hin;
  repeat (destruct Hin as [Hin|Hin]; [discriminate Hin|]);
  auto; try contradiction.

Lemma app_cons_neq {A : Type} (l r : list A) (x : A) : (l ++ x :: r)%list <> l.
Proof.
  intros E. apply (f_equal (@length A)) in E.
  rewrite length_app in E. simpl in E. lia.
Qed.

Lemma generate_and_execute_outcome self question user_context schema_context
      log0 :
  (forall s, ~ In ("analysis", s) log0) ->
  let run := generate_and_execute env self question user_context
                                  schema_context log0 in
  stops_early self run \/ ends_in_finish env self question user_context run.
Proof.
  intros Hlog. unfold generate_and_execute, _generate_sql_with_retries.
  destruct (SQLAgent._complete_sql_workflow _ _ _ _ _) as [r agent].
  destruct r;
    try (left; eexists; eexists; split; [reflexivity|];
         split; [no_analysis_entry; eapply Hlog; eauto | split; reflexivity]).
  unfold _execute_sql_safely.
  cbn [db_calls with_sql_agent].
  destruct (Env.db env (db_calls self) final_sql) as [rs|e].
  - right. unfold ends_in_finish. cbv beta iota zeta.
    match goal with
    | |- context [finish env ?a ?b ?c ?d ?f ?g] => exists a, d, f, g
    end.
    split; [reflexivity|].
    split; [split; [no_analysis_entry; eapply Hlog; eauto
                   | split; reflexivity]|].
    cbn. apply app_cons_neq.
  - unfold repair_and_retry, _attempt_sql_fix.
    cbn [sql_agent with_db_calls with_sql_agent].
    destruct (SQLAgent._fix_sql _ _ _ _ _ _) as [r agent'].
    destruct r;
      try (left; eexists; eexists; split; [reflexivity|];
           split; [no_analysis_entry; eapply Hlog; eauto
                  | split; reflexivity]).
    unfold _execute_sql_safely.
    cbn [db_calls with_sql_agent with_db_calls].
    destruct (Env.db env _ corrected_sql) as [rs|e'].
    + right. unfold ends_in_finish. cbv beta iota zeta.
      match goal with
      | |- context [finish env ?a ?b ?c ?d ?f ?g] => exists a, d, f, g
      end.
      split; [reflexivity|].
      split; [split; [no_analysis_entry; eapply Hlog; eauto
                     | split; reflexivity]|].
      cbn. rewrite <- app_assoc. apply app_cons_neq.
    + left. eexists; eexists. split; [reflexivity|].
      split; [no_analysis_entry; eapply Hlog; eauto | split; reflexivity].
Qed.

Lemma ensure_schema_context_before self question :
  let self1 := snd (_ensure_schema_context env self question) in
  last_successful_workflow self1 = last_successful_workflow self
  /\ include_analysis self1 = include_analysis self
  /\ db_calls self1 = db_calls self.
Proof.
  unfold _ensure_schema_context.
  destruct (SchemaAgent.execute_get_context env (schema_agent self) question)
    as [r agent].
  destruct (cache_schema self) eqn:Hc, (schema_context_cached self);
    simpl; try destruct (cached_schema_context self) as [c|];
    try destruct (truthy c);
    destruct r; simpl; rewrite ?Hc; auto.
Qed.

Lemma complete_bi_workflow_outcome self question user_context :
  let run := _complete_bi_workflow env self question user_context in
  stops_early self run \/ ends_in_finish env self question user_context run.
Proof.
  unfold _complete_bi_workflow.
  destruct (negb (truthy question)).
  { left. exists "Question is required for BI workflow", [].
    split; [reflexivity|]. split; [intros s []| split; reflexivity]. }
  destruct (ensure_schema_context_before self question) as [H1 [H2 H3]].
  destruct (_ensure_schema_context env self question) as [res self1].
  cbn [fst snd] in *.
  assert (Hlog : forall s,
            ~ In ("analysis", s) [("schema_context", ContextStep res)])
    by (intros s [Hin|[]]; discriminate Hin).
  destruct res as [c|c ts|r].
  3: { left. eexists; eexists. split; [reflexivity|].
       split; [exact Hlog | split; assumption]. }
  all: match goal with
       | |- context [generate_and_execute ?v ?a ?b ?c ?d ?f] =>
           destruct (generate_and_execute_outcome a b c d f Hlog)
             as [[msg [log0 [E [L1 [L2 L3]]]]]
                |[self' [sql [rs [log0 [E [[L1 [L2 L3]] L4]]]]]]]
       end;
    [left; exists msg, log0; split; [exact E|];
     split; [exact L1 | split; congruence]
    |right; exists self', sql, rs, log0; split; [exact E|];
     split; [split; [exact L1 | split; congruence] | congruence]].
Qed.

End AnalysisStep.

(** X27: a run that succeeds with an empty result (no rows, or no result
    object at all) is not analysed: the response carries no analysis and
    no insights, counts zero rows, and the log has no analysis step. *)
Theorem empty_result_is_not_analysed
        (env : Env.t) (self : Orchestrator.t) (question user_context : string) :
  let response :=
    fst (Orchestrator._complete_bi_workflow env self question user_context) in
  Orchestrator.status response = Py.success ->
  SqlTools.nonempty (match Orchestrator.results response with
                     | Some rs => rs
                     | None => []
                     end) = false ->
  Orchestrator.analysis response = None
  /\ Orchestrator.insights response = None
  /\ Orchestrator.result_count response = 0%nat
  /\ forall s, ~ In ("analysis", s) (Orchestrator.log response).
Proof.
  intros response Hstatus Hempty. subst response.
  destruct (complete_bi_workflow_outcome env self question user_context)
    as [[msg [log0 [E _]]]
       |[self' [sql [rs [log0 [E [[Hlog _] _]]]]]]].
  - rewrite E in Hstatus. discriminate Hstatus.
  - rewrite E in *. clear E. revert Hstatus Hempty.
    unfold Orchestrator.finish.
    destruct (Orchestrator.include_analysis self' && SqlTools.nonempty _)
      eqn:Hcond.
    + apply andb_true_iff in Hcond. destruct Hcond as [_ Hcond].
      cbn [fst Orchestrator.status Orchestrator.results].
      intros _ Hempty. exfalso.
      destruct rs as [[|row rs]|]; simpl in Hcond, Hempty; discriminate.
    + cbn. intros _ Hempty.
      split; [reflexivity|]. split; [reflexivity|]. split; [|exact Hlog].
      destruct rs as [[|row rs]|]; [reflexivity | discriminate | reflexivity].
Qed.

(** X27 at a run whose repaired statement returns no rows. *)
Lemma empty_result_is_not_analysed_witness :
  let response :=
    fst (Orchestrator._complete_bi_workflow
           Scenarios.unsafe_repair Orchestrator.init "total sales" "") in
  Orchestrator.analysis response = None
  /\ Orchestrator.insights response = None
  /\ Orchestrator.result_count response = 0%nat
  /\ forall s, ~ In ("analysis", s) (Orchestrator.log response).
Proof.
  apply (empty_result_is_not_analysed
           Scenarios.unsafe_repair Orchestrator.init "total sales" "");
    reflexivity.
Defined.

(** X28: a run of the complete BI workflow whose log has an analysis step
    is a success: the analysis was made of the rows the response carries,
    of which there is at least one, for the question and the user context
    of the run; the response takes its analysis and its insights from it,
    and it is kept as the last successful workflow. *)
Theorem analysed_run_is_successful
        (env : Env.t) (self : Orchestrator.t) (question user_context : string)
        (a : Env.analysis_result) :
  let run := Orchestrator._complete_bi_workflow env self question
                                                user_context in
  In ("analysis", Orchestrator.AnalysisStep a) (Orchestrator.log (fst run)) ->
  Orchestrator.status (fst run) = Py.success
  /\ (exists row rows,
         Orchestrator.results (fst run) = Some (row :: rows)
         /\ a = Env.analysis env question (row :: rows) user_context)
  /\ Orchestrator.analysis (fst run) = Env.comprehensive_results a
  /\ Orchestrator.insights (fst run) = Env.insights a
  /\ Orchestrator.last_successful_workflow (snd run) = Some (fst run)
  /\ Orchestrator.include_analysis self = true.
Proof.
  intros run Hlogged. subst run.
  destruct (complete_bi_workflow_outcome env self question user_context)
    as [[msg [log0 [E [Hlog _]]]]
       |[self' [sql [rs [log0 [E [[Hlog [_ Hinclude]] _]]]]]]].
  - rewrite E in Hlogged. cbn in Hlogged. now apply Hlog in Hlogged.
  - rewrite E in *. clear E. revert Hlogged.
    unfold Orchestrator.finish.
    destruct (Orchestrator.include_analysis self' && SqlTools.nonempty _)
      eqn:Hcond.
    + apply andb_true_iff in Hcond. destruct Hcond as [Hon Hrows].
      cbn. intros Hlogged. apply in_app_or in Hlogged.
      destruct Hlogged as [Hin|[[= <-]|[]]]; [now apply Hlog in Hin|].
      destruct rs as [[|row rows]|]; try discriminate Hrows.
      split; [reflexivity|]. split; [now exists row, rows|].
      split; [reflexivity|]. split; [reflexivity|]. split; [reflexivity|].
      now rewrite <- Hinclude.
    + cbn. intros Hin. now apply Hlog in Hin.
Qed.

(** X28 at a run against two tables whose statement returns one row. *)
Lemma analysed_run_is_successful_witness :
  let run := Orchestrator._complete_bi_workflow
               Scenarios.shop_with_analysis Scenarios.shop_ready
               "how many orders" "" in
  Orchestrator.status (fst run) = Py.success
  /\ (exists row rows,
         Orchestrator.results (fst run) = Some (row :: rows)
         /\ Scenarios.one_insight
            = Env.analysis Scenarios.shop_with_analysis "how many orders"
                           (row :: rows) "")
  /\ Orchestrator.analysis (fst run)
     = Env.comprehensive_results Scenarios.one_insight
  /\ Orchestrator.insights (fst run) = Some "One order was counted."
  /\ Orchestrator.last_successful_workflow (snd run) = Some (fst run)
  /\ Orchestrator.include_analysis Scenarios.shop_ready = true.
Proof.
  apply (analysed_run_is_successful
           Scenarios.shop_with_analysis Scenarios.shop_ready
           "how many orders" "" Scenarios.one_insight).
  vm_compute. repeat (first [left; reflexivity | right]).
Defined.
